(** * Smart-route-safety-navigator: the spatiotemporal risk engine

    A shallow embedding of the scoring code of [app.py] and of the incident
    simulation of [generate_crime_data.py], with the properties of the
    specification stated over it.

    Conventions of the embedding.
    - A Python [float] is a real number ([R]); [math.exp], [math.sin],
      [math.cos], [math.sqrt] are the Standard Library's functions and
      [math.atan2] is defined from [atan].  Binary rounding of the
      arithmetic is not modelled.
    - [round(x, n)] is rounding to [n] decimals, ties to even.
    - A [datetime] is a number of microseconds ([Z]); the difference of two
      is a [timedelta], also in microseconds.
    - A severity is an integer ([Z]), as the CSV column holds it.
    - A dict with a fixed set of keys is a record; a list of dicts, or the
      rows of a DataFrame, is a [list] of records in iteration order.
    - [datetime.now()] reads a clock that is threaded through the code;
      every draw of [random] is an explicit argument. *)

From Stdlib Require Import Reals ZArith List String Ascii Bool Lia Lra Psatz.
From Stdlib Require Import Zfloor DecimalString Permutation Sorted ZifyNat.
Import ListNotations.

Open Scope R_scope.

(* ================================================================== *)
(** ** Numbers *)

Definition Rltb (x y : R) : bool := if Rlt_dec x y then true else false.
Definition Rleb (x y : R) : bool := if Rle_dec x y then true else false.

(** [round_half_even x]: the integer nearest to [x], the even one on a tie. *)
Definition round_half_even (x : R) : Z :=
  let f := Zfloor x in
  let d := x - IZR f in
  if Rlt_dec d (1 / 2) then f
  else if Rlt_dec (1 / 2) d then (f + 1)%Z
  else if Z.even f then f else (f + 1)%Z.

(** Python's [round(x, ndigits)] for [ndigits >= 0]. *)
Definition py_round (x : R) (ndigits : nat) : R :=
  IZR (round_half_even (x * 10 ^ ndigits)) / 10 ^ ndigits.

(** [range(0, n, step)] *)
Definition range_step (n step : nat) : list nat :=
  map (fun k => (k * step)%nat) (seq 0 ((n + step - 1) / step)).

(** [math.radians] *)
Definition radians (deg : R) : R := deg * PI / 180.

(** [math.atan2(y, x)] *)
Definition atan2 (y x : R) : R :=
  if Rlt_dec 0 x then atan (y / x)
  else if Rlt_dec x 0 then
    (if Rle_dec 0 y then atan (y / x) + PI else atan (y / x) - PI)
  else if Rlt_dec 0 y then PI / 2
  else if Rlt_dec y 0 then - (PI / 2)
  else 0.

(** A [datetime], in microseconds; a [timedelta] likewise. *)
Definition datetime := Z.
Definition timedelta := Z.
Bind Scope Z_scope with datetime timedelta.

(** [dt.hour] *)
Definition hour_of (dt : datetime) : Z := ((dt / 3600000000) mod 24)%Z.

(** [td.total_seconds()] *)
Definition total_seconds (td : timedelta) : R := IZR td / 1000000.

(** [str.lower()] on ASCII letters. *)
Definition lower_ascii (c : ascii) : ascii :=
  let n := nat_of_ascii c in
  if ((65 <=? n) && (n <=? 90))%nat then ascii_of_nat (n + 32) else c.

Fixpoint lower (s : string) : string :=
  match s with
  | EmptyString => EmptyString
  | String c t => String (lower_ascii c) (lower t)
  end.

(** [str(n)] for an integer. *)
Definition str_of_Z (z : Z) : string := NilEmpty.string_of_int (Z.to_int z).

(** [l[i] = x] on a list that has an index [i]; the code never writes
    out of range, where Python would raise. *)
Fixpoint list_set {A : Type} (l : list A) (i : nat) (x : A) : list A :=
  match l, i with
  | [], _ => []
  | _ :: t, O => x :: t
  | h :: t, S j => h :: list_set t j x
  end.

(** Stable sort by a real key, as [list.sort(key=...)] sorts: insertion
    from the right keeps equal keys in their original order. *)
Section StableSort.

Context {A : Type} (key : A -> R).

Fixpoint insert_by (x : A) (l : list A) : list A :=
  match l with
  | [] => [x]
  | y :: t => if Rleb (key x) (key y) then x :: l else y :: insert_by x t
  end.

Definition sort_by (l : list A) : list A := fold_right insert_by [] l.

End StableSort.

(* ================================================================== *)
(** ** app.py *)

Module App.

(** [get_time_risk_multiplier(hour)]; the label is given without its
    leading pictograph. *)
Definition get_time_risk_multiplier (hour : Z) : R * string :=
  if ((22 <=? hour) || (hour <? 4))%Z then (18 / 10, "Night Travel Risk: HIGH"%string)
  else if ((18 <=? hour) && (hour <? 22))%Z then (13 / 10, "Evening Travel Risk: MODERATE"%string)
  else if ((4 <=? hour) && (hour <? 7))%Z then (12 / 10, "Early Morning Risk: SLIGHTLY ELEVATED"%string)
  else (1, "Daytime Risk: NORMAL"%string).

(** A row of the crime table: the columns the scoring code reads. *)
Record crime : Type := mk_crime {
  latitude : R;
  longitude : R;
  type : string;
  description : string;
  severity : Z
}.

Definition DataFrame := list crime.

(** [get_crime_df()]: [cache] is the global [_CRIME_DF]; [read_csv] is the
    outcome of [pd.read_csv], [None] when it raises.  Returns the table and
    the new value of the global. *)
Definition get_crime_df (cache : option DataFrame) (read_csv : option DataFrame)
  : DataFrame * option DataFrame :=
  match cache with
  | Some df => (df, cache)
  | None =>
      match read_csv with
      | Some df => (df, Some df)
      | None => ([], Some [])
      end
  end.

(** [haversine(lat1, lon1, lat2, lon2)], in km. *)
Definition haversine (lat1 lon1 lat2 lon2 : R) : R :=
  let dlat := radians (lat2 - lat1) in
  let dlon := radians (lon2 - lon1) in
  let a := (sin (dlat / 2)) ^ 2
           + cos (radians lat1) * cos (radians lat2) * (sin (dlon / 2)) ^ 2 in
  6371 * 2 * atan2 (sqrt a) (sqrt (1 - a)).

(** An entry of [unsafe_pins]. *)
Record pin : Type := mk_pin {
  pin_lat : R;
  pin_lng : R;
  pin_type : string;
  pin_desc : string;
  pin_severity : Z
}.

Definition pin_eq_dec (p q : pin) : {p = q} + {p <> q}.
Proof.
  decide equality; auto using Req_dec_T, string_dec, Z.eq_dec.
Defined.

Definition pin_of (c : crime) : pin :=
  mk_pin (latitude c) (longitude c) (type c) (description c) (severity c).

(** What one row adds to [total_risk] when it is in range. *)
Definition risk_term (time_multiplier : R) (c : crime) : R :=
  if (severity c <? 0)%Z then IZR (severity c)
  else IZR (severity c) * time_multiplier.

(** Body of the inner loop of [calculate_safety]: one vertex, one row. *)
Definition scan_crime (lat lon time_multiplier : R)
    (st : R * list pin) (c : crime) : R * list pin :=
  let (total_risk, unsafe_pins) := st in
  let distance := haversine lat lon (latitude c) (longitude c) in
  if Rltb distance (3 / 10) then
    (total_risk + risk_term time_multiplier c, unsafe_pins ++ [pin_of c])
  else st.

(** Body of the outer loop: the vertex [geometry[i]] is [(lon, lat)]. *)
Definition scan_vertex (geometry : list (R * R)) (crime_df : DataFrame)
    (time_multiplier : R) (st : R * list pin) (i : nat) : R * list pin :=
  match nth_error geometry i with
  | Some (lon, lat) => fold_left (scan_crime lat lon time_multiplier) crime_df st
  | None => st
  end.

(** The two loops of [calculate_safety]: [(total_risk, unsafe_pins)]. *)
Definition route_scan (geometry : list (R * R)) (crime_df : DataFrame)
    (time_multiplier : R) : R * list pin :=
  fold_left (scan_vertex geometry crime_df time_multiplier)
            (range_step (List.length geometry) 5) (0, []).

(** The set comprehension that removes duplicates; Python does not fix the
    order in which the set is read back, the model reads it in the order
    of last occurrence. *)
Definition unique (pins : list pin) : list pin := nodup pin_eq_dec pins.

(** [calculate_safety(geometry, crime_df, time_multiplier)] *)
Definition calculate_safety (geometry : list (R * R)) (crime_df : DataFrame)
    (time_multiplier : R) : R * list pin :=
  let (total_risk, unsafe_pins) := route_scan geometry crime_df time_multiplier in
  let unique_pins := unique unsafe_pins in
  let safety_score := Rmax 0 (Rmin 100 (100 - total_risk * 2)) in
  (py_round safety_score 2, unique_pins).

(** [classify_route_safety(score)]: category, colour, label (the label
    without its trailing pictograph). *)
Definition classify_route_safety (score : R) : string * string * string :=
  if Rleb 70 score then ("safe", "#10B981", "Safest Route")%string
  else if Rleb 40 score then ("moderate", "#F59E0B", "Moderate Route")%string
  else ("risk", "#EF4444", "Risky Route")%string.

(** An entry of [safe_havens]. *)
Record haven : Type := mk_haven {
  haven_type : string;
  haven_lat : R;
  haven_lng : R;
  haven_distance : R;
  haven_description : string
}.

(** [find_nearest_safe_havens(lat, lng, crime_df, limit)] *)
Definition find_nearest_safe_havens (lat lng : R) (crime_df : DataFrame)
    (limit : nat) : list haven :=
  let safety_df := filter (fun c => (severity c <? 0)%Z) crime_df in
  let safe_havens :=
    map (fun point =>
           let distance := haversine lat lng (latitude point) (longitude point) in
           mk_haven (type point) (latitude point) (longitude point)
                    (py_round distance 2) (description point))
        safety_df in
  firstn limit (sort_by haven_distance safe_havens).

(** An entry of [nearby_crimes] in the radar scan. *)
Record radar_crime : Type := mk_radar_crime {
  rc_lat : R;
  rc_lng : R;
  rc_type : string;
  rc_distance : R;
  rc_severity : Z
}.

(** Body of the loop of [get_radar_scan]; [total_risk] is an integer
    there, a sum of integer severities. *)
Definition radar_step (lat lng : R) (st : Z * list radar_crime) (c : crime)
  : Z * list radar_crime :=
  let (total_risk, nearby_crimes) := st in
  let distance := haversine lat lng (latitude c) (longitude c) in
  if Rltb distance 1 then
    if (0 <? severity c)%Z then
      ((total_risk + severity c)%Z,
       nearby_crimes ++ [mk_radar_crime (latitude c) (longitude c) (type c)
                           (py_round (distance * 1000) 0) (severity c)])
    else st
  else st.

Definition radar_loop (lat lng : R) (df : DataFrame) : Z * list radar_crime :=
  fold_left (radar_step lat lng) df (0%Z, []).

(** The JSON body of a successful radar scan. *)
Record radar_response : Type := mk_radar_response {
  safety_score : R;
  nearby_crimes : nat;
  recent_incidents : list radar_crime;
  safe_havens : list haven
}.

(** The [try] block of [get_radar_scan], on the table [df]. *)
Definition radar_scan (lat lng : R) (df : DataFrame) : radar_response :=
  let (total_risk, nearby_crimes0) := radar_loop lat lng df in
  let nearby_crimes1 := firstn 5 (sort_by rc_distance nearby_crimes0) in
  let safety_score := Rmax 0 (Rmin 100 (100 - IZR total_risk * (15 / 10))) in
  let safe_havens := find_nearest_safe_havens lat lng df 2 in
  mk_radar_response (py_round safety_score 1) (List.length nearby_crimes1)
                    nearby_crimes1 safe_havens.

(** [not v] for a JSON number that may be absent. *)
Definition falsy (v : option R) : bool :=
  match v with
  | None => true
  | Some x => if Req_dec_T x 0 then true else false
  end.

(** [get_radar_scan()]: the request carries [lat] and [lng]; the answer is
    the JSON body or the 400 error. *)
Definition get_radar_scan (lat lng : option R) (df : DataFrame)
  : radar_response + string :=
  match lat, lng with
  | Some la, Some ln =>
      if falsy lat || falsy lng then inr "Coordinates required"%string
      else inl (radar_scan la ln df)
  | _, _ => inr "Coordinates required"%string
  end.

(** The message of [generate_safety_narrative], kept as its template and
    the values that fill it:
    - [ClearPath l]: "Clear path detected. No crime incidents within 300m. l."
    - [MinimalData l]: "Route appears safe with minimal crime data nearby. l."
    - [HighRisk n t l]: "HIGH RISK: n incidents near route, primarily t.
      Avoid if possible. l."
    - [StayAlert n t l]: "n flagged zones detected, mainly t. Stay alert and
      use well-lit paths. l."
    - [GenerallySafe n t l]: "Generally safe with n minor zone caution(s),
      mainly t. l." *)
Inductive narrative : Type :=
| ClearPath (multiplier_label : string)
| MinimalData (multiplier_label : string)
| HighRisk (count : nat) (top_crime multiplier_label : string)
| StayAlert (count : nat) (top_crime multiplier_label : string)
| GenerallySafe (count : nat) (top_crime multiplier_label : string).

(** [if t not in d: d[t] = 0] followed by [d[t] += 1], on a dict kept in
    order of insertion. *)
Fixpoint count_type (d : list (string * nat)) (t : string) : list (string * nat) :=
  match d with
  | [] => [(t, 1%nat)]
  | (k, v) :: rest =>
      if String.eqb t k then (k, S v) :: rest else (k, v) :: count_type rest t
  end.

(** [max(d, key=d.get)]: the first key, in order of insertion, whose count
    is the largest; Python raises on the empty dict, which the caller never
    passes. *)
Definition max_key (d : list (string * nat)) : string :=
  match d with
  | [] => EmptyString
  | first :: rest =>
      fst (fold_left (fun best kv => if (snd best <? snd kv)%nat then kv else best)
                     rest first)
  end.

(** [generate_safety_narrative(score, pins, category, multiplier_label)] *)
Definition generate_safety_narrative (score : R) (pins : list pin)
    (category multiplier_label : string) : narrative :=
  match pins with
  | [] =>
      if Rleb 85 score then ClearPath multiplier_label
      else MinimalData multiplier_label
  | _ :: _ =>
      let crime_types := fold_left count_type (map pin_type pins) [] in
      let top_crime := max_key crime_types in
      let count := List.length pins in
      if String.eqb category "risky" then HighRisk count top_crime multiplier_label
      else if String.eqb category "moderate" then StayAlert count top_crime multiplier_label
      else GenerallySafe count top_crime multiplier_label
  end.

(** An entry of [heatmap_points]. *)
Record heat_point : Type := mk_heat_point {
  heat_lat : R;
  heat_lng : R;
  intensity : R
}.

(** [get_heatmap_data(crime_df)] *)
Definition get_heatmap_data (crime_df : DataFrame) : list heat_point :=
  flat_map (fun c =>
              if (0 <? severity c)%Z
              then [mk_heat_point (latitude c) (longitude c)
                      (Rmin (IZR (severity c) / 10) 1)]
              else [])
           crime_df.

(** An entry of [nearby_dangers]. *)
Record danger : Type := mk_danger {
  danger_type : string;
  danger_severity : Z;
  danger_distance : R;
  danger_description : string
}.

(** The order on the sort key [(-severity, distance)] of [get_sos_context]:
    tuples compare by their first component, then by their second. *)
Definition sos_key_lt (a b : danger) : bool :=
  ((- danger_severity a) <? (- danger_severity b))%Z
  || (((- danger_severity a) =? (- danger_severity b))%Z
      && Rltb (danger_distance a) (danger_distance b)).

(** Stable sort along a strict order given as a test, as [list.sort]
    sorts: an element moves behind the ones that are strictly less. *)
Section StableSortLt.

Context {A : Type} (lt : A -> A -> bool).

Fixpoint insert_lt (x : A) (l : list A) : list A :=
  match l with
  | [] => [x]
  | y :: t => if lt y x then y :: insert_lt x t else x :: l
  end.

Definition sort_lt (l : list A) : list A := fold_right insert_lt [] l.

End StableSortLt.

(** The dict [get_sos_context] returns; [timestamp] is the reading of
    [datetime.now()], before [strftime] prints it to the second. *)
Record sos_context : Type := mk_sos_context {
  user_location : R * R;
  sos_timestamp : datetime;
  nearby_dangers : list danger;
  sos_safe_havens : list haven
}.

(** [get_sos_context(lat, lng, crime_df, route_geometry)]; the route
    geometry is not read. *)
Definition get_sos_context (lat lng : R) (crime_df : DataFrame)
    (clock_reading : datetime) : sos_context :=
  let danger_df := filter (fun c => (7 <=? severity c)%Z) crime_df in
  let nearby :=
    flat_map (fun d =>
                let distance := haversine lat lng (latitude d) (longitude d) in
                if Rltb distance (5 / 10)
                then [mk_danger (type d) (severity d)
                        (py_round (distance * 1000) 0) (description d)]
                else [])
             danger_df in
  mk_sos_context (lat, lng) clock_reading
    (firstn 5 (sort_lt sos_key_lt nearby))
    (find_nearest_safe_havens lat lng crime_df 2).

(** The JSON body of [get_stats]. *)
Record stats : Type := mk_stats {
  total_incidents : nat;
  high_severity : nat;
  safe_zones : nat;
  time_context : string
}.

Definition count_rows (p : crime -> bool) (df : DataFrame) : nat :=
  List.length (filter p df).

(** The [try] block of [get_stats], at the hour [hour]. *)
Definition get_stats (df : DataFrame) (hour : Z) : stats :=
  let time_label := snd (get_time_risk_multiplier hour) in
  mk_stats (count_rows (fun c => (0 <? severity c)%Z) df)
           (count_rows (fun c => (7 <=? severity c)%Z) df)
           (count_rows (fun c => (severity c <? 0)%Z) df)
           time_label.

(** A route as the routing service returns it: the coordinates of its
    geometry, its distance in metres, its duration in seconds. *)
Record route : Type := mk_route {
  route_coordinates : list (R * R);
  route_distance : R;
  route_duration : R
}.

(** An entry of [scored_routes]; [sr_distance_km] and [sr_duration_min] are
    the numbers printed in front of " km" and " min". *)
Record scored_route : Type := mk_scored_route {
  sr_geometry : list (R * R);
  sr_safety_score : R;
  sr_category : string;
  sr_color : string;
  sr_label : string;
  sr_pins : list pin;
  sr_distance_km : R;
  sr_duration_min : R;
  sr_narrative : narrative;
  sr_time_label : string
}.

(** Body of the scoring loop of [get_triple_routes]. *)
Definition score_route (df : DataFrame) (multiplier : R) (multiplier_label : string)
    (r : route) : scored_route :=
  let (score, pins) := calculate_safety (route_coordinates r) df multiplier in
  let '(category, color, label) := classify_route_safety score in
  let narrative := generate_safety_narrative score pins category multiplier_label in
  mk_scored_route (route_coordinates r) score category color label pins
    (py_round (route_distance r / 1000) 2) (py_round (route_duration r / 60) 0)
    narrative multiplier_label.

(** The [try] block of [get_triple_routes], at the hour [hour]: every
    route is scored, then [sort(key=safety_score, reverse=True)] puts the
    highest score first and keeps routes of equal score in their order. *)
Definition score_routes (routes : list route) (df : DataFrame) (hour : Z)
  : list scored_route :=
  let (multiplier, multiplier_label) := get_time_risk_multiplier hour in
  let scored_routes := map (score_route df multiplier multiplier_label) routes in
  sort_by (fun sr => - sr_safety_score sr) scored_routes.

(** [find_safe_havens()]: the request carries [lat] and [lng]; the answer
    is the list of havens or the 400 error. *)
Definition find_safe_havens (lat lng : option R) (df : DataFrame)
  : list haven + string :=
  match lat, lng with
  | Some la, Some ln =>
      if falsy lat || falsy lng then inr "Coordinates required"%string
      else inl (find_nearest_safe_havens la ln df 5)
  | _, _ => inr "Coordinates required"%string
  end.

(** [send_sos()] *)
Definition send_sos (lat lng : option R) (df : DataFrame)
    (clock_reading : datetime) : sos_context + string :=
  match lat, lng with
  | Some la, Some ln =>
      if falsy lat || falsy lng then inr "Location required"%string
      else inl (get_sos_context la ln df clock_reading)
  | _, _ => inr "Location required"%string
  end.

End App.

(* ================================================================== *)
(** ** generate_crime_data.py *)

Module Sim.

Definition MAX_ACTIVE_INCIDENTS : nat := 100.

Record crime_config : Type := mk_config {
  cfg_base_severity : Z;
  cfg_decay_rate : R
}.

(** The dict [CRIME_TYPES], in its order of insertion. *)
Definition CRIME_TYPES : list (string * crime_config) :=
  [ ("Assault"%string, mk_config 8 (1 / 10));
    ("Robbery"%string, mk_config 7 (15 / 100));
    ("Harassment"%string, mk_config 6 (2 / 10));
    ("Poor Lighting"%string, mk_config 4 (5 / 100));
    ("Isolated Area"%string, mk_config 5 (5 / 100));
    ("Drug Activity"%string, mk_config 7 (1 / 10));
    ("Police Station"%string, mk_config (-10) 0);
    ("CCTV Zone"%string, mk_config (-5) 0) ].

(** [d.get(k)] *)
Fixpoint dict_get {V : Type} (d : list (string * V)) (k : string) : option V :=
  match d with
  | [] => None
  | (k', v) :: t => if String.eqb k k' then Some v else dict_get t k
  end.

(** An incident dict. *)
Record incident : Type := mk_incident {
  id : string;
  type : string;
  latitude : R;
  longitude : R;
  base_severity : Z;
  dynamic_risk_score : R;
  timestamp : datetime;
  last_updated : datetime;
  time_decay_factor : R;
  hotspot_density : R;
  safety_influence : R;
  description : string
}.

Definition set_dynamic_risk_score (inc : incident) (v : R) : incident :=
  mk_incident (id inc) (type inc) (latitude inc) (longitude inc)
    (base_severity inc) v (timestamp inc) (last_updated inc)
    (time_decay_factor inc) (hotspot_density inc) (safety_influence inc)
    (description inc).

Definition set_last_updated (inc : incident) (v : datetime) : incident :=
  mk_incident (id inc) (type inc) (latitude inc) (longitude inc)
    (base_severity inc) (dynamic_risk_score inc) (timestamp inc) v
    (time_decay_factor inc) (hotspot_density inc) (safety_influence inc)
    (description inc).

Definition set_hotspot_density (inc : incident) (v : R) : incident :=
  mk_incident (id inc) (type inc) (latitude inc) (longitude inc)
    (base_severity inc) (dynamic_risk_score inc) (timestamp inc)
    (last_updated inc) (time_decay_factor inc) v (safety_influence inc)
    (description inc).

Definition set_safety_influence (inc : incident) (v : R) : incident :=
  mk_incident (id inc) (type inc) (latitude inc) (longitude inc)
    (base_severity inc) (dynamic_risk_score inc) (timestamp inc)
    (last_updated inc) (time_decay_factor inc) (hotspot_density inc) v
    (description inc).

(** The wall clock: the readings that successive calls of
    [datetime.now()] return. *)
Definition clock := nat -> datetime.

Definition now (clk : clock) : datetime * clock :=
  (clk O, fun n => clk (S n)).

(** A row of the historical CSV.  [None] is an absent column; for the
    timestamp also a cell that [strptime] rejects.  The coordinates and a
    present severity are taken to parse. *)
Record csv_row : Type := mk_row {
  row_id : option string;
  row_type : option string;
  row_latitude : R;
  row_longitude : R;
  row_severity : option Z;
  row_timestamp : option datetime;
  row_description : option string
}.

(** The draws of [random] made while one row is loaded. *)
Record load_draws : Type := mk_load_draws {
  days_back : Z;        (* random.randint(1, 30) *)
  id_suffix : Z         (* random.randint(1000, 9999) *)
}.

Definition days (d : Z) : timedelta := (d * 86400 * 1000000)%Z.

Definition option_default {A : Type} (o : option A) (d : A) : A :=
  match o with Some a => a | None => d end.

(** Body of the loop of [load_base_data]. *)
Definition load_row (row : csv_row) (dr : load_draws) (clk : clock)
  : incident * clock :=
  let (dt, clk1) :=
    match row_timestamp row with
    | Some t => (t, clk)
    | None => let (n, c) := now clk in ((n - days (days_back dr))%Z, c)
    end in
  let ctype := option_default (row_type row) "Unknown"%string in
  let cfg := dict_get CRIME_TYPES ctype in
  let severity :=
    option_default (row_severity row)
      (match cfg with Some c => cfg_base_severity c | None => 5%Z end) in
  let (upd, clk2) := now clk1 in
  (mk_incident
     (option_default (row_id row) ("H-" ++ str_of_Z (id_suffix dr))%string)
     ctype (row_latitude row) (row_longitude row)
     severity (IZR severity) dt upd
     (match cfg with Some c => cfg_decay_rate c | None => 1 / 10 end)
     1 0
     (option_default (row_description row) "Historical incident"%string),
   clk2).

Fixpoint load_rows (rows : list (csv_row * load_draws)) (clk : clock)
  : list incident * clock :=
  match rows with
  | [] => ([], clk)
  | (row, dr) :: rest =>
      let (inc, clk1) := load_row row dr clk in
      let (incs, clk2) := load_rows rest clk1 in
      (inc :: incs, clk2)
  end.

(** [load_base_data(filepath)]: [file] is [None] when the path does not
    exist. *)
Definition load_base_data (file : option (list (csv_row * load_draws)))
    (clk : clock) : list incident * clock :=
  match file with
  | Some rows => load_rows rows clk
  | None => ([], clk)
  end.

(** [calculate_distance(lat1, lon1, lat2, lon2)], in km. *)
Definition calculate_distance (lat1 lon1 lat2 lon2 : R) : R :=
  let lat1_rad := radians lat1 in
  let lon1_rad := radians lon1 in
  let lat2_rad := radians lat2 in
  let lon2_rad := radians lon2 in
  let dlon := lon2_rad - lon1_rad in
  let dlat := lat2_rad - lat1_rad in
  let a := (sin (dlat / 2)) ^ 2
           + cos lat1_rad * cos lat2_rad * (sin (dlon / 2)) ^ 2 in
  let c := 2 * atan2 (sqrt a) (sqrt (1 - a)) in
  6371 * c.

Definition in_list (s : string) (l : list string) : bool :=
  existsb (String.eqb s) l.

(** [get_time_weight(incident_type, current_time)] *)
Definition get_time_weight (incident_type : string) (current_time : datetime) : R :=
  let hour := hour_of current_time in
  if ((20 <=? hour) || (hour <=? 4))%Z then
    if in_list incident_type
         ["Assault"; "Robbery"; "Poor Lighting"; "Isolated Area"]%string
    then 13 / 10 else 1
  else if ((10 <=? hour) && (hour <=? 18))%Z then
    if in_list incident_type ["Harassment"%string] then 11 / 10 else 1
  else 1.

(** Body of the loop of [calculate_hotspot_density]. *)
Definition hotspot_step (target_incident : incident)
    (st : nat * clock) (inc : incident) : nat * clock :=
  let (close_incidents, clk) := st in
  if negb (String.eqb (id inc) (id target_incident))
     && (0 <? base_severity inc)%Z then
    let dist := calculate_distance
                  (latitude target_incident) (longitude target_incident)
                  (latitude inc) (longitude inc) in
    if Rleb dist (5 / 10) then
      let (n, clk1) := now clk in
      let hours_diff := total_seconds (n - timestamp inc)%Z / 3600 in
      if Rltb hours_diff 24 then (S close_incidents, clk1)
      else (close_incidents, clk1)
    else st
  else st.

(** [calculate_hotspot_density(target_incident, all_incidents)] *)
Definition calculate_hotspot_density (target_incident : incident)
    (all_incidents : list incident) (clk : clock) : R * clock :=
  if (base_severity target_incident <? 0)%Z then (1, clk)
  else
    let (close_incidents, clk1) :=
      fold_left (hotspot_step target_incident) all_incidents (O, clk) in
    (Rmin (1 + INR close_incidents * (15 / 100)) 2, clk1).

(** Body of the loop of [calculate_safety_influence]. *)
Definition influence_step (target_incident : incident)
    (influence : R) (inc : incident) : R :=
  if (base_severity inc <? 0)%Z then
    let dist := calculate_distance
                  (latitude target_incident) (longitude target_incident)
                  (latitude inc) (longitude inc) in
    if Rleb dist 1 then
      let proximity_factor := 1 - dist / 1 in
      influence + IZR (Z.abs (base_severity inc)) * proximity_factor
    else influence
  else influence.

(** [calculate_safety_influence(target_incident, all_incidents)] *)
Definition calculate_safety_influence (target_incident : incident)
    (all_incidents : list incident) : R :=
  if (base_severity target_incident <? 0)%Z then 0
  else fold_left (influence_step target_incident) all_incidents 0.

(** The local [hours_elapsed] of [update_dynamic_scores]. *)
Definition hours_elapsed (inc : incident) (current_time : datetime) : R :=
  total_seconds (current_time - timestamp inc)%Z / 3600.

(** The local [recency_factor] of [update_dynamic_scores]. *)
Definition recency_factor (inc : incident) (current_time : datetime) : R :=
  exp (- time_decay_factor inc * hours_elapsed inc current_time).

(** Body of the loop of [update_dynamic_scores]: [incidents] is the list
    the dicts live in, [inc] the dict at index [i]; an assignment to a key
    of [inc] is written back at [i], so that the calls that receive the
    list see it. *)
Definition update_step (current_time : datetime)
    (st : list incident * clock) (i : nat) : list incident * clock :=
  let (incidents, clk) := st in
  match nth_error incidents i with
  | None => st
  | Some inc =>
      if (base_severity inc <? 0)%Z then
        let inc := set_dynamic_risk_score inc (IZR (base_severity inc)) in
        let inc := set_last_updated inc current_time in
        (list_set incidents i inc, clk)
      else
        let recency_factor := recency_factor inc current_time in
        let time_weight := get_time_weight (type inc) current_time in
        let (hd, clk1) := calculate_hotspot_density inc incidents clk in
        let inc := set_hotspot_density inc hd in
        let incidents := list_set incidents i inc in
        let inc := set_safety_influence inc
                     (calculate_safety_influence inc incidents) in
        let incidents := list_set incidents i inc in
        let raw_score :=
          IZR (base_severity inc) * time_weight * recency_factor
          * hotspot_density inc - safety_influence inc in
        let inc := set_dynamic_risk_score inc
                     (py_round (Rmax 0 (Rmin 10 raw_score)) 2) in
        let inc := set_last_updated inc current_time in
        (list_set incidents i inc, clk1)
  end.

(** [update_dynamic_scores(incidents, current_time)] *)
Definition update_dynamic_scores (incidents : list incident)
    (current_time : datetime) (clk : clock) : list incident * clock :=
  fold_left (update_step current_time) (seq 0 (List.length incidents))
            (incidents, clk).

(** The draws made by one call of [generate_new_incident], and the
    reading of [time.time()] in whole seconds. *)
Record gen_draws : Type := mk_gen_draws {
  ctype_index : nat;     (* random.choice over the danger categories *)
  coin : R;              (* random.random() *)
  anchor_index : nat;    (* random.choice(crime_incidents) *)
  lat_offset : R;        (* random.uniform(-0.015, 0.015) *)
  lon_offset : R;        (* random.uniform(-0.015, 0.015) *)
  lat_uniform : R;       (* random.uniform(lat_min, lat_max) *)
  lon_uniform : R;       (* random.uniform(lon_min, lon_max) *)
  id_number : Z;         (* random.randint(10, 99) *)
  unix_time : Z          (* int(time.time()) *)
}.

(** [random.choice(l)] with the index drawn, [d] on the empty list. *)
Definition choice {A : Type} (l : list A) (i : nat) (d : A) : A :=
  nth (i mod List.length l) l d.

Definition danger_types : list string :=
  map fst (filter (fun kv => (0 <? cfg_base_severity (snd kv))%Z) CRIME_TYPES).

(** The coordinates [generate_new_incident] chooses, before rounding;
    the first component tells whether the near-repeat branch ran, with
    its anchor. *)
Definition new_position (existing_incidents : list incident) (dr : gen_draws)
  : option incident * (R * R) :=
  let random_position := (None, (lat_uniform dr, lon_uniform dr)) in
  if Rltb (coin dr) (7 / 10) && negb (Nat.eqb (List.length existing_incidents) 0) then
    let crime_incidents :=
      filter (fun i => (0 <? base_severity i)%Z) existing_incidents in
    match crime_incidents with
    | [] => random_position
    | first :: _ =>
        let anchor := choice crime_incidents (anchor_index dr) first in
        (Some anchor,
         (latitude anchor + lat_offset dr, longitude anchor + lon_offset dr))
    end
  else random_position.

(** [generate_new_incident(existing_incidents)] *)
Definition generate_new_incident (existing_incidents : list incident)
    (dr : gen_draws) (clk : clock) : incident * clock :=
  let ctype := choice danger_types (ctype_index dr) "Assault"%string in
  let (new_lat, new_lon) := snd (new_position existing_incidents dr) in
  let incident_id :=
    ("SIM-" ++ str_of_Z (unix_time dr) ++ "-" ++ str_of_Z (id_number dr))%string in
  let config :=
    option_default (dict_get CRIME_TYPES ctype) (mk_config 0 0) in
  let (dt, clk1) := now clk in
  (mk_incident incident_id ctype (py_round new_lat 4) (py_round new_lon 4)
     (cfg_base_severity config) (IZR (cfg_base_severity config)) dt dt
     (cfg_decay_rate config) 1 0
     ("Simulated " ++ lower ctype ++ " reported via dispatch feed.")%string,
   clk1).

(** The freshness test of the purge: less than an hour old. *)
Definition fresh (current_time : datetime) (inc : incident) : bool :=
  Rltb (total_seconds (current_time - timestamp inc)%Z) 3600.

(** The list comprehension [pruned_incidents] of [run_simulation]. *)
Definition prune (incidents : list incident) (current_time : datetime)
  : list incident :=
  filter (fun inc =>
            Rleb (5 / 10) (dynamic_risk_score inc)
            || (base_severity inc <? 0)%Z
            || fresh current_time inc)
         incidents.

(** The injection loop: one call of [generate_new_incident] per element
    of [new], each on the list as grown so far. *)
Fixpoint inject (pruned_incidents : list incident) (new : list gen_draws)
    (clk : clock) : list incident * clock :=
  match new with
  | [] => (pruned_incidents, clk)
  | dr :: rest =>
      let (inc, clk1) := generate_new_incident pruned_incidents dr clk in
      inject (pruned_incidents ++ [inc]) rest clk1
  end.

(** One pass of the loop of [run_simulation], up to the write of the CSV;
    [new] holds the draws of the [num_new] incidents to inject. *)
Definition simulation_cycle (incidents : list incident) (new : list gen_draws)
    (clk : clock) : list incident * clock :=
  let (current_time, clk0) := now clk in
  let pruned_incidents := prune incidents current_time in
  let (pruned_incidents, clk1) :=
    if (List.length pruned_incidents <? MAX_ACTIVE_INCIDENTS)%nat
    then inject pruned_incidents new clk0
    else (pruned_incidents, clk0) in
  update_dynamic_scores pruned_incidents current_time clk1.

(** The incident lists the program can hold: loaded from the CSV, then
    pruned, grown by generated incidents and recomputed any number of
    times. *)
Inductive reachable : list incident -> Prop :=
| reach_load : forall file clk,
    reachable (fst (load_base_data file clk))
| reach_prune : forall incidents current_time,
    reachable incidents -> reachable (prune incidents current_time)
| reach_generate : forall incidents dr clk,
    reachable incidents ->
    reachable (incidents ++ [fst (generate_new_incident incidents dr clk)])
| reach_update : forall incidents current_time clk,
    reachable incidents ->
    reachable (fst (update_dynamic_scores incidents current_time clk)).

End Sim.

(* ================================================================== *)
(** ** The scoring rules in the words of the specification *)

Definition Rsum (l : list R) : R := fold_right Rplus 0 l.

Definition clamp (x lo hi : R) : R := Rmax lo (Rmin hi x).

Module RouteSpec.

(** Every fifth vertex of a route: the vertices at indices 0, 5, 10, ... *)
Definition sampled_vertices (geometry : list (R * R)) : list (R * R) :=
  flat_map (fun i => if (i mod 5 =? 0)%nat
                     then match nth_error geometry i with
                          | Some v => [v]
                          | None => []
                          end
                     else [])
           (seq 0 (List.length geometry)).

(** The row [c] lies within 0.3 km of the vertex [v = (lon, lat)]. *)
Definition near (v : R * R) (c : App.crime) : bool :=
  Rltb (App.haversine (snd v) (fst v) (App.latitude c) (App.longitude c)) (3 / 10).

(** A negative severity counts as it is, any other times the multiplier. *)
Definition contribution (time_multiplier : R) (c : App.crime) : R :=
  if (App.severity c <? 0)%Z then IZR (App.severity c)
  else IZR (App.severity c) * time_multiplier.

(** The accumulator: over each sampled vertex, over each row near it. *)
Definition accumulator (geometry : list (R * R)) (crime_df : App.DataFrame)
    (time_multiplier : R) : R :=
  Rsum (map (fun v =>
               Rsum (map (fun c => if near v c
                                   then contribution time_multiplier c else 0)
                         crime_df))
            (sampled_vertices geometry)).

(** The number of sampled vertices the row [c] lies near. *)
Definition hits (geometry : list (R * R)) (c : App.crime) : nat :=
  List.length (filter (fun v => near v c) (sampled_vertices geometry)).

End RouteSpec.

Module RadarSpec.

(** The row [c] counts for the radar scan at [(lat, lng)]: within 1 km,
    positive severity. *)
Definition qualifies (lat lng : R) (c : App.crime) : bool :=
  Rltb (App.haversine lat lng (App.latitude c) (App.longitude c)) 1
  && (0 <? App.severity c)%Z.

(** The accumulator: the sum of the severities of the rows that count. *)
Definition accumulator (lat lng : R) (df : App.DataFrame) : Z :=
  fold_right Z.add 0%Z (map App.severity (filter (qualifies lat lng) df)).

End RadarSpec.

Module RiskSpec.

(** Hours from [occurred_at] to [now]; negative when [occurred_at] is
    later than [now]. *)
Definition hours_between (occurred_at now : datetime) : R :=
  IZR (now - occurred_at) / 3600000000.

(** The dynamic risk of a danger incident from its stored fields: base
    severity, time weight, recency, density and influence. *)
Definition dynamic_risk (inc : Sim.incident) (now : datetime) : R :=
  let recency_factor :=
    exp (- Sim.time_decay_factor inc * hours_between (Sim.timestamp inc) now) in
  let raw :=
    IZR (Sim.base_severity inc) * Sim.get_time_weight (Sim.type inc) now
    * recency_factor * Sim.hotspot_density inc - Sim.safety_influence inc in
  py_round (clamp raw 0 10) 2.

(** Two dicts agree on the keys a recompute reads and never writes. *)
Definition same_inputs (a b : Sim.incident) : Prop :=
  Sim.id a = Sim.id b
  /\ Sim.type a = Sim.type b
  /\ Sim.latitude a = Sim.latitude b
  /\ Sim.longitude a = Sim.longitude b
  /\ Sim.base_severity a = Sim.base_severity b
  /\ Sim.timestamp a = Sim.timestamp b
  /\ Sim.time_decay_factor a = Sim.time_decay_factor b.

(** What one recompute of the list [incidents] does to its incident
    [inc]: the inputs stay; a safety asset gets its base severity as score
    and keeps its other derived fields; a danger incident gets the density
    and the influence computed against the list, and as score the dynamic
    risk of its new fields. *)
Definition recomputed (incidents : list Sim.incident) (now : datetime)
    (inc inc' : Sim.incident) : Prop :=
  same_inputs inc inc'
  /\ Sim.last_updated inc' = now
  /\ ((Sim.base_severity inc < 0)%Z ->
        Sim.dynamic_risk_score inc' = IZR (Sim.base_severity inc)
        /\ Sim.hotspot_density inc' = Sim.hotspot_density inc
        /\ Sim.safety_influence inc' = Sim.safety_influence inc)
  /\ ((0 <= Sim.base_severity inc)%Z ->
        (exists clk, Sim.hotspot_density inc'
                     = fst (Sim.calculate_hotspot_density inc incidents clk))
        /\ Sim.safety_influence inc' = Sim.calculate_safety_influence inc incidents
        /\ Sim.dynamic_risk_score inc' = dynamic_risk inc' now).

(** The time weight as the specification words it: 1.3 for the four
    night categories at the hours 20 to 3, 1.1 for harassment at the hours
    10 to 18, else 1. *)
Definition time_weight (category : string) (hour : Z) : R :=
  if Sim.in_list category ["Assault"; "Robbery"; "Poor Lighting"; "Isolated Area"]%string
     && ((20 <=? hour) || (hour <? 4))%Z
  then 13 / 10
  else if String.eqb category "Harassment" && ((10 <=? hour) && (hour <=? 18))%Z
  then 11 / 10
  else 1.

(** The hours elapsed as the specification words them: the hours from
    [occurred_at] to [now], and 0 when [occurred_at] is later than [now]. *)
Definition hours_elapsed (occurred_at now : datetime) : R :=
  Rmax 0 (hours_between occurred_at now).

(** The score of a danger incident as the specification words it: its own
    time weight and hours elapsed, with the stored density and
    influence. *)
Definition risk_score (inc : Sim.incident) (now : datetime) : R :=
  let recency_factor :=
    exp (- Sim.time_decay_factor inc * hours_elapsed (Sim.timestamp inc) now) in
  let raw :=
    IZR (Sim.base_severity inc) * time_weight (Sim.type inc) (hour_of now)
    * recency_factor * Sim.hotspot_density inc - Sim.safety_influence inc in
  py_round (clamp raw 0 10) 2.

(** A safety asset keeps density 1 and influence 0 as stored fields. *)
Definition static_asset (inc : Sim.incident) : Prop :=
  (Sim.base_severity inc < 0)%Z ->
  Sim.hotspot_density inc = 1 /\ Sim.safety_influence inc = 0.

End RiskSpec.

Module NarrativeSpec.

(** [d.get(k, 0)] on a dict of counts. *)
Fixpoint count_of (d : list (string * nat)) (k : string) : nat :=
  match d with
  | [] => O
  | (k', v) :: rest => if String.eqb k k' then v else count_of rest k
  end.

(** The number of pins of the category [t]. *)
Definition pins_of_type (pins : list App.pin) (t : string) : nat :=
  count_occ string_dec (map App.pin_type pins) t.

End NarrativeSpec.

(* ================================================================== *)
(** ** Rounding *)

Section Rounding.

Lemma Rltb_true (x y : R) : Rltb x y = true <-> x < y.
Proof. unfold Rltb. destruct (Rlt_dec x y); split; intros; auto; discriminate. Qed.

Lemma Rltb_false (x y : R) : Rltb x y = false <-> y <= x.
Proof.
  unfold Rltb. destruct (Rlt_dec x y); split; intros; auto; try discriminate; lra.
Qed.

Lemma Rleb_true (x y : R) : Rleb x y = true <-> x <= y.
Proof. unfold Rleb. destruct (Rle_dec x y); split; intros; auto; discriminate. Qed.

Lemma Rleb_false (x y : R) : Rleb x y = false <-> y < x.
Proof.
  unfold Rleb. destruct (Rle_dec x y); split; intros; auto; try discriminate; lra.
Qed.

(** The nearest integer is at most a half away. *)
Lemma round_half_even_bound (x : R) :
  x - 1 / 2 <= IZR (round_half_even x) <= x + 1 / 2.
Proof.
  unfold round_half_even.
  pose proof (Zfloor_bound x) as [Hlo Hhi].
  destruct (Rlt_dec (x - IZR (Zfloor x)) (1 / 2)).
  - lra.
  - destruct (Rlt_dec (1 / 2) (x - IZR (Zfloor x))).
    + rewrite plus_IZR. lra.
    + destruct (Z.even (Zfloor x)); [| rewrite plus_IZR]; lra.
Qed.

(** An integer strictly less than a half away is the rounded value. *)
Lemma round_half_even_near (x : R) (z : Z) :
  IZR z - 1 / 2 < x < IZR z + 1 / 2 -> round_half_even x = z.
Proof.
  intros [Hlo Hhi].
  pose proof (round_half_even_bound x) as [Blo Bhi].
  assert (H1 : IZR (round_half_even x) < IZR z + 1) by lra.
  assert (H2 : IZR z - 1 < IZR (round_half_even x)) by lra.
  rewrite <- plus_IZR in H1. rewrite <- minus_IZR in H2.
  apply lt_IZR in H1. apply lt_IZR in H2. lia.
Qed.

Lemma round_half_even_IZR (z : Z) : round_half_even (IZR z) = z.
Proof. apply round_half_even_near. lra. Qed.

(** Rounding cannot cross an integer: an integer bound on [x] bounds the
    rounded value. *)
Lemma round_half_even_le (x : R) (z : Z) :
  x <= IZR z -> (round_half_even x <= z)%Z.
Proof.
  intros H. pose proof (round_half_even_bound x) as [_ Bhi].
  assert (H1 : IZR (round_half_even x) < IZR z + 1) by lra.
  rewrite <- plus_IZR in H1. apply lt_IZR in H1. lia.
Qed.

Lemma round_half_even_ge (x : R) (z : Z) :
  IZR z <= x -> (z <= round_half_even x)%Z.
Proof.
  intros H. pose proof (round_half_even_bound x) as [Blo _].
  assert (H1 : IZR z - 1 < IZR (round_half_even x)) by lra.
  rewrite <- minus_IZR in H1. apply lt_IZR in H1. lia.
Qed.

Lemma pow10_pos (n : nat) : 0 < 10 ^ n.
Proof. apply pow_lt. lra. Qed.

(** A value with at most [n] decimals is left as it is. *)
Lemma py_round_exact (z : Z) (n : nat) :
  py_round (IZR z / 10 ^ n) n = IZR z / 10 ^ n.
Proof.
  unfold py_round. pose proof (pow10_pos n).
  replace (IZR z / 10 ^ n * 10 ^ n) with (IZR z) by (field; lra).
  now rewrite round_half_even_IZR.
Qed.

Lemma py_round_IZR (z : Z) (n : nat) : py_round (IZR z) n = IZR z.
Proof.
  unfold py_round. pose proof (pow10_pos n).
  rewrite (pow_IZR 10 n) in *.
  rewrite <- mult_IZR, round_half_even_IZR, mult_IZR.
  field. lra.
Qed.

(** Rounding to [n] decimals moves a value by at most half a unit of the
    last decimal. *)
Lemma py_round_error (x : R) (n : nat) :
  Rabs (py_round x n - x) <= / 2 / 10 ^ n.
Proof.
  unfold py_round. pose proof (pow10_pos n) as Hp.
  pose proof (round_half_even_bound (x * 10 ^ n)) as [Blo Bhi].
  replace (IZR (round_half_even (x * 10 ^ n)) / 10 ^ n - x)
    with ((IZR (round_half_even (x * 10 ^ n)) - x * 10 ^ n) / 10 ^ n)
    by (field; lra).
  unfold Rdiv at 1. rewrite Rabs_mult, (Rabs_right (/ 10 ^ n)).
  - apply Rmult_le_compat_r.
    + left. now apply Rinv_0_lt_compat.
    + apply Rabs_le. lra.
  - left. now apply Rinv_0_lt_compat.
Qed.

(** Rounding is monotone against values that have [n] decimals. *)
Lemma py_round_le (x : R) (z : Z) (n : nat) :
  x <= IZR z / 10 ^ n -> py_round x n <= IZR z / 10 ^ n.
Proof.
  intros H. unfold py_round. pose proof (pow10_pos n) as Hp.
  apply Rmult_le_compat_r; [left; now apply Rinv_0_lt_compat |].
  apply IZR_le, round_half_even_le.
  apply (Rmult_le_compat_r (10 ^ n)) in H; [| lra].
  replace (IZR z / 10 ^ n * 10 ^ n) with (IZR z) in H by (field; lra). exact H.
Qed.

Lemma py_round_ge (x : R) (z : Z) (n : nat) :
  IZR z / 10 ^ n <= x -> IZR z / 10 ^ n <= py_round x n.
Proof.
  intros H. unfold py_round. pose proof (pow10_pos n) as Hp.
  apply Rmult_le_compat_r; [left; now apply Rinv_0_lt_compat |].
  apply IZR_le, round_half_even_ge.
  apply (Rmult_le_compat_r (10 ^ n)) in H; [| lra].
  replace (IZR z / 10 ^ n * 10 ^ n) with (IZR z) in H by (field; lra). exact H.
Qed.

End Rounding.

(* ================================================================== *)
(** ** The value of [exp (-1)] *)

Section ExpBounds.

Lemma exp_double_ge (x l l' : R) :
  0 <= l -> l <= exp x -> l' <= l * l -> l' <= exp (2 * x).
Proof.
  intros Hl H Hsq. replace (2 * x) with (x + x) by ring. rewrite exp_plus. nra.
Qed.

Lemma exp_double_le (x u u' : R) :
  exp x <= u -> u * u <= u' -> exp (2 * x) <= u'.
Proof.
  intros H Hsq. replace (2 * x) with (x + x) by ring. rewrite exp_plus.
  pose proof (exp_pos x). nra.
Qed.

(** [exp (-1)] from below, by eight squarings of [1 - 1/256 <= exp (-1/256)]. *)
Lemma exp_m1_lower : 366875 / 1000000 < exp (- 1).
Proof.
  assert (H0 : 255 / 256 <= exp (- (1 / 256))).
  { pose proof (exp_ineq1_le (- (1 / 256))) as H. lra. }
  assert (H1 : 992202758789 / 1000000000000 <= exp (- (1 / 128))).
  { replace (- (1 / 128)) with (2 * - (1 / 256)) by lra.
    apply (exp_double_ge _ (255 / 256)); [lra | exact H0 | lra]. }
  assert (H2 : 246116578637 / 250000000000 <= exp (- (1 / 64))).
  { replace (- (1 / 64)) with (2 * - (1 / 128)) by lra.
    apply (exp_double_ge _ (992202758789 / 1000000000000)); [lra | exact H1 | lra]. }
  assert (H3 : 969173924479 / 1000000000000 <= exp (- (1 / 32))).
  { replace (- (1 / 32)) with (2 * - (1 / 64)) by lra.
    apply (exp_double_ge _ (246116578637 / 250000000000)); [lra | exact H2 | lra]. }
  assert (H4 : 93929809589 / 100000000000 <= exp (- (1 / 16))).
  { replace (- (1 / 16)) with (2 * - (1 / 32)) by lra.
    apply (exp_double_ge _ (969173924479 / 1000000000000)); [lra | exact H3 | lra]. }
  assert (H5 : 441140456471 / 500000000000 <= exp (- (1 / 8))).
  { replace (- (1 / 8)) with (2 * - (1 / 16)) by lra.
    apply (exp_double_ge _ (93929809589 / 100000000000)); [lra | exact H4 | lra]. }
  assert (H6 : 778419609341 / 1000000000000 <= exp (- (1 / 4))).
  { replace (- (1 / 4)) with (2 * - (1 / 8)) by lra.
    apply (exp_double_ge _ (441140456471 / 500000000000)); [lra | exact H5 | lra]. }
  assert (H7 : 302968544103 / 500000000000 <= exp (- (1 / 2))).
  { replace (- (1 / 2)) with (2 * - (1 / 4)) by lra.
    apply (exp_double_ge _ (778419609341 / 1000000000000)); [lra | exact H6 | lra]. }
  assert (H8 : 367159754863 / 1000000000000 <= exp (- (1 / 1))).
  { replace (- (1 / 1)) with (2 * - (1 / 2)) by lra.
    apply (exp_double_ge _ (302968544103 / 500000000000)); [lra | exact H7 | lra]. }
  replace (- (1 / 1)) with (- 1) in H8 by lra. lra.
Qed.

(** [exp (-1)] from above, by ten squarings of [exp (-1/1024) <= 1024/1025]. *)
Lemma exp_m1_upper : exp (- 1) < 368125 / 1000000.
Proof.
  assert (H0 : exp (- (1 / 1024)) <= 1024 / 1025).
  { rewrite exp_Ropp. pose proof (exp_ineq1_le (1 / 1024)) as H.
    apply Rle_trans with (/ (1 + 1 / 1024)); [| lra].
    apply Rinv_le_contravar; lra. }
  assert (H1 : exp (- (1 / 512)) <= 998049732303 / 1000000000000).
  { replace (- (1 / 512)) with (2 * - (1 / 1024)) by lra.
    apply (exp_double_le _ (1024 / 1025)); [exact H0 | lra]. }
  assert (H2 : exp (- (1 / 256)) <= 996103268151 / 1000000000000).
  { replace (- (1 / 256)) with (2 * - (1 / 512)) by lra.
    apply (exp_double_le _ (998049732303 / 1000000000000)); [exact H1 | lra]. }
  assert (H3 : exp (- (1 / 128)) <= 496110860411 / 500000000000).
  { replace (- (1 / 128)) with (2 * - (1 / 256)) by lra.
    apply (exp_double_le _ (996103268151 / 1000000000000)); [exact H2 | lra]. }
  assert (H4 : exp (- (1 / 64)) <= 984503943271 / 1000000000000).
  { replace (- (1 / 64)) with (2 * - (1 / 128)) by lra.
    apply (exp_double_le _ (496110860411 / 500000000000)); [exact H3 | lra]. }
  assert (H5 : exp (- (1 / 32)) <= 969248014317 / 1000000000000).
  { replace (- (1 / 32)) with (2 * - (1 / 64)) by lra.
    apply (exp_double_le _ (984503943271 / 1000000000000)); [exact H4 | lra]. }
  assert (H6 : exp (- (1 / 16)) <= 469720856629 / 500000000000).
  { replace (- (1 / 16)) with (2 * - (1 / 32)) by lra.
    apply (exp_double_le _ (969248014317 / 1000000000000)); [exact H5 | lra]. }
  assert (H7 : exp (- (1 / 8)) <= 88255073261 / 100000000000).
  { replace (- (1 / 8)) with (2 * - (1 / 16)) by lra.
    apply (exp_double_le _ (469720856629 / 500000000000)); [exact H6 | lra]. }
  assert (H8 : exp (- (1 / 4)) <= 778895795631 / 1000000000000).
  { replace (- (1 / 4)) with (2 * - (1 / 8)) by lra.
    apply (exp_double_le _ (88255073261 / 100000000000)); [exact H7 | lra]. }
  assert (H9 : exp (- (1 / 2)) <= 151669665113 / 250000000000).
  { replace (- (1 / 2)) with (2 * - (1 / 4)) by lra.
    apply (exp_double_le _ (778895795631 / 1000000000000)); [exact H8 | lra]. }
  assert (H10 : exp (- (1 / 1)) <= 46007374631 / 125000000000).
  { replace (- (1 / 1)) with (2 * - (1 / 2)) by lra.
    apply (exp_double_le _ (151669665113 / 250000000000)); [exact H9 | lra]. }
  replace (- (1 / 1)) with (- 1) in H10 by lra. lra.
Qed.

End ExpBounds.

(* ================================================================== *)
(** ** Distances *)

Section Distances.

Lemma atan2_0_1 : atan2 0 1 = 0.
Proof.
  unfold atan2. destruct (Rlt_dec 0 1) as [_ | H]; [| lra].
  replace (0 / 1) with 0 by field. apply atan_0.
Qed.

(** A point is at distance zero from itself. *)
Lemma haversine_self (lat lon : R) : App.haversine lat lon lat lon = 0.
Proof.
  unfold App.haversine, radians.
  replace ((lat - lat) * PI / 180 / 2) with 0 by field.
  replace ((lon - lon) * PI / 180 / 2) with 0 by field.
  rewrite sin_0.
  replace (0 ^ 2 + cos (lat * PI / 180) * cos (lat * PI / 180) * 0 ^ 2) with 0 by ring.
  rewrite Rminus_0_r, sqrt_0, sqrt_1, atan2_0_1. ring.
Qed.

End Distances.

(* ================================================================== *)
(** ** Route scoring *)

Section RouteScoring.

Import RouteSpec.

(** Linear arithmetic with division and remainder by a constant. *)
Ltac divmod_lia := zify; Z.div_mod_to_equations; lia.

Lemma range_step_5_S (n : nat) :
  range_step (S n) 5 =
  (range_step n 5 ++ if (n mod 5 =? 0)%nat then [n] else [])%list.
Proof.
  unfold range_step.
  destruct (n mod 5 =? 0)%nat eqn:E.
  - apply Nat.eqb_eq in E.
    replace ((S n + 5 - 1) / 5)%nat with (S ((n + 5 - 1) / 5))%nat
      by (divmod_lia).
    rewrite seq_S, map_app. cbn [map Nat.add]. do 2 f_equal.
    divmod_lia.
  - apply Nat.eqb_neq in E.
    replace ((S n + 5 - 1) / 5)%nat with ((n + 5 - 1) / 5)%nat
      by (divmod_lia).
    now rewrite app_nil_r.
Qed.

(** The indices [range(0, n, 5)] are the multiples of 5 below [n]. *)
Lemma range_step_5_filter (n : nat) :
  range_step n 5 = filter (fun i => (i mod 5 =? 0)%nat) (seq 0 n).
Proof.
  induction n as [| n IH].
  - reflexivity.
  - rewrite range_step_5_S, seq_S, filter_app, IH. simpl.
    now destruct (n mod 5 =? 0)%nat.
Qed.

Lemma flat_map_filter {A B : Type} (p : A -> bool) (f : A -> list B) (l : list A) :
  flat_map f (filter p l) = flat_map (fun a => if p a then f a else []) l.
Proof.
  induction l as [| a l IH]; simpl; [reflexivity |].
  destruct (p a); simpl; now rewrite IH.
Qed.

(** The vertices the outer loop visits are every fifth vertex. *)
Lemma sampled_vertices_range (geometry : list (R * R)) :
  sampled_vertices geometry =
  flat_map (fun i => match nth_error geometry i with
                     | Some v => [v]
                     | None => []
                     end)
           (range_step (List.length geometry) 5).
Proof.
  unfold sampled_vertices. now rewrite range_step_5_filter, flat_map_filter.
Qed.

(** The inner loop: the rows near the vertex add their term and leave a pin. *)
Lemma scan_crime_fold (lat lon tm : R) (df : App.DataFrame) :
  forall (r : R) (p : list App.pin),
    fold_left (App.scan_crime lat lon tm) df (r, p) =
    (r + Rsum (map (fun c => if near (lon, lat) c then contribution tm c else 0) df),
     (p ++ map App.pin_of (filter (near (lon, lat)) df))%list).
Proof.
  induction df as [| c df IH]; intros r p; simpl.
  - now rewrite Rplus_0_r, app_nil_r.
  - unfold near at 1 3, contribution at 1, App.risk_term. simpl fst. simpl snd.
    destruct (Rltb _ _); rewrite IH.
    + simpl map. rewrite <- app_assoc. simpl app. f_equal. ring.
    + f_equal. ring.
Qed.

Lemma scan_vertex_fold (g : list (R * R)) (df : App.DataFrame) (tm : R)
    (idxs : list nat) :
  forall (r : R) (p : list App.pin),
    let vs := flat_map (fun i => match nth_error g i with
                                 | Some v => [v]
                                 | None => []
                                 end) idxs in
    fold_left (App.scan_vertex g df tm) idxs (r, p) =
    (r + Rsum (map (fun v =>
                      Rsum (map (fun c => if near v c then contribution tm c else 0) df))
                   vs),
     (p ++ flat_map (fun v => map App.pin_of (filter (near v) df)) vs)%list).
Proof.
  induction idxs as [| i idxs IH]; intros r p; simpl.
  - now rewrite Rplus_0_r, app_nil_r.
  - unfold App.scan_vertex at 2.
    destruct (nth_error g i) as [[lon lat] |].
    + rewrite scan_crime_fold. simpl in IH. rewrite IH. simpl.
      rewrite <- app_assoc. f_equal. ring.
    + simpl in IH. now rewrite IH.
Qed.

(** The two loops of [calculate_safety] compute the accumulator of the
    specification and collect one pin per vertex and row near it. *)
Lemma route_scan_spec (g : list (R * R)) (df : App.DataFrame) (tm : R) :
  App.route_scan g df tm =
  (accumulator g df tm,
   flat_map (fun v => map App.pin_of (filter (near v) df)) (sampled_vertices g)).
Proof.
  unfold App.route_scan, accumulator.
  rewrite scan_vertex_fold, sampled_vertices_range. simpl.
  now rewrite Rplus_0_l.
Qed.

Lemma calculate_safety_spec (g : list (R * R)) (df : App.DataFrame) (tm : R) :
  App.calculate_safety g df tm =
  (py_round (clamp (100 - 2 * accumulator g df tm) 0 100) 2,
   App.unique (flat_map (fun v => map App.pin_of (filter (near v) df))
                        (sampled_vertices g))).
Proof.
  unfold App.calculate_safety. rewrite route_scan_spec. unfold clamp.
  replace (accumulator g df tm * 2) with (2 * accumulator g df tm) by ring.
  reflexivity.
Qed.

Lemma Rsum_zero {A : Type} (l : list A) : Rsum (map (fun _ => 0) l) = 0.
Proof. induction l; simpl; [reflexivity | rewrite IHl; ring]. Qed.

Lemma accumulator_nil (g : list (R * R)) (tm : R) : accumulator g [] tm = 0.
Proof. unfold accumulator. simpl. apply Rsum_zero. Qed.

Lemma clamp_100 : clamp 100 0 100 = 100.
Proof.
  unfold clamp, Rmax, Rmin.
  destruct (Rle_dec 100 100); [| lra]. destruct (Rle_dec 0 100); lra.
Qed.

(** A route with a single sampled vertex. *)
Lemma sampled_vertices_short (v : R * R) (rest : list (R * R)) :
  (List.length rest <= 4)%nat -> sampled_vertices (v :: rest) = [v].
Proof.
  intros H.
  destruct rest as [| a [| b [| c [| d [| e rest]]]]]; simpl in H; try lia; reflexivity.
Qed.

Lemma Rsum_map_plus {A : Type} (f g : A -> R) (l : list A) :
  Rsum (map (fun a => f a + g a) l) = Rsum (map f l) + Rsum (map g l).
Proof.
  induction l as [| a l IH]; simpl; [ring | rewrite IH; ring].
Qed.

(** A double sum over two lists can be taken in either order. *)
Lemma Rsum_swap {A B : Type} (F : A -> B -> R) (la : list A) (lb : list B) :
  Rsum (map (fun a => Rsum (map (fun b => F a b) lb)) la) =
  Rsum (map (fun b => Rsum (map (fun a => F a b) la)) lb).
Proof.
  induction la as [| a la IH]; simpl.
  - now rewrite Rsum_zero.
  - rewrite IH. now rewrite <- Rsum_map_plus.
Qed.

(** Adding [t] once per element that passes a test adds it as many times
    as there are such elements. *)
Lemma Rsum_indicator {A : Type} (p : A -> bool) (t : R) (l : list A) :
  Rsum (map (fun a => if p a then t else 0) l) =
  INR (List.length (filter p l)) * t.
Proof.
  induction l as [| a l IH].
  - simpl. ring.
  - cbn [map Rsum fold_right filter]. fold (Rsum (map (fun a => if p a then t else 0) l)).
    rewrite IH. destruct (p a).
    + cbn [List.length]. rewrite S_INR. ring.
    + ring.
Qed.

(** The accumulator, row by row: each row counts once per sampled vertex
    it lies near. *)
Lemma accumulator_by_row (g : list (R * R)) (df : App.DataFrame) (tm : R) :
  accumulator g df tm =
  Rsum (map (fun c => INR (hits g c) * contribution tm c) df).
Proof.
  unfold accumulator, hits.
  rewrite (Rsum_swap (fun v c => if near v c then contribution tm c else 0)).
  f_equal. apply map_ext. intros c. apply Rsum_indicator.
Qed.

Lemma hits_pos (g : list (R * R)) (c : App.crime) :
  (0 < hits g c)%nat <-> exists v, In v (sampled_vertices g) /\ near v c = true.
Proof.
  unfold hits. split.
  - intros H. destruct (filter (fun v => near v c) (sampled_vertices g)) as [| v l] eqn:E.
    + simpl in H. lia.
    + exists v. apply (filter_In (fun v => near v c)). rewrite E. now left.
  - intros [v Hv]. apply (filter_In (fun v => near v c)) in Hv.
    destruct (filter (fun v => near v c) (sampled_vertices g)); [contradiction |].
    simpl. lia.
Qed.

(** The pins returned are those of the rows near some sampled vertex. *)
Lemma pins_spec (g : list (R * R)) (df : App.DataFrame) (tm : R) (p : App.pin) :
  In p (snd (App.calculate_safety g df tm)) <->
  exists c, In c df /\ (0 < hits g c)%nat /\ p = App.pin_of c.
Proof.
  rewrite calculate_safety_spec. cbn [snd]. unfold App.unique.
  rewrite nodup_In, in_flat_map. split.
  - intros [v [Hv Hp]]. apply in_map_iff in Hp as [c [Hc Hin]].
    apply filter_In in Hin as [Hin Hn].
    exists c. repeat split; auto. apply hits_pos. now exists v.
  - intros [c [Hin [Hh Hp]]]. apply hits_pos in Hh as [v [Hv Hn]].
    exists v. split; [exact Hv |]. apply in_map_iff. exists c. split; [now symmetry |].
    apply filter_In. now split.
Qed.

End RouteScoring.

(* ================================================================== *)
(** ** Properties of the route and point scorers *)

Section ScorerProperties.

Import RouteSpec.

Lemma clamp_above (x : R) : 100 <= x -> clamp x 0 100 = 100.
Proof.
  intros H. unfold clamp, Rmax, Rmin.
  destruct (Rle_dec 100 x); [| lra]. destruct (Rle_dec 0 100); lra.
Qed.

Lemma classify_safe (score : R) :
  70 <= score -> fst (fst (App.classify_route_safety score)) = "safe"%string.
Proof.
  intros H. unfold App.classify_route_safety.
  apply Rleb_true in H. now rewrite H.
Qed.

(** C2.  Route scoring accumulates, over every fifth vertex of the route
    and every row of the table within 0.3 km of it, the row's severity: as
    it is when negative, times the time multiplier otherwise; the score
    returned is [clamp(100 - 2 * accumulator, 0, 100)] rounded to two
    decimals.  With one sampled vertex, time multiplier 1, a safety asset
    of severity -10 and a danger incident of severity 5 both within
    0.3 km of the vertex, the accumulator is -5, the score 100 and the
    classification "safe". *)
Theorem calculate_safety_accumulates :
  forall (geometry : list (R * R)) (crime_df : App.DataFrame) (time_multiplier : R),
    fst (App.route_scan geometry crime_df time_multiplier)
      = accumulator geometry crime_df time_multiplier
    /\ fst (App.calculate_safety geometry crime_df time_multiplier)
      = py_round (clamp (100 - 2 * accumulator geometry crime_df time_multiplier) 0 100) 2
    /\ (forall (v : R * R) (rest : list (R * R)) (asset danger : App.crime),
          geometry = v :: rest -> (List.length rest <= 4)%nat ->
          crime_df = [asset; danger] -> time_multiplier = 1 ->
          App.severity asset = (-10)%Z -> App.severity danger = 5%Z ->
          near v asset = true -> near v danger = true ->
          fst (App.route_scan geometry crime_df time_multiplier) = -5
          /\ fst (App.calculate_safety geometry crime_df time_multiplier) = 100
          /\ fst (fst (App.classify_route_safety
                         (fst (App.calculate_safety geometry crime_df time_multiplier))))
             = "safe"%string).
Proof.
  intros geometry crime_df tm.
  split; [now rewrite route_scan_spec |].
  split; [now rewrite calculate_safety_spec |].
  intros v rest asset danger -> Hlen -> -> Ha Hd Na Nd.
  assert (Hacc : accumulator (v :: rest) [asset; danger] 1 = -5).
  { unfold accumulator. rewrite sampled_vertices_short by exact Hlen.
    cbn [map Rsum fold_right]. rewrite Na, Nd. unfold contribution.
    rewrite Ha, Hd. simpl. lra. }
  assert (Hscore : fst (App.calculate_safety (v :: rest) [asset; danger] 1) = 100).
  { rewrite calculate_safety_spec. cbn [fst]. rewrite Hacc.
    rewrite clamp_above by lra. apply (py_round_IZR 100). }
  repeat split.
  - rewrite route_scan_spec. exact Hacc.
  - exact Hscore.
  - rewrite Hscore. apply classify_safe. lra.
Qed.

(** The scenario of C2 at a vertex in Chennai, with both rows at the
    vertex itself. *)
Lemma calculate_safety_accumulates_witness :
  let v := (8027 / 100, 1308 / 100) in
  let asset := App.mk_crime (1308 / 100) (8027 / 100) "Police Station" "Safe Zone" (-10) in
  let danger := App.mk_crime (1308 / 100) (8027 / 100) "Robbery" "Bag snatching" 5 in
  fst (App.route_scan [v] [asset; danger] 1) = -5
  /\ fst (App.calculate_safety [v] [asset; danger] 1) = 100
  /\ fst (fst (App.classify_route_safety
                 (fst (App.calculate_safety [v] [asset; danger] 1)))) = "safe"%string.
Proof.
  intros v asset danger.
  destruct (calculate_safety_accumulates [v] [asset; danger] 1) as (_ & _ & H).
  apply (H v [] asset danger); try reflexivity.
  - simpl. lia.
  - unfold near, v, asset. cbn [fst snd App.latitude App.longitude].
    rewrite haversine_self. apply Rltb_true. lra.
  - unfold near, v, danger. cbn [fst snd App.latitude App.longitude].
    rewrite haversine_self. apply Rltb_true. lra.
Defined.

(** C10.  Removing duplicate pins leaves the score alone: a row within
    0.3 km of [k] sampled vertices adds its term [k] times to the
    accumulator the score is computed from, while the list of pins
    returned has no duplicates and holds the pin of every such row. *)
Theorem dedup_keeps_score :
  forall (geometry : list (R * R)) (crime_df : App.DataFrame) (time_multiplier : R),
    let total_risk :=
      Rsum (map (fun c => INR (hits geometry c) * App.risk_term time_multiplier c)
                crime_df) in
    fst (App.route_scan geometry crime_df time_multiplier) = total_risk
    /\ fst (App.calculate_safety geometry crime_df time_multiplier)
       = py_round (clamp (100 - 2 * total_risk) 0 100) 2
    /\ NoDup (snd (App.calculate_safety geometry crime_df time_multiplier))
    /\ (forall p : App.pin,
          (count_occ App.pin_eq_dec
             (snd (App.calculate_safety geometry crime_df time_multiplier)) p <= 1)%nat)
    /\ (forall p : App.pin,
          In p (snd (App.calculate_safety geometry crime_df time_multiplier)) <->
          exists c, In c crime_df /\ (0 < hits geometry c)%nat /\ p = App.pin_of c).
Proof.
  intros geometry crime_df tm total_risk.
  assert (Hacc : accumulator geometry crime_df tm = total_risk)
    by apply accumulator_by_row.
  assert (Hnd : NoDup (snd (App.calculate_safety geometry crime_df tm))).
  { rewrite calculate_safety_spec. apply NoDup_nodup. }
  repeat split.
  - rewrite route_scan_spec. exact Hacc.
  - rewrite calculate_safety_spec, Hacc. reflexivity.
  - exact Hnd.
  - intros p. now apply (NoDup_count_occ App.pin_eq_dec).
  - apply pins_spec.
  - apply pins_spec.
Qed.

Lemma radar_loop_nil (lat lng : R) : App.radar_loop lat lng [] = (0%Z, []).
Proof. reflexivity. Qed.

Lemma radar_scan_nil (lat lng : R) :
  App.radar_scan lat lng [] = App.mk_radar_response 100 0 [] [].
Proof.
  unfold App.radar_scan. rewrite radar_loop_nil. cbn.
  replace (100 - 0 * (15 / 10)) with 100 by ring.
  fold (clamp 100 0 100). rewrite clamp_100.
  now rewrite (py_round_IZR 100).
Qed.

(** C6.  When the data source cannot be read at start-up the table
    becomes the empty one, and stays so for every later request; every
    route scored against it gets 100 and no pin, and every radar scan
    gets 100. *)
Theorem unreadable_source_scores_100 :
  forall (geometry : list (R * R)) (time_multiplier lat lng : R)
         (later_read : option App.DataFrame),
    let (df, cache) := App.get_crime_df None None in
    df = []
    /\ App.get_crime_df cache later_read = ([], cache)
    /\ App.calculate_safety geometry df time_multiplier = (100, [])
    /\ App.safety_score (App.radar_scan lat lng df) = 100
    /\ (forall r, App.get_radar_scan (Some lat) (Some lng) df = inl r ->
                  App.safety_score r = 100).
Proof.
  intros geometry tm lat lng later_read. cbn [App.get_crime_df].
  repeat split.
  - rewrite calculate_safety_spec, accumulator_nil.
    replace (100 - 2 * 0) with 100 by ring.
    rewrite clamp_100, (py_round_IZR 100). f_equal.
    unfold App.unique. induction (sampled_vertices geometry); simpl; auto.
  - now rewrite radar_scan_nil.
  - intros r. unfold App.get_radar_scan.
    destruct (App.falsy (Some lat) || App.falsy (Some lng)); [discriminate |].
    intros H. injection H as <-. now rewrite radar_scan_nil.
Qed.

(** A route through Chennai at night and a radar scan there, on the table
    left by a failed read. *)
Lemma unreadable_source_scores_100_witness :
  let df := fst (App.get_crime_df None None) in
  App.calculate_safety [(8027 / 100, 1308 / 100)] df (18 / 10) = (100, [])
  /\ exists r, App.get_radar_scan (Some (1308 / 100)) (Some (8027 / 100)) df = inl r
               /\ App.safety_score r = 100.
Proof.
  pose proof (unreadable_source_scores_100 [(8027 / 100, 1308 / 100)] (18 / 10)
                (1308 / 100) (8027 / 100) None) as H.
  cbn [App.get_crime_df] in H. destruct H as (_ & _ & Hc & _ & Hr).
  cbn [App.get_crime_df fst]. split; [exact Hc |].
  assert (Hg : App.get_radar_scan (Some (1308 / 100)) (Some (8027 / 100)) []
               = inl (App.radar_scan (1308 / 100) (8027 / 100) [])).
  { unfold App.get_radar_scan, App.falsy.
    destruct (Req_dec_T (1308 / 100) 0); [lra |].
    destruct (Req_dec_T (8027 / 100) 0); [lra |]. reflexivity. }
  eexists. split; [exact Hg |]. apply Hr. exact Hg.
Defined.

(** A route of six vertices that stays at one place, with one robbery of
    severity 5 there: the vertices 0 and 5 are sampled, the robbery counts
    twice in the accumulator and gives one pin. *)
Lemma dedup_keeps_score_witness :
  let v := (8027 / 100, 1308 / 100) in
  let row := App.mk_crime (1308 / 100) (8027 / 100) "Robbery" "Bag snatching" 5 in
  fst (App.route_scan [v; v; v; v; v; v] [row] 1) = 10
  /\ count_occ App.pin_eq_dec
       (snd (App.calculate_safety [v; v; v; v; v; v] [row] 1)) (App.pin_of row) = 1%nat.
Proof.
  intros v row.
  destruct (dedup_keeps_score [v; v; v; v; v; v] [row] 1) as (Hacc & _ & _ & Hcnt & Hin).
  assert (Hnear : near v row = true).
  { unfold near, v, row. cbn [fst snd App.latitude App.longitude].
    rewrite haversine_self. apply Rltb_true. lra. }
  assert (Hhits : hits [v; v; v; v; v; v] row = 2%nat).
  { unfold hits.
    replace (sampled_vertices [v; v; v; v; v; v]) with [v; v] by reflexivity.
    cbn [filter]. now rewrite Hnear. }
  split.
  - rewrite Hacc. cbn [map Rsum fold_right]. rewrite Hhits.
    unfold App.risk_term, row. cbn. lra.
  - specialize (Hcnt (App.pin_of row)).
    assert (Hp : In (App.pin_of row)
                    (snd (App.calculate_safety [v; v; v; v; v; v] [row] 1))).
    { apply Hin. exists row. split; [now left |]. split; [rewrite Hhits; lia | reflexivity]. }
    apply (count_occ_In App.pin_eq_dec) in Hp. lia.
Defined.

End ScorerProperties.

(* ================================================================== *)
(** ** The recompute of the incident list *)

Section Recompute.

Import RiskSpec.

Lemma length_list_set {A : Type} (l : list A) (i : nat) (x : A) :
  List.length (list_set l i x) = List.length l.
Proof.
  revert i. induction l as [| h t IH]; intros [| i]; simpl; auto.
Qed.

Lemma nth_error_list_set_eq {A : Type} (l : list A) (i : nat) (x : A) :
  (i < List.length l)%nat -> nth_error (list_set l i x) i = Some x.
Proof.
  revert i. induction l as [| h t IH]; intros [| i] H; simpl in *; try lia; auto.
  apply IH. lia.
Qed.

Lemma nth_error_list_set_neq {A : Type} (l : list A) (i j : nat) (x : A) :
  i <> j -> nth_error (list_set l i x) j = nth_error l j.
Proof.
  revert i j. induction l as [| h t IH]; intros [| i] [| j] H; simpl; auto; try lia.
Qed.

Lemma list_set_twice {A : Type} (l : list A) (i : nat) (x y : A) :
  list_set (list_set l i x) i y = list_set l i y.
Proof.
  revert i. induction l as [| h t IH]; intros [| i]; simpl; auto.
  now rewrite IH.
Qed.

Lemma hours_elapsed_between (inc : Sim.incident) (now : datetime) :
  Sim.hours_elapsed inc now = hours_between (Sim.timestamp inc) now.
Proof.
  unfold Sim.hours_elapsed, hours_between, total_seconds. field.
Qed.

Lemma same_inputs_refl (a : Sim.incident) : same_inputs a a.
Proof. unfold same_inputs. tauto. Qed.

Lemma Forall2_same_inputs_refl (l : list Sim.incident) : Forall2 same_inputs l l.
Proof. induction l; constructor; auto using same_inputs_refl. Qed.

Lemma Forall2_list_set {A : Type} (P : A -> A -> Prop) (l l' : list A)
    (k : nat) (x y : A) :
  Forall2 P l l' -> nth_error l k = Some x -> P x y ->
  Forall2 P l (list_set l' k y).
Proof.
  intros H. revert k. induction H as [| a b l l' Hab Hl IH]; intros [| k] Hk Hxy;
    simpl in *; try discriminate.
  - injection Hk as ->. now constructor.
  - constructor; auto.
Qed.

(** The density and the influence read the inputs only: they do not see
    the scores, densities and influences already rewritten in the list. *)
Lemma hotspot_step_inputs (t t' x x' : Sim.incident) (st : nat * Sim.clock) :
  same_inputs t t' -> same_inputs x x' ->
  Sim.hotspot_step t st x = Sim.hotspot_step t' st x'.
Proof.
  intros (Hid & _ & Hla & Hlo & _) (Hid' & _ & Hla' & Hlo' & Hb' & Hts' & _).
  unfold Sim.hotspot_step. now rewrite Hid, Hla, Hlo, Hid', Hla', Hlo', Hb', Hts'.
Qed.

Lemma calculate_hotspot_density_inputs (t t' : Sim.incident)
    (l l' : list Sim.incident) (clk : Sim.clock) :
  same_inputs t t' -> Forall2 same_inputs l l' ->
  Sim.calculate_hotspot_density t l clk = Sim.calculate_hotspot_density t' l' clk.
Proof.
  intros Ht Hl. unfold Sim.calculate_hotspot_density.
  assert (Hb : Sim.base_severity t = Sim.base_severity t') by apply Ht.
  rewrite Hb. destruct (Sim.base_severity t' <? 0)%Z; [reflexivity |].
  assert (Hfold : forall st, fold_left (Sim.hotspot_step t) l st
                             = fold_left (Sim.hotspot_step t') l' st).
  { induction Hl as [| x x' l l' Hx Hl IH]; intros st; simpl; [reflexivity |].
    now rewrite (hotspot_step_inputs t t' x x' st Ht Hx), IH. }
  now rewrite Hfold.
Qed.

Lemma influence_step_inputs (t t' x x' : Sim.incident) (r : R) :
  same_inputs t t' -> same_inputs x x' ->
  Sim.influence_step t r x = Sim.influence_step t' r x'.
Proof.
  intros (_ & _ & Hla & Hlo & _) (_ & _ & Hla' & Hlo' & Hb' & _).
  unfold Sim.influence_step. now rewrite Hla, Hlo, Hla', Hlo', Hb'.
Qed.

Lemma calculate_safety_influence_inputs (t t' : Sim.incident)
    (l l' : list Sim.incident) :
  same_inputs t t' -> Forall2 same_inputs l l' ->
  Sim.calculate_safety_influence t l = Sim.calculate_safety_influence t' l'.
Proof.
  intros Ht Hl. unfold Sim.calculate_safety_influence.
  assert (Hb : Sim.base_severity t = Sim.base_severity t') by apply Ht.
  rewrite Hb. destruct (Sim.base_severity t' <? 0)%Z; [reflexivity |].
  generalize 0 as r.
  induction Hl as [| x x' l l' Hx Hl IH]; intros r; simpl; [reflexivity |].
  now rewrite (influence_step_inputs t t' x x' r Ht Hx), IH.
Qed.

(** One pass of the loop body rewrites the dict at its index, as
    [recomputed] says; [store] is the list as the earlier passes left it. *)
Lemma update_step_spec (now : datetime) (incidents store : list Sim.incident)
    (clk : Sim.clock) (k : nat) (inc : Sim.incident) :
  Forall2 same_inputs incidents store ->
  nth_error incidents k = Some inc ->
  nth_error store k = Some inc ->
  exists inc' clk',
    Sim.update_step now (store, clk) k = (list_set store k inc', clk')
    /\ recomputed incidents now inc inc'.
Proof.
  intros Hsame Hk0 Hk. unfold Sim.update_step. rewrite Hk.
  destruct (Sim.base_severity inc <? 0)%Z eqn:Hs.
  - eexists. exists clk. split; [reflexivity |].
    apply Z.ltb_lt in Hs.
    unfold recomputed, same_inputs; cbn. repeat split; auto; lia.
  - destruct (Sim.calculate_hotspot_density inc store clk) as [hd clk1] eqn:Ehd.
    rewrite !list_set_twice.
    eexists. exists clk1. split; [reflexivity |].
    apply Z.ltb_ge in Hs.
    unfold recomputed. split; [unfold same_inputs; cbn; tauto |].
    split; [reflexivity |]. split; [lia |]. intros _. cbn. repeat split.
    + exists clk.
      rewrite (calculate_hotspot_density_inputs inc inc incidents store clk
                 (same_inputs_refl inc) Hsame).
      now rewrite Ehd.
    + symmetry. apply calculate_safety_influence_inputs.
      * unfold same_inputs; cbn; tauto.
      * eapply Forall2_list_set; eauto. unfold same_inputs; cbn; tauto.
    + unfold dynamic_risk, clamp, Sim.recency_factor; cbn.
      now rewrite hours_elapsed_between.
Qed.

Lemma recomputed_same_inputs (incidents : list Sim.incident) (now : datetime)
    (inc inc' : Sim.incident) :
  recomputed incidents now inc inc' -> same_inputs inc inc'.
Proof. now intros [H _]. Qed.

Lemma recomputed_base (incidents : list Sim.incident) (now : datetime)
    (inc inc' : Sim.incident) :
  recomputed incidents now inc inc' ->
  Sim.base_severity inc' = Sim.base_severity inc.
Proof. intros [H _]. symmetry. apply H. Qed.

(** After the first [k] passes the first [k] dicts are recomputed, the
    others are as they were. *)
Lemma update_prefix (now : datetime) (incidents : list Sim.incident)
    (clk : Sim.clock) (k : nat) :
  (k <= List.length incidents)%nat ->
  let store := fst (fold_left (Sim.update_step now) (seq 0 k) (incidents, clk)) in
  List.length store = List.length incidents
  /\ Forall2 same_inputs incidents store
  /\ (forall i inc, (i < k)%nat -> nth_error incidents i = Some inc ->
        exists inc', nth_error store i = Some inc'
                     /\ recomputed incidents now inc inc')
  /\ (forall i, (k <= i)%nat -> nth_error store i = nth_error incidents i).
Proof.
  induction k as [| k IH]; intros Hk.
  - simpl. repeat split; auto using Forall2_same_inputs_refl. intros; lia.
  - rewrite seq_S, fold_left_app. cbn [fold_left Nat.add].
    destruct (fold_left (Sim.update_step now) (seq 0 k) (incidents, clk))
      as [store clk0] eqn:E.
    specialize (IH ltac:(lia)). cbv zeta in IH. cbn [fst] in IH.
    destruct IH as (Hlen & Hsame & Hdone & Hrest).
    destruct (nth_error incidents k) as [inc |] eqn:Hinc;
      [| apply nth_error_None in Hinc; lia].
    assert (Hst : nth_error store k = Some inc) by (rewrite Hrest; auto).
    destruct (update_step_spec now incidents store clk0 k inc Hsame Hinc Hst)
      as (inc' & clk' & Hstep & Hrec).
    rewrite Hstep. cbn [fst]. repeat split.
    + now rewrite length_list_set.
    + eapply Forall2_list_set; eauto. eapply recomputed_same_inputs; eauto.
    + intros i x Hi Hx. destruct (Nat.eq_dec i k) as [-> | Hne].
      * exists inc'. rewrite nth_error_list_set_eq by lia.
        rewrite Hinc in Hx. injection Hx as <-. auto.
      * rewrite nth_error_list_set_neq by lia. apply Hdone; [lia | exact Hx].
    + intros i Hi. rewrite nth_error_list_set_neq by lia. apply Hrest. lia.
Qed.

(** [update_dynamic_scores] recomputes every dict, index by index. *)
Lemma update_dynamic_scores_spec (now : datetime) (incidents : list Sim.incident)
    (clk : Sim.clock) :
  let updated := fst (Sim.update_dynamic_scores incidents now clk) in
  List.length updated = List.length incidents
  /\ forall i inc, nth_error incidents i = Some inc ->
       exists inc', nth_error updated i = Some inc'
                    /\ recomputed incidents now inc inc'.
Proof.
  unfold Sim.update_dynamic_scores.
  destruct (update_prefix now incidents clk (List.length incidents) (le_n _))
    as (Hlen & _ & Hdone & _).
  split; [exact Hlen |].
  intros i inc Hi. apply Hdone; [| exact Hi].
  apply nth_error_Some. congruence.
Qed.

(** Every dict of the recomputed list comes from one of the list given. *)
Lemma update_dynamic_scores_In (now : datetime) (incidents : list Sim.incident)
    (clk : Sim.clock) (inc' : Sim.incident) :
  In inc' (fst (Sim.update_dynamic_scores incidents now clk)) ->
  exists inc, In inc incidents /\ recomputed incidents now inc inc'.
Proof.
  intros Hin. apply In_nth_error in Hin as [i Hi].
  destruct (update_dynamic_scores_spec now incidents clk) as (Hlen & Hall).
  destruct (nth_error incidents i) as [inc |] eqn:E.
  - exists inc. split; [eapply nth_error_In; eauto |].
    destruct (Hall i inc E) as (x & Hx & Hrec). congruence.
  - apply nth_error_None in E.
    assert (nth_error (fst (Sim.update_dynamic_scores incidents now clk)) i <> None)
      by congruence.
    apply nth_error_Some in H. lia.
Qed.

End Recompute.

(* ================================================================== *)
(** ** Properties of the recompute and of the purge *)

Section RecomputeProperties.

Import RiskSpec.

(** The score of the scenario: [8 * exp (-1)] rounds to 2.94. *)
Lemma score_8_exp_m1 : py_round (clamp (8 * exp (- 1)) 0 10) 2 = 294 / 100.
Proof.
  pose proof exp_m1_lower as Hlo. pose proof exp_m1_upper as Hhi.
  assert (Hc : clamp (8 * exp (- 1)) 0 10 = 8 * exp (- 1)).
  { unfold clamp, Rmax, Rmin.
    destruct (Rle_dec 10 (8 * exp (- 1))); [lra |].
    destruct (Rle_dec 0 (8 * exp (- 1))); lra. }
  rewrite Hc. unfold py_round.
  rewrite (round_half_even_near _ 294); [simpl; lra |].
  simpl. lra.
Qed.

Lemma base_severity_set_hotspot_density (inc : Sim.incident) (v : R) :
  Sim.base_severity (Sim.set_hotspot_density inc v) = Sim.base_severity inc.
Proof. reflexivity. Qed.

(** The recompute of a list of one danger incident: no neighbour, no
    guardian. *)
Lemma update_singleton_danger (inc : Sim.incident) (now : datetime) (clk : Sim.clock) :
  (0 <= Sim.base_severity inc)%Z ->
  exists inc',
    fst (Sim.update_dynamic_scores [inc] now clk) = [inc']
    /\ Sim.base_severity inc' = Sim.base_severity inc
    /\ Sim.type inc' = Sim.type inc
    /\ Sim.timestamp inc' = Sim.timestamp inc
    /\ Sim.time_decay_factor inc' = Sim.time_decay_factor inc
    /\ Sim.hotspot_density inc' = 1
    /\ Sim.safety_influence inc' = 0.
Proof.
  intros Hb. apply Z.ltb_ge in Hb.
  unfold Sim.update_dynamic_scores. cbn [List.length seq fold_left].
  unfold Sim.update_step. cbn [nth_error]. rewrite Hb.
  unfold Sim.calculate_hotspot_density. rewrite Hb. cbn [fold_left].
  unfold Sim.hotspot_step at 1. rewrite String.eqb_refl. cbn [negb andb].
  unfold Sim.calculate_safety_influence. cbn [Sim.set_hotspot_density Sim.base_severity].
  rewrite Hb. cbn [list_set fold_left]. unfold Sim.influence_step.
  rewrite !base_severity_set_hotspot_density, Hb.
  eexists. split; [reflexivity |]. cbn.
  repeat split; auto.
  unfold Rmin. destruct (Rle_dec (1 + 0 * (15 / 100)) 2); lra.
Qed.

(** C3.  The purge removes an incident exactly when its score is below
    0.5, it is not within the one-hour freshness window (3600 seconds or
    more have passed since its timestamp) and it is not a safety asset; so
    an incident of negative base severity is never removed. *)
Theorem prune_removes_iff :
  forall (incidents : list Sim.incident) (current_time : datetime)
         (inc : Sim.incident),
    In inc incidents ->
    (~ In inc (Sim.prune incidents current_time) <->
       Sim.dynamic_risk_score inc < 5 / 10
       /\ 3600 <= total_seconds (current_time - Sim.timestamp inc)%Z
       /\ ~ (Sim.base_severity inc < 0)%Z)
    /\ ((Sim.base_severity inc < 0)%Z -> In inc (Sim.prune incidents current_time)).
Proof.
  intros incidents now inc Hin. unfold Sim.prune.
  split.
  - rewrite filter_In. unfold Sim.fresh. split.
    + intros Hnot.
      destruct (Rleb (5 / 10) (Sim.dynamic_risk_score inc)) eqn:E1;
        [exfalso; apply Hnot; now split |].
      destruct (Sim.base_severity inc <? 0)%Z eqn:E2;
        [exfalso; apply Hnot; now split |].
      destruct (Rltb (total_seconds (now - Sim.timestamp inc)%Z) 3600) eqn:E3;
        [exfalso; apply Hnot; now split |].
      apply Rleb_false in E1. apply Z.ltb_ge in E2. apply Rltb_false in E3.
      repeat split; auto. lia.
    + intros (H1 & H2 & H3) [_ Hkeep].
      apply orb_true_iff in Hkeep as [Hkeep | Hkeep];
        [apply orb_true_iff in Hkeep as [Hkeep | Hkeep] |].
      * apply Rleb_true in Hkeep. lra.
      * apply Z.ltb_lt in Hkeep. contradiction.
      * apply Rltb_true in Hkeep. lra.
  - intros Hneg. apply filter_In. split; [exact Hin |].
    apply Z.ltb_lt in Hneg. rewrite Hneg. now rewrite orb_true_r.
Qed.

(** A stale robbery of score 0.2 goes, reported three hours before the
    purge; the police station next to it stays. *)
Lemma prune_removes_iff_witness :
  let now := 1704110400000000%Z in
  let stale := Sim.mk_incident "7" "Robbery" (1308 / 100) (8027 / 100) 7 (2 / 10)
                 1704099600000000%Z 1704106800000000%Z (15 / 100) 1 0
                 "Historical incident" in
  let station := Sim.mk_incident "1" "Police Station" (1308 / 100) (8027 / 100)
                   (-10) (-10) 1704099600000000%Z 1704106800000000%Z 0 1 0
                   "Safe Zone" in
  ~ In stale (Sim.prune [stale; station] now)
  /\ In station (Sim.prune [stale; station] now).
Proof.
  intros now stale station. split.
  - apply (prune_removes_iff [stale; station] now stale); [now left |].
    unfold stale, now, total_seconds. cbn [Sim.dynamic_risk_score Sim.timestamp Sim.base_severity].
    replace (1704110400000000 - 1704099600000000)%Z with 10800000000%Z by reflexivity.
    repeat split; try lra. lia.
  - apply (prune_removes_iff [stale; station] now station); [right; now left |].
    simpl. lia.
Defined.

Lemma load_rows_static (rows : list (Sim.csv_row * Sim.load_draws)) :
  forall clk, Forall static_asset (fst (Sim.load_rows rows clk)).
Proof.
  induction rows as [| [row dr] rows IH]; intros clk; simpl.
  - constructor.
  - destruct (Sim.load_row row dr clk) as [inc clk1] eqn:E1.
    specialize (IH clk1).
    destruct (Sim.load_rows rows clk1) as [incs clk2]. simpl in *.
    constructor; [| exact IH].
    unfold Sim.load_row in E1.
    destruct (Sim.row_timestamp row); [| destruct (Sim.now clk)];
      destruct (Sim.now _); injection E1 as <- _; intros _; now split.
Qed.

(** Every list the program can hold stores density 1 and influence 0 on
    its safety assets. *)
Lemma reachable_static (incidents : list Sim.incident) :
  Sim.reachable incidents -> Forall static_asset incidents.
Proof.
  induction 1 as [file clk | incidents now _ IH | incidents dr clk _ IH
                  | incidents now clk _ IH].
  - destruct file as [rows |]; simpl; [apply load_rows_static | constructor].
  - unfold Sim.prune. rewrite Forall_forall in *.
    intros x Hx. apply filter_In in Hx as [Hx _]. auto.
  - apply Forall_app. split; [exact IH |]. constructor; [| constructor].
    unfold Sim.generate_new_incident.
    destruct (snd (Sim.new_position incidents dr)). destruct (Sim.now clk).
    intros _. now split.
  - rewrite Forall_forall in *. intros x Hx.
    apply update_dynamic_scores_In in Hx as (inc & Hin & Hrec).
    pose proof (recomputed_base _ _ _ _ Hrec) as Hb.
    destruct Hrec as (_ & _ & Hsafe & _).
    intros Hneg. rewrite Hb in Hneg.
    destruct (Hsafe Hneg) as (_ & -> & ->). now apply IH.
Qed.

(** C4.  In every list the program can hold, after any recompute an
    incident of negative base severity has its base severity as score,
    density 1 and influence 0; the density and the influence computed for
    such an incident are 1 and 0 whatever the list. *)
Theorem safety_assets_static :
  forall (incidents : list Sim.incident),
    Sim.reachable incidents ->
    forall (now : datetime) (clk : Sim.clock) (inc' : Sim.incident),
      In inc' (fst (Sim.update_dynamic_scores incidents now clk)) ->
      (Sim.base_severity inc' < 0)%Z ->
      Sim.dynamic_risk_score inc' = IZR (Sim.base_severity inc')
      /\ Sim.hotspot_density inc' = 1
      /\ Sim.safety_influence inc' = 0
      /\ (forall all clk', fst (Sim.calculate_hotspot_density inc' all clk') = 1)
      /\ (forall all, Sim.calculate_safety_influence inc' all = 0).
Proof.
  intros incidents Hreach now clk inc' Hin Hneg.
  pose proof (reachable_static _ (Sim.reach_update _ now clk Hreach)) as Hst.
  rewrite Forall_forall in Hst. destruct (Hst inc' Hin Hneg) as [Hhd Hsi].
  apply update_dynamic_scores_In in Hin as (inc & _ & Hrec).
  pose proof (recomputed_base _ _ _ _ Hrec) as Hb.
  destruct Hrec as (_ & _ & Hsafe & _).
  assert (Hneg0 : (Sim.base_severity inc < 0)%Z) by (rewrite <- Hb; exact Hneg).
  destruct (Hsafe Hneg0) as (Hdrs & _ & _).
  apply Z.ltb_lt in Hneg.
  repeat split; auto.
  - rewrite Hb. exact Hdrs.
  - intros all clk'. unfold Sim.calculate_hotspot_density. now rewrite Hneg.
  - intros all. unfold Sim.calculate_safety_influence. now rewrite Hneg.
Qed.

(** A police station loaded from the CSV, recomputed at noon. *)
Lemma safety_assets_static_witness :
  let now := 1704110400000000%Z in
  let clk : Sim.clock := fun _ => now in
  let row := Sim.mk_row (Some "1"%string) (Some "Police Station"%string)
               (13119500 / 1000000) (80285100 / 1000000) (Some (-10)%Z)
               (Some 1704074400000000%Z) (Some "Safe Zone: Royapuram Police Station"%string) in
  let incidents := fst (Sim.load_base_data (Some [(row, Sim.mk_load_draws 3 4242)]) clk) in
  exists inc',
    In inc' (fst (Sim.update_dynamic_scores incidents now clk))
    /\ (Sim.base_severity inc' < 0)%Z
    /\ Sim.dynamic_risk_score inc' = -10
    /\ Sim.hotspot_density inc' = 1
    /\ Sim.safety_influence inc' = 0.
Proof.
  intros now clk row incidents.
  destruct (update_dynamic_scores_spec now incidents clk) as (_ & Hall).
  destruct (Hall O (nth O incidents (Sim.mk_incident "" "" 0 0 0 0 0 0 0 0 0 "")) eq_refl)
    as (x & Hx & Hrec).
  assert (Hin : In x (fst (Sim.update_dynamic_scores incidents now clk)))
    by (eapply nth_error_In; exact Hx).
  assert (Hb : Sim.base_severity x = (-10)%Z)
    by (rewrite (recomputed_base _ _ _ _ Hrec); reflexivity).
  assert (Hneg : (Sim.base_severity x < 0)%Z) by (rewrite Hb; lia).
  exists x. split; [exact Hin |]. split; [exact Hneg |].
  destruct (safety_assets_static incidents (Sim.reach_load _ _) now clk x Hin Hneg)
    as (Hdrs & Hhd & Hsi & _).
  rewrite Hdrs, Hb. auto.
Defined.

(** C8, as the code has it.  The hours elapsed are the signed difference
    between the recompute time and the timestamp: non-negative when the
    timestamp is not later than the recompute time, negative when it is
    later.  With a non-negative decay rate the recency factor is at most 1
    in the first case; in the second, with a positive decay rate, it
    exceeds 1. *)
Theorem hours_elapsed_signed :
  forall (inc : Sim.incident) (now : datetime),
    Sim.hours_elapsed inc now = IZR (now - Sim.timestamp inc) / 3600000000
    /\ ((Sim.timestamp inc <= now)%Z -> 0 <= Sim.hours_elapsed inc now)
    /\ ((now < Sim.timestamp inc)%Z -> Sim.hours_elapsed inc now < 0)
    /\ ((Sim.timestamp inc <= now)%Z -> 0 <= Sim.time_decay_factor inc ->
        Sim.recency_factor inc now <= 1)
    /\ ((now < Sim.timestamp inc)%Z -> 0 < Sim.time_decay_factor inc ->
        1 < Sim.recency_factor inc now).
Proof.
  intros inc now.
  assert (Heq : Sim.hours_elapsed inc now = IZR (now - Sim.timestamp inc) / 3600000000)
    by (unfold Sim.hours_elapsed, total_seconds; field).
  assert (Hpos : (Sim.timestamp inc <= now)%Z -> 0 <= Sim.hours_elapsed inc now).
  { intros H. rewrite Heq. apply Zle_minus_le_0, IZR_le in H. lra. }
  assert (Hneg : (now < Sim.timestamp inc)%Z -> Sim.hours_elapsed inc now < 0).
  { intros H. rewrite Heq.
    assert (H' : (now - Sim.timestamp inc < 0)%Z) by lia.
    apply IZR_lt in H'. lra. }
  repeat split; auto.
  - intros H Hd. unfold Sim.recency_factor. specialize (Hpos H).
    rewrite <- exp_0.
    destruct (Req_dec (- Sim.time_decay_factor inc * Sim.hours_elapsed inc now) 0) as [-> | Hne];
      [lra |].
    left. apply exp_increasing. nra.
  - intros H Hd. unfold Sim.recency_factor. specialize (Hneg H).
    rewrite <- exp_0. apply exp_increasing. nra.
Qed.

(** An assault ten hours old and the same assault dated ten hours ahead. *)
Lemma hours_elapsed_signed_witness :
  let now := 1704110400000000%Z in
  let past := Sim.mk_incident "1" "Assault" (1308 / 100) (8027 / 100) 8 8
                1704074400000000%Z 1704074400000000%Z (1 / 10) 1 0
                "Historical incident" in
  let ahead := Sim.mk_incident "2" "Assault" (1308 / 100) (8027 / 100) 8 8
                1704146400000000%Z 1704074400000000%Z (1 / 10) 1 0
                "Historical incident" in
  Sim.recency_factor past now <= 1 /\ 1 < Sim.recency_factor ahead now.
Proof.
  intros now past ahead. split.
  - apply (hours_elapsed_signed past now).
    + cbv [past now Sim.timestamp]. lia.
    + cbv [past Sim.time_decay_factor]. lra.
  - apply (hours_elapsed_signed ahead now).
    + cbv [ahead now Sim.timestamp]. lia.
    + cbv [ahead Sim.time_decay_factor]. lra.
Defined.

(** C8 fails on an incident dated ten hours after the recompute: the hours
    elapsed are -10, not 0, the recency factor exceeds 1, and the score
    stored is 10 where hours taken as 0 would leave the base severity 8. *)
Lemma future_incident_not_clamped :
  let now := 1704110400000000%Z in
  let ahead := Sim.mk_incident "2" "Assault" (1308 / 100) (8027 / 100) 8 8
                1704146400000000%Z 1704074400000000%Z (1 / 10) 1 0
                "Historical incident" in
  let clk : Sim.clock := fun _ => now in
  (now < Sim.timestamp ahead)%Z
  /\ Sim.hours_elapsed ahead now = -10
  /\ ~ (Sim.recency_factor ahead now <= 1)
  /\ exists inc', fst (Sim.update_dynamic_scores [ahead] now clk) = [inc']
                  /\ Sim.dynamic_risk_score inc' = 10.
Proof.
  intros now ahead clk.
  assert (Hh : Sim.hours_elapsed ahead now = -10).
  { unfold Sim.hours_elapsed, total_seconds, ahead, now. cbn [Sim.timestamp].
    replace (1704110400000000 - 1704146400000000)%Z with (-36000000000)%Z by reflexivity.
    lra. }
  pose proof (exp_ineq1_le 1) as He.
  split; [cbv [ahead now Sim.timestamp]; lia |]. split; [exact Hh |].
  split.
  - unfold Sim.recency_factor. rewrite Hh. unfold ahead. cbn [Sim.time_decay_factor].
    replace (- (1 / 10) * -10) with 1 by lra. lra.
  - destruct (update_singleton_danger ahead now clk ltac:(simpl; lia))
      as (x & Hx & Hb & Hty & Hts & Hd & Hhd & Hsi).
    exists x. split; [exact Hx |].
    assert (Hin : In x (fst (Sim.update_dynamic_scores [ahead] now clk)))
      by (rewrite Hx; now left).
    apply update_dynamic_scores_In in Hin as (inc & [<- | []] & Hrec).
    destruct Hrec as (_ & _ & _ & Hdanger).
    destruct (Hdanger ltac:(simpl; lia)) as (_ & _ & ->).
    unfold dynamic_risk. rewrite Hb, Hty, Hts, Hd, Hhd, Hsi.
    rewrite <- hours_elapsed_between, Hh.
    replace (Sim.get_time_weight (Sim.type ahead) now) with 1 by reflexivity.
    unfold ahead. cbn [Sim.base_severity Sim.time_decay_factor].
    replace (- (1 / 10) * -10) with 1 by lra.
    assert (Hc : clamp (8 * 1 * exp 1 * 1 - 0) 0 10 = 10).
    { unfold clamp, Rmax, Rmin.
      destruct (Rle_dec 10 (8 * 1 * exp 1 * 1 - 0)); [| lra].
      destruct (Rle_dec 0 10); lra. }
    rewrite Hc. apply (py_round_IZR 10).
Qed.

(** The lists a pass of the simulation loop leaves are lists the program
    can hold. *)
Lemma inject_reachable (new : list Sim.gen_draws) :
  forall (incidents : list Sim.incident) (clk : Sim.clock),
    Sim.reachable incidents -> Sim.reachable (fst (Sim.inject incidents new clk)).
Proof.
  induction new as [| dr new IH]; intros incidents clk Hr; simpl; [exact Hr |].
  destruct (Sim.generate_new_incident incidents dr clk) as [inc clk1] eqn:E.
  apply IH. replace inc with (fst (Sim.generate_new_incident incidents dr clk))
    by (now rewrite E).
  now constructor.
Qed.

Lemma simulation_cycle_reachable (incidents : list Sim.incident)
    (new : list Sim.gen_draws) (clk : Sim.clock) :
  Sim.reachable incidents ->
  Sim.reachable (fst (Sim.simulation_cycle incidents new clk)).
Proof.
  intros Hr. unfold Sim.simulation_cycle.
  destruct (Sim.now clk) as [current_time clk0].
  assert (Hp : Sim.reachable (Sim.prune incidents current_time)) by now constructor.
  destruct (List.length (Sim.prune incidents current_time) <? Sim.MAX_ACTIVE_INCIDENTS)%nat.
  - pose proof (inject_reachable new _ clk0 Hp) as Hi.
    destruct (Sim.inject (Sim.prune incidents current_time) new clk0) as [l clk1].
    now constructor.
  - now constructor.
Qed.

(** After every pass of the simulation loop the safety assets store
    density 1 and influence 0. *)
Lemma simulation_cycle_static (incidents : list Sim.incident)
    (new : list Sim.gen_draws) (clk : Sim.clock) :
  Sim.reachable incidents ->
  Forall static_asset (fst (Sim.simulation_cycle incidents new clk)).
Proof.
  intros Hr. now apply reachable_static, simulation_cycle_reachable.
Qed.

End RecomputeProperties.

(* ================================================================== *)
(** ** Injection of new incidents *)

Section Injection.

Lemma choice_In {A : Type} (l : list A) (i : nat) (d : A) :
  l <> [] -> In (Sim.choice l i d) l.
Proof.
  intros Hne. unfold Sim.choice. apply nth_In.
  apply Nat.mod_upper_bound. destruct l; [contradiction | discriminate].
Qed.

(** When the near-repeat branch runs, its anchor is a danger incident of
    the list and the position is the anchor's, moved by the two offsets. *)
Lemma new_position_anchor (existing : list Sim.incident) (dr : Sim.gen_draws)
    (anchor : Sim.incident) :
  fst (Sim.new_position existing dr) = Some anchor ->
  In anchor existing /\ (0 < Sim.base_severity anchor)%Z
  /\ snd (Sim.new_position existing dr)
     = (Sim.latitude anchor + Sim.lat_offset dr,
        Sim.longitude anchor + Sim.lon_offset dr).
Proof.
  unfold Sim.new_position.
  destruct (Rltb (Sim.coin dr) (7 / 10) && negb (List.length existing =? 0)%nat);
    [| discriminate].
  destruct (filter (fun i => (0 <? Sim.base_severity i)%Z) existing)
    as [| first rest] eqn:E; [discriminate |].
  cbn [fst snd]. intros H. injection H as H.
  assert (Hin : In anchor (first :: rest)).
  { rewrite <- H. apply choice_In. discriminate. }
  rewrite <- E in Hin. apply filter_In in Hin as [Hin Hpos].
  apply Z.ltb_lt in Hpos. rewrite H. auto.
Qed.

Lemma generate_new_incident_position (existing : list Sim.incident)
    (dr : Sim.gen_draws) (clk : Sim.clock) :
  let new := fst (Sim.generate_new_incident existing dr clk) in
  Sim.latitude new = py_round (fst (snd (Sim.new_position existing dr))) 4
  /\ Sim.longitude new = py_round (snd (snd (Sim.new_position existing dr))) 4.
Proof.
  unfold Sim.generate_new_incident.
  destruct (snd (Sim.new_position existing dr)) as [la lo].
  destruct (Sim.now clk). now split.
Qed.

Lemma Rabs_le_inv (a b : R) : Rabs a <= b -> - b <= a <= b.
Proof.
  unfold Rabs. destruct (Rcase_abs a); lra.
Qed.

(** Rounding to four decimals a value within [d] of [a] leaves it within
    [d] and half a unit of the fourth decimal. *)
Lemma py_round_4_near (a x d : R) :
  Rabs (x - a) <= d -> Rabs (py_round x 4 - a) <= d + 5 / 100000.
Proof.
  intros H. pose proof (py_round_error x 4) as He.
  replace (/ 2 / 10 ^ 4) with (5 / 100000) in He by (simpl; lra).
  apply Rabs_le. apply Rabs_le_inv in H. apply Rabs_le_inv in He. lra.
Qed.

(** From a value with four decimals, rounding does not leave an interval
    whose half-width has four decimals. *)
Lemma py_round_4_grid (k : Z) (x : R) :
  Rabs (x - IZR k / 10 ^ 4) <= 15 / 1000 ->
  Rabs (py_round x 4 - IZR k / 10 ^ 4) <= 15 / 1000.
Proof.
  intros H. apply Rabs_le_inv in H.
  assert (Hp : 10 ^ 4 = 10000) by (simpl; lra).
  assert (Hhi : py_round x 4 <= IZR (k + 150) / 10 ^ 4).
  { apply py_round_le. rewrite plus_IZR, Hp in *. lra. }
  assert (Hlo : IZR (k - 150) / 10 ^ 4 <= py_round x 4).
  { apply py_round_ge. rewrite minus_IZR, Hp in *. lra. }
  rewrite plus_IZR in Hhi. rewrite minus_IZR in Hlo. rewrite Hp in *.
  apply Rabs_le. lra.
Qed.

(** C9, as the code has it.  In the near-repeat branch the coordinates
    chosen lie within 0.015 degrees of the anchor's; the new incident
    stores them rounded to four decimals, which keeps them within 0.01505
    degrees of the anchor's, and within 0.015 degrees when the anchor's
    coordinate has itself at most four decimals. *)
Theorem near_repeat_within_offset :
  forall (existing : list Sim.incident) (dr : Sim.gen_draws) (clk : Sim.clock)
         (anchor : Sim.incident),
    fst (Sim.new_position existing dr) = Some anchor ->
    Rabs (Sim.lat_offset dr) <= 15 / 1000 ->
    Rabs (Sim.lon_offset dr) <= 15 / 1000 ->
    let new := fst (Sim.generate_new_incident existing dr clk) in
    let (new_lat, new_lon) := snd (Sim.new_position existing dr) in
    Rabs (new_lat - Sim.latitude anchor) <= 15 / 1000
    /\ Rabs (new_lon - Sim.longitude anchor) <= 15 / 1000
    /\ Sim.latitude new = py_round new_lat 4
    /\ Sim.longitude new = py_round new_lon 4
    /\ Rabs (Sim.latitude new - Sim.latitude anchor) <= 1505 / 100000
    /\ Rabs (Sim.longitude new - Sim.longitude anchor) <= 1505 / 100000
    /\ (forall k : Z, Sim.latitude anchor = IZR k / 10 ^ 4 ->
          Rabs (Sim.latitude new - Sim.latitude anchor) <= 15 / 1000)
    /\ (forall k : Z, Sim.longitude anchor = IZR k / 10 ^ 4 ->
          Rabs (Sim.longitude new - Sim.longitude anchor) <= 15 / 1000).
Proof.
  intros existing dr clk anchor Ha Hlat Hlon new.
  destruct (new_position_anchor existing dr anchor Ha) as (_ & _ & Hpos).
  destruct (generate_new_incident_position existing dr clk) as [Hla Hlo].
  fold new in Hla, Hlo. rewrite Hpos in *. cbn [fst snd] in *.
  assert (H1 : Rabs (Sim.latitude anchor + Sim.lat_offset dr - Sim.latitude anchor)
               <= 15 / 1000).
  { replace (Sim.latitude anchor + Sim.lat_offset dr - Sim.latitude anchor)
      with (Sim.lat_offset dr) by ring. exact Hlat. }
  assert (H2 : Rabs (Sim.longitude anchor + Sim.lon_offset dr - Sim.longitude anchor)
               <= 15 / 1000).
  { replace (Sim.longitude anchor + Sim.lon_offset dr - Sim.longitude anchor)
      with (Sim.lon_offset dr) by ring. exact Hlon. }
  repeat split; auto.
  - rewrite Hla. apply py_round_4_near in H1. lra.
  - rewrite Hlo. apply py_round_4_near in H2. lra.
  - intros k Hk. rewrite Hla. rewrite Hk in *. now apply py_round_4_grid.
  - intros k Hk. rewrite Hlo. rewrite Hk in *. now apply py_round_4_grid.
Qed.

(** The near-repeat branch runs when the coin falls below 0.7 and the list
    holds a danger incident. *)
Lemma new_position_near_repeat (existing : list Sim.incident) (dr : Sim.gen_draws)
    (first : Sim.incident) (rest : list Sim.incident) :
  Sim.coin dr < 7 / 10 ->
  filter (fun i => (0 <? Sim.base_severity i)%Z) existing = first :: rest ->
  let anchor := Sim.choice (first :: rest) (Sim.anchor_index dr) first in
  Sim.new_position existing dr
  = (Some anchor,
     (Sim.latitude anchor + Sim.lat_offset dr,
      Sim.longitude anchor + Sim.lon_offset dr)).
Proof.
  intros Hc Hf. unfold Sim.new_position.
  apply Rltb_true in Hc. rewrite Hc, Hf.
  destruct existing; [discriminate | reflexivity].
Qed.

(** A robbery at a four-decimal position, and an incident generated next
    to it with the largest offset to the north. *)
Lemma near_repeat_within_offset_witness :
  let anchor := Sim.mk_incident "17" "Robbery" (130827 / 10 ^ 4) (802707 / 10 ^ 4) 7 7
                  1704074400000000 1704074400000000 (15 / 100) 1 0
                  "Historical incident" in
  let dr := Sim.mk_gen_draws 1 (1 / 2) 0 (15 / 1000) (- (1 / 100)) 13 (802 / 10)
              42 1704110400 in
  let clk : Sim.clock := fun _ => 1704110400000000%Z in
  let new := fst (Sim.generate_new_incident [anchor] dr clk) in
  Rabs (Sim.latitude new - Sim.latitude anchor) <= 15 / 1000
  /\ Rabs (Sim.longitude new - Sim.longitude anchor) <= 15 / 1000.
Proof.
  intros anchor dr clk new.
  assert (Hpos : Sim.new_position [anchor] dr
                 = (Some anchor, (Sim.latitude anchor + Sim.lat_offset dr,
                                  Sim.longitude anchor + Sim.lon_offset dr))).
  { apply (new_position_near_repeat [anchor] dr anchor []); [| reflexivity].
    cbv [dr Sim.coin]. lra. }
  assert (Hlat : Rabs (Sim.lat_offset dr) <= 15 / 1000).
  { cbv [dr Sim.lat_offset]. apply Rabs_le. lra. }
  assert (Hlon : Rabs (Sim.lon_offset dr) <= 15 / 1000).
  { cbv [dr Sim.lon_offset]. apply Rabs_le. lra. }
  pose proof (near_repeat_within_offset [anchor] dr clk anchor
                ltac:(rewrite Hpos; reflexivity) Hlat Hlon) as H.
  rewrite Hpos in H. cbn [snd] in H.
  destruct H as (_ & _ & _ & _ & _ & _ & Hk1 & Hk2).
  split; [apply (Hk1 130827%Z) | apply (Hk2 802707%Z)]; reflexivity.
Defined.

(** C9 fails at an anchor with a fifth decimal: the offset 0.015 takes the
    latitude 13.00006 to 13.01506, stored as 13.0151, which is 0.01504
    away from the anchor. *)
Lemma near_repeat_rounding_exceeds :
  let anchor := Sim.mk_incident "17" "Robbery" (1300006 / 100000) (8027 / 100) 7 7
                  1704074400000000 1704074400000000 (15 / 100) 1 0
                  "Historical incident" in
  let dr := Sim.mk_gen_draws 1 (1 / 2) 0 (15 / 1000) 0 13 (802 / 10)
              42 1704110400 in
  let clk : Sim.clock := fun _ => 1704110400000000%Z in
  let new := fst (Sim.generate_new_incident [anchor] dr clk) in
  fst (Sim.new_position [anchor] dr) = Some anchor
  /\ Rabs (Sim.lat_offset dr) <= 15 / 1000
  /\ Rabs (Sim.lon_offset dr) <= 15 / 1000
  /\ Sim.latitude new = 130151 / 10000
  /\ ~ (Rabs (Sim.latitude new - Sim.latitude anchor) <= 15 / 1000).
Proof.
  intros anchor dr clk new.
  assert (Hpos : Sim.new_position [anchor] dr
                 = (Some anchor, (Sim.latitude anchor + Sim.lat_offset dr,
                                  Sim.longitude anchor + Sim.lon_offset dr))).
  { apply (new_position_near_repeat [anchor] dr anchor []); [| reflexivity].
    cbv [dr Sim.coin]. lra. }
  assert (Hnew : Sim.latitude new = 130151 / 10000).
  { destruct (generate_new_incident_position [anchor] dr clk) as [Hla _].
    fold new in Hla. rewrite Hla, Hpos. cbn [fst snd].
    cbv [anchor dr Sim.latitude Sim.lat_offset]. unfold py_round.
    rewrite (round_half_even_near _ 130151); simpl; lra. }
  split; [rewrite Hpos; reflexivity |].
  split; [cbv [dr Sim.lat_offset]; apply Rabs_le; lra |].
  split; [cbv [dr Sim.lon_offset]; apply Rabs_le; lra |].
  split; [exact Hnew |].
  rewrite Hnew. cbv [anchor Sim.latitude]. intros H.
  apply Rabs_le_inv in H. lra.
Qed.

End Injection.

(* ================================================================== *)
(** ** The time weight *)

Section TimeWeight.

Import RiskSpec.

Lemma hour_of_range (t : datetime) : (0 <= hour_of t < 24)%Z.
Proof. unfold hour_of. apply Z.mod_pos_bound. lia. Qed.

Lemma in_list_harassment (category : string) :
  Sim.in_list category ["Harassment"%string] = String.eqb category "Harassment".
Proof. unfold Sim.in_list. cbn [existsb]. apply orb_false_r. Qed.

(** A night category is not harassment. *)
Lemma night_not_harassment (category : string) :
  Sim.in_list category ["Assault"; "Robbery"; "Poor Lighting"; "Isolated Area"]%string = true ->
  String.eqb category "Harassment" = false.
Proof.
  unfold Sim.in_list. cbn [existsb]. intros En.
  repeat (apply orb_true_iff in En as [En | En];
          [apply String.eqb_eq in En; subst; reflexivity |]).
  discriminate.
Qed.

(** Away from the hour 4 the code and the specification agree. *)
Lemma get_time_weight_agrees (category : string) (t : datetime) :
  hour_of t <> 4%Z ->
  Sim.get_time_weight category t = time_weight category (hour_of t).
Proof.
  intros H4. pose proof (hour_of_range t) as Hr.
  unfold Sim.get_time_weight, time_weight. rewrite in_list_harassment.
  set (h := hour_of t) in *.
  destruct (Sim.in_list category _) eqn:En.
  - rewrite (night_not_harassment _ En). cbn [andb].
    destruct (20 <=? h)%Z eqn:E1; destruct (h <=? 4)%Z eqn:E2;
      destruct (h <? 4)%Z eqn:E3; cbn [orb andb]; try reflexivity; try lia.
    now destruct ((10 <=? h) && (h <=? 18))%Z.
  - cbn [andb].
    destruct (String.eqb category "Harassment"); cbn [andb];
      destruct (20 <=? h)%Z eqn:E2; destruct (h <=? 4)%Z eqn:E3;
      destruct (10 <=? h)%Z eqn:E4; destruct (h <=? 18)%Z eqn:E5;
      cbn [orb andb]; try reflexivity; lia.
Qed.

(** At the hour 4 the code still gives 1.3 to the four night categories. *)
Lemma get_time_weight_at_4 (category : string) (t : datetime) :
  hour_of t = 4%Z ->
  Sim.in_list category ["Assault"; "Robbery"; "Poor Lighting"; "Isolated Area"]%string = true ->
  Sim.get_time_weight category t = 13 / 10 /\ time_weight category (hour_of t) = 1.
Proof.
  intros H4 Hn. unfold Sim.get_time_weight, time_weight. rewrite H4, Hn.
  split; [reflexivity |]. cbn [Z.leb Z.ltb Z.compare Pos.compare Pos.compare_cont orb andb].
  now rewrite (night_not_harassment _ Hn).
Qed.

(** C7, at the input where the code leaves it.  At 04:30 the hour is 4,
    outside the hours 20 to 3 of the specification, which gives an assault the
    weight 1; [get_time_weight] gives it 1.3. *)
Theorem get_time_weight_hour_4 :
  let current_time := 1704083400000000%Z in
  hour_of current_time = 4%Z
  /\ Sim.get_time_weight "Assault" current_time = 13 / 10
  /\ time_weight "Assault" (hour_of current_time) = 1.
Proof.
  intros current_time. split; [reflexivity |].
  now apply get_time_weight_at_4.
Qed.

End TimeWeight.

(* ================================================================== *)
(** ** The score of a danger incident *)

Section ScoreFormula.

Import RiskSpec.

(** The code and the specification give the same time weight, except to
    the four night categories at the hour 4. *)
Lemma get_time_weight_off_hour_4 (category : string) (t : datetime) :
  (hour_of t = 4%Z ->
   Sim.in_list category ["Assault"; "Robbery"; "Poor Lighting"; "Isolated Area"]%string
   = false) ->
  Sim.get_time_weight category t = time_weight category (hour_of t).
Proof.
  intros Hslip. destruct (Z.eq_dec (hour_of t) 4) as [E | E].
  - specialize (Hslip E). unfold Sim.get_time_weight, time_weight.
    rewrite E, Hslip. cbn [Z.leb Z.ltb Z.compare Pos.compare Pos.compare_cont orb andb].
    now rewrite andb_false_r.
  - now apply get_time_weight_agrees.
Qed.

(** For an incident that is not dated after the recompute, the hours of
    the specification are the hours the code computes. *)
Lemma hours_elapsed_past (occurred_at now : datetime) :
  (occurred_at <= now)%Z ->
  hours_elapsed occurred_at now = hours_between occurred_at now.
Proof.
  intros H. unfold hours_elapsed, hours_between.
  apply Zle_minus_le_0, IZR_le in H.
  apply Rmax_right. lra.
Qed.

(** For an incident dated after the recompute, the hours of the
    specification are 0 and those of the code are negative. *)
Lemma hours_elapsed_future (occurred_at now : datetime) :
  (now < occurred_at)%Z ->
  hours_elapsed occurred_at now = 0 /\ hours_between occurred_at now < 0.
Proof.
  intros H. unfold hours_elapsed, hours_between.
  assert (H' : (now - occurred_at < 0)%Z) by lia.
  apply IZR_lt in H'. split; [apply Rmax_left |]; lra.
Qed.

(** C1, as the code has it.  After a recompute at a time [now], a danger
    incident ([base_severity >= 0]) that is not one of the four night
    categories recomputed at the hour 4 holds as score
    [clamp(base_severity * time_weight * recency_factor * hotspot_density
           - safety_influence, 0, 10)]
    rounded to two decimals, with the time weight of the specification,
    with the density and the influence just computed for it against the
    list, and with [recency_factor = exp(-decay_rate * hours)] where the
    hours are the signed difference [now - timestamp], negative for an
    incident dated after [now].  For an incident not dated after [now]
    these are the hours elapsed of the specification and the score is the
    one the specification words.  With base severity 8, decay rate 0.1, ten
    hours elapsed, density 1, influence 0 and time weight 1 the score is
    2.94. *)
Theorem update_dynamic_scores_formula :
  forall (incidents : list Sim.incident) (now : datetime) (clk : Sim.clock)
         (inc' : Sim.incident),
    In inc' (fst (Sim.update_dynamic_scores incidents now clk)) ->
    (0 <= Sim.base_severity inc')%Z ->
    (hour_of now = 4%Z ->
     Sim.in_list (Sim.type inc')
       ["Assault"; "Robbery"; "Poor Lighting"; "Isolated Area"]%string = false) ->
    let signed_hours := hours_between (Sim.timestamp inc') now in
    let recency_factor := exp (- Sim.time_decay_factor inc' * signed_hours) in
    let weight := time_weight (Sim.type inc') (hour_of now) in
    Sim.dynamic_risk_score inc'
      = py_round (clamp (IZR (Sim.base_severity inc') * weight * recency_factor
                         * Sim.hotspot_density inc' - Sim.safety_influence inc')
                        0 10) 2
    /\ (exists inc clk',
          In inc incidents /\ same_inputs inc inc'
          /\ Sim.hotspot_density inc'
             = fst (Sim.calculate_hotspot_density inc incidents clk')
          /\ Sim.safety_influence inc' = Sim.calculate_safety_influence inc incidents)
    /\ ((Sim.timestamp inc' <= now)%Z ->
        signed_hours = hours_elapsed (Sim.timestamp inc') now
        /\ Sim.dynamic_risk_score inc' = risk_score inc' now)
    /\ (Sim.base_severity inc' = 8%Z -> Sim.time_decay_factor inc' = 1 / 10 ->
        signed_hours = 10 -> Sim.hotspot_density inc' = 1 ->
        Sim.safety_influence inc' = 0 -> weight = 1 ->
        Sim.dynamic_risk_score inc' = 294 / 100).
Proof.
  intros incidents now clk inc' Hin Hbase Hslip signed_hours recency_factor weight.
  destruct (update_dynamic_scores_In now incidents clk inc' Hin) as (inc & Hin0 & Hrec).
  pose proof (recomputed_base _ _ _ _ Hrec) as Hb.
  destruct Hrec as (Hsame & _ & _ & Hdanger).
  rewrite Hb in Hbase. destruct (Hdanger Hbase) as ([clk' Hhd0] & Hsi0 & Hscore).
  assert (Hformula : Sim.dynamic_risk_score inc'
      = py_round (clamp (IZR (Sim.base_severity inc') * weight * recency_factor
                         * Sim.hotspot_density inc' - Sim.safety_influence inc')
                        0 10) 2).
  { rewrite Hscore. unfold dynamic_risk, weight.
    now rewrite (get_time_weight_off_hour_4 _ _ Hslip). }
  split; [exact Hformula |].
  split; [exists inc, clk'; auto |].
  split.
  - intros Hpast. pose proof (hours_elapsed_past _ _ Hpast) as Hh.
    split; [now rewrite Hh |].
    rewrite Hformula. unfold risk_score, recency_factor, weight, signed_hours.
    now rewrite Hh.
  - intros H8 Hdecay Hhours Hhd Hsi Htw.
    rewrite Hformula. unfold recency_factor. rewrite H8, Hdecay, Hhours, Hhd, Hsi, Htw.
    replace (8 * 1 * exp (- (1 / 10) * 10) * 1 - 0) with (8 * exp (- 1)).
    + apply score_8_exp_m1.
    + replace (- (1 / 10) * 10) with (- 1) by field. ring.
Qed.

(** The scenario of C1: an assault of base severity 8 reported at 02:00,
    recomputed alone at 12:00 of the same day. *)
Lemma update_dynamic_scores_formula_witness :
  let now := 1704110400000000%Z in
  let inc := Sim.mk_incident "1" "Assault" (1308 / 100) (8027 / 100) 8 8
               1704074400000000%Z 1704074400000000%Z (1 / 10) 1 0
               "Historical incident" in
  let clk : Sim.clock := fun _ => now in
  exists inc',
    In inc' (fst (Sim.update_dynamic_scores [inc] now clk))
    /\ (0 <= Sim.base_severity inc')%Z
    /\ hour_of now = 12%Z
    /\ Sim.dynamic_risk_score inc' = risk_score inc' now
    /\ Sim.dynamic_risk_score inc' = 294 / 100.
Proof.
  intros now inc clk.
  destruct (update_singleton_danger inc now clk ltac:(simpl; lia))
    as (x & Hx & Hb & Hty & Hts & Hd & Hhd & Hsi).
  assert (Hin : In x (fst (Sim.update_dynamic_scores [inc] now clk)))
    by (rewrite Hx; now left).
  assert (Hbase : (0 <= Sim.base_severity x)%Z) by (rewrite Hb; simpl; lia).
  assert (Hslip : hour_of now = 4%Z ->
                  Sim.in_list (Sim.type x)
                    ["Assault"; "Robbery"; "Poor Lighting"; "Isolated Area"]%string
                  = false)
    by (intros H; vm_compute in H; discriminate H).
  exists x. split; [exact Hin |]. split; [exact Hbase |].
  split; [reflexivity |].
  destruct (update_dynamic_scores_formula [inc] now clk x Hin Hbase Hslip)
    as (_ & _ & Hpast & Hscenario).
  split.
  - apply Hpast. rewrite Hts. cbv [inc now Sim.timestamp]. lia.
  - apply Hscenario.
    + rewrite Hb. reflexivity.
    + rewrite Hd. reflexivity.
    + rewrite Hts. unfold hours_between, now, inc. cbn [Sim.timestamp].
      replace (1704110400000000 - 1704074400000000)%Z with 36000000000%Z by reflexivity.
      lra.
    + exact Hhd.
    + exact Hsi.
    + rewrite Hty. reflexivity.
Defined.

(** C1 as worded fails on a robbery dated four hours after the recompute,
    as a row of the CSV can be.  At 12:00 its time weight is 1; the
    specification takes its hours elapsed as 0 and so words the score 7,
    its base severity.  The code takes the hours as -4, the recency factor
    is [exp 0.6], and the score stored is the upper bound 10. *)
Lemma future_incident_scored_above :
  let now := 1704110400000000%Z in
  let ahead := Sim.mk_incident "3" "Robbery" (1308 / 100) (8027 / 100) 7 7
                 1704124800000000%Z 1704074400000000%Z (15 / 100) 1 0
                 "Historical incident" in
  let clk : Sim.clock := fun _ => now in
  exists inc',
    fst (Sim.update_dynamic_scores [ahead] now clk) = [inc']
    /\ (0 <= Sim.base_severity inc')%Z
    /\ hour_of now = 12%Z
    /\ time_weight (Sim.type inc') (hour_of now) = 1
    /\ hours_elapsed (Sim.timestamp inc') now = 0
    /\ Sim.hotspot_density inc' = 1
    /\ Sim.safety_influence inc' = 0
    /\ risk_score inc' now = 7
    /\ Sim.dynamic_risk_score inc' = 10
    /\ Sim.dynamic_risk_score inc' <> risk_score inc' now.
Proof.
  intros now ahead clk.
  destruct (update_singleton_danger ahead now clk ltac:(simpl; lia))
    as (x & Hx & Hb & Hty & Hts & Hd & Hhd & Hsi).
  assert (Hfuture : (now < Sim.timestamp x)%Z)
    by (rewrite Hts; cbv [ahead now Sim.timestamp]; lia).
  destruct (hours_elapsed_future _ _ Hfuture) as [Hspec _].
  assert (Hh : hours_between (Sim.timestamp x) now = -4).
  { rewrite Hts. unfold hours_between, ahead, now. cbn [Sim.timestamp].
    replace (1704110400000000 - 1704124800000000)%Z with (-14400000000)%Z by reflexivity.
    lra. }
  assert (Hw : time_weight (Sim.type x) (hour_of now) = 1)
    by (rewrite Hty; reflexivity).
  assert (Hclaimed : risk_score x now = 7).
  { unfold risk_score. rewrite Hw, Hspec, Hb, Hhd, Hsi.
    unfold ahead. cbn [Sim.base_severity].
    rewrite Rmult_0_r, exp_0.
    assert (Hc : clamp (7 * 1 * 1 * 1 - 0) 0 10 = 7).
    { unfold clamp, Rmax, Rmin.
      destruct (Rle_dec 10 (7 * 1 * 1 * 1 - 0)); [lra |].
      destruct (Rle_dec 0 (7 * 1 * 1 * 1 - 0)); lra. }
    rewrite Hc. apply (py_round_IZR 7). }
  assert (Hstored : Sim.dynamic_risk_score x = 10).
  { assert (Hin : In x (fst (Sim.update_dynamic_scores [ahead] now clk)))
      by (rewrite Hx; now left).
    apply update_dynamic_scores_In in Hin as (inc & [<- | []] & Hrec).
    destruct Hrec as (_ & _ & _ & Hdanger).
    destruct (Hdanger ltac:(simpl; lia)) as (_ & _ & ->).
    unfold dynamic_risk. rewrite Hb, Hty, Hd, Hhd, Hsi, Hh.
    replace (Sim.get_time_weight (Sim.type ahead) now) with 1 by reflexivity.
    unfold ahead. cbn [Sim.base_severity Sim.time_decay_factor].
    replace (- (15 / 100) * -4) with (6 / 10) by lra.
    pose proof (exp_ineq1_le (6 / 10)) as He.
    assert (Hc : clamp (7 * 1 * exp (6 / 10) * 1 - 0) 0 10 = 10).
    { unfold clamp, Rmax, Rmin.
      destruct (Rle_dec 10 (7 * 1 * exp (6 / 10) * 1 - 0)); [| lra].
      destruct (Rle_dec 0 10); lra. }
    rewrite Hc. apply (py_round_IZR 10). }
  assert (Hdiffer : Sim.dynamic_risk_score x <> risk_score x now)
    by (rewrite Hstored, Hclaimed; lra).
  assert (Hbase : (0 <= Sim.base_severity x)%Z) by (rewrite Hb; simpl; lia).
  exists x. split; [exact Hx |]. split; [exact Hbase |].
  split; [reflexivity |]. tauto.
Qed.

(** The case the statement of C1 leaves out.  An assault of the scenario,
    reported at 18:30 and recomputed alone at 04:30, has the time weight 1
    and the score 2.94 in the words of the specification; [get_time_weight]
    gives it 1.3 at the hour 4, and the score stored is at least 3.81. *)
Lemma night_category_at_hour_4 :
  let now := 1704083400000000%Z in
  let inc := Sim.mk_incident "1" "Assault" (1308 / 100) (8027 / 100) 8 8
               1704047400000000%Z 1704047400000000%Z (1 / 10) 1 0
               "Historical incident" in
  let clk : Sim.clock := fun _ => now in
  exists inc',
    fst (Sim.update_dynamic_scores [inc] now clk) = [inc']
    /\ hour_of now = 4%Z
    /\ time_weight (Sim.type inc') (hour_of now) = 1
    /\ hours_elapsed (Sim.timestamp inc') now = 10
    /\ risk_score inc' now = 294 / 100
    /\ 381 / 100 <= Sim.dynamic_risk_score inc'.
Proof.
  intros now inc clk.
  destruct (update_singleton_danger inc now clk ltac:(simpl; lia))
    as (x & Hx & Hb & Hty & Hts & Hd & Hhd & Hsi).
  assert (Hpast : (Sim.timestamp x <= now)%Z)
    by (rewrite Hts; cbv [inc now Sim.timestamp]; lia).
  assert (Hh : hours_between (Sim.timestamp x) now = 10).
  { rewrite Hts. unfold hours_between, inc, now. cbn [Sim.timestamp].
    replace (1704083400000000 - 1704047400000000)%Z with 36000000000%Z by reflexivity.
    lra. }
  assert (Hspec : hours_elapsed (Sim.timestamp x) now = 10)
    by (rewrite (hours_elapsed_past _ _ Hpast); exact Hh).
  assert (Hw : time_weight (Sim.type x) (hour_of now) = 1)
    by (rewrite Hty; reflexivity).
  assert (Hclaimed : risk_score x now = 294 / 100).
  { unfold risk_score. rewrite Hw, Hspec, Hb, Hd, Hhd, Hsi.
    unfold inc. cbn [Sim.base_severity Sim.time_decay_factor].
    replace (8 * 1 * exp (- (1 / 10) * 10) * 1 - 0) with (8 * exp (- 1)).
    - apply score_8_exp_m1.
    - replace (- (1 / 10) * 10) with (- 1) by field. ring. }
  assert (Hstored : 381 / 100 <= Sim.dynamic_risk_score x).
  { assert (Hin : In x (fst (Sim.update_dynamic_scores [inc] now clk)))
      by (rewrite Hx; now left).
    apply update_dynamic_scores_In in Hin as (inc0 & [<- | []] & Hrec).
    destruct Hrec as (_ & _ & _ & Hdanger).
    destruct (Hdanger ltac:(simpl; lia)) as (_ & _ & ->).
    unfold dynamic_risk. rewrite Hb, Hty, Hd, Hhd, Hsi, Hh.
    replace (Sim.get_time_weight (Sim.type inc) now) with (13 / 10) by reflexivity.
    unfold inc. cbn [Sim.base_severity Sim.time_decay_factor].
    replace (- (1 / 10) * 10) with (- 1) by field.
    pose proof exp_m1_lower as Hlo. pose proof exp_m1_upper as Hhi.
    assert (Hc : clamp (8 * (13 / 10) * exp (- 1) * 1 - 0) 0 10
                 = 8 * (13 / 10) * exp (- 1)).
    { unfold clamp, Rmax, Rmin.
      destruct (Rle_dec 10 (8 * (13 / 10) * exp (- 1) * 1 - 0)); [lra |].
      destruct (Rle_dec 0 (8 * (13 / 10) * exp (- 1) * 1 - 0)); lra. }
    rewrite Hc.
    replace (381 / 100) with (IZR 381 / 10 ^ 2) by (simpl; lra).
    apply py_round_ge. simpl. lra. }
  exists x. split; [exact Hx |]. split; [reflexivity |]. tauto.
Qed.

End ScoreFormula.

(* ================================================================== *)
(** ** The radar scan *)

Section Radar.

Import RadarSpec.

Lemma length_insert_by {A : Type} (key : A -> R) (x : A) (l : list A) :
  List.length (insert_by key x l) = S (List.length l).
Proof.
  induction l as [| y t IH]; simpl; [reflexivity |].
  destruct (Rleb (key x) (key y)); simpl; auto.
Qed.

Lemma length_sort_by {A : Type} (key : A -> R) (l : list A) :
  List.length (sort_by key l) = List.length l.
Proof.
  induction l as [| x l IH]; simpl; [reflexivity |].
  now rewrite length_insert_by, IH.
Qed.

(** The loop of the radar scan keeps the rows that count, in the order of
    the table, and sums their severities. *)
Lemma radar_loop_fold (lat lng : R) (df : App.DataFrame) :
  forall (t : Z) (l : list App.radar_crime),
    fold_left (App.radar_step lat lng) df (t, l)
    = ((t + accumulator lat lng df)%Z,
       (l ++ map (fun c => App.mk_radar_crime (App.latitude c) (App.longitude c)
                             (App.type c)
                             (py_round (App.haversine lat lng (App.latitude c)
                                                     (App.longitude c) * 1000) 0)
                             (App.severity c))
                 (filter (qualifies lat lng) df))%list).
Proof.
  induction df as [| c df IH]; intros t l.
  - cbn. now rewrite Z.add_0_r, app_nil_r.
  - cbn [fold_left]. unfold accumulator. cbn [filter].
    assert (Hstep : App.radar_step lat lng (t, l) c
                    = if qualifies lat lng c
                      then ((t + App.severity c)%Z,
                            (l ++ [App.mk_radar_crime (App.latitude c) (App.longitude c)
                                     (App.type c)
                                     (py_round (App.haversine lat lng (App.latitude c)
                                                  (App.longitude c) * 1000) 0)
                                     (App.severity c)])%list)
                      else (t, l)).
    { unfold App.radar_step, qualifies.
      destruct (Rltb _ 1); [destruct (0 <? _)%Z |]; reflexivity. }
    rewrite Hstep.
    destruct (qualifies lat lng c); rewrite IH; unfold accumulator;
      cbn [map fold_right]; rewrite <- ?app_assoc; f_equal; try lia; reflexivity.
Qed.

(** The count returned is the number of rows that count, capped at 5. *)
Lemma radar_count_capped (lat lng : R) (df : App.DataFrame) :
  App.nearby_crimes (App.radar_scan lat lng df)
  = Nat.min 5 (List.length (filter (qualifies lat lng) df)).
Proof.
  unfold App.radar_scan, App.radar_loop. rewrite radar_loop_fold.
  cbn [App.nearby_crimes app].
  now rewrite length_firstn, length_sort_by, length_map.
Qed.

(** The score returned is the clamp itself: with integer severities it
    has at most one decimal, which the rounding to one decimal keeps. *)
Lemma radar_score (lat lng : R) (df : App.DataFrame) :
  App.safety_score (App.radar_scan lat lng df)
  = clamp (100 - 15 / 10 * IZR (accumulator lat lng df)) 0 100.
Proof.
  unfold App.radar_scan, App.radar_loop. rewrite radar_loop_fold.
  cbn [App.safety_score]. rewrite Z.add_0_l.
  set (a := accumulator lat lng df).
  replace (100 - IZR a * (15 / 10)) with (100 - 15 / 10 * IZR a) by ring.
  fold (clamp (100 - 15 / 10 * IZR a) 0 100).
  assert (H : exists z : Z, clamp (100 - 15 / 10 * IZR a) 0 100 = IZR z / 10 ^ 1).
  { unfold clamp, Rmax, Rmin.
    destruct (Rle_dec 100 (100 - 15 / 10 * IZR a)).
    - destruct (Rle_dec 0 100); [| lra]. exists 1000%Z. simpl. lra.
    - destruct (Rle_dec 0 (100 - 15 / 10 * IZR a)).
      + exists (1000 - 15 * a)%Z. rewrite minus_IZR, mult_IZR. simpl. lra.
      + exists 0%Z. simpl. lra. }
  destruct H as [z ->]. apply py_round_exact.
Qed.

Lemma insert_by_sorted {A : Type} (key : A -> R) (x : A) (l : list A) :
  Sorted (fun a b => key a <= key b) l ->
  Sorted (fun a b => key a <= key b) (insert_by key x l).
Proof.
  induction l as [| y t IH]; intros Hs; simpl.
  - repeat constructor.
  - destruct (Rleb (key x) (key y)) eqn:E.
    + apply Rleb_true in E. constructor; [exact Hs | now constructor].
    + apply Rleb_false in E. inversion Hs as [| ? ? Ht Hhd]; subst.
      constructor; [now apply IH |].
      destruct t as [| z t]; simpl.
      * constructor. lra.
      * destruct (Rleb (key x) (key z)); constructor; [lra |].
        now inversion Hhd.
Qed.

Lemma sort_by_sorted {A : Type} (key : A -> R) (l : list A) :
  Sorted (fun a b => key a <= key b) (sort_by key l).
Proof.
  induction l as [| x l IH]; simpl; [constructor | now apply insert_by_sorted].
Qed.

Lemma firstn_sorted {A : Type} (le : A -> A -> Prop) (n : nat) (l : list A) :
  Sorted le l -> Sorted le (firstn n l).
Proof.
  revert l. induction n as [| n IH]; intros [| x l] Hs; simpl; try constructor.
  - apply IH. now inversion Hs.
  - inversion Hs as [| ? ? _ Hhd]; subst.
    destruct n; simpl; [constructor |].
    destruct l; simpl; constructor. now inversion Hhd.
Qed.

(** The incidents returned come in ascending order of reported distance. *)
Lemma radar_incidents_sorted (lat lng : R) (df : App.DataFrame) :
  Sorted (fun a b => App.rc_distance a <= App.rc_distance b)
         (App.recent_incidents (App.radar_scan lat lng df)).
Proof.
  unfold App.radar_scan. destruct (App.radar_loop lat lng df) as [t l].
  cbn [App.recent_incidents]. apply firstn_sorted, sort_by_sorted.
Qed.

(** C5, at the input where the code leaves it.  With six robberies of
    severity 7 at the query point, six rows are within the radius and have
    a positive severity, the five nearest are returned, and the count
    returned is 5. *)
Theorem radar_count_of_six :
  let lat := 1308 / 100 in
  let lng := 8027 / 100 in
  let row := App.mk_crime lat lng "Robbery" "Bag snatching" 7 in
  let df := [row; row; row; row; row; row] in
  List.length (filter (qualifies lat lng) df) = 6%nat
  /\ List.length (App.recent_incidents (App.radar_scan lat lng df)) = 5%nat
  /\ App.nearby_crimes (App.radar_scan lat lng df) = 5%nat.
Proof.
  intros lat lng row df.
  assert (Hq : qualifies lat lng row = true).
  { unfold qualifies, row. cbn [App.latitude App.longitude App.severity].
    rewrite haversine_self. apply andb_true_iff. split; [| reflexivity].
    apply Rltb_true. lra. }
  assert (Hf : filter (qualifies lat lng) df = df).
  { unfold df. cbn [filter]. now rewrite Hq. }
  split; [now rewrite Hf |].
  split; [| now rewrite radar_count_capped, Hf].
  unfold App.radar_scan, App.radar_loop. rewrite radar_loop_fold.
  cbn [App.recent_incidents app].
  now rewrite length_firstn, length_sort_by, length_map, Hf.
Qed.

End Radar.

(* ================================================================== *)
(** ** Further properties: distances *)

Section DistanceProperties.

Lemma atan2_quadrant (y x : R) : 0 <= y -> 0 <= x -> 0 <= atan2 y x <= PI / 2.
Proof.
  intros Hy Hx. unfold atan2. pose proof PI_RGT_0 as Hpi.
  destruct (Rlt_dec 0 x) as [Hpos | Hnpos].
  - pose proof (atan_bound (y / x)) as [_ Hub]. split; [| lra].
    destruct (Req_dec y 0) as [-> | Hne].
    + replace (0 / x) with 0 by (field; lra). rewrite atan_0. lra.
    + rewrite <- atan_0. left. apply atan_increasing.
      apply Rdiv_lt_0_compat; lra.
  - destruct (Rlt_dec x 0); [lra |].
    destruct (Rlt_dec 0 y); [lra |].
    destruct (Rlt_dec y 0); lra.
Qed.

(** The quantity under the square roots does not depend on the order of
    the two points. *)
Lemma haversine_a_sym (lat1 lon1 lat2 lon2 : R) :
  (sin (radians (lat2 - lat1) / 2)) ^ 2
  + cos (radians lat1) * cos (radians lat2) * (sin (radians (lon2 - lon1) / 2)) ^ 2
  = (sin (radians (lat1 - lat2) / 2)) ^ 2
    + cos (radians lat2) * cos (radians lat1) * (sin (radians (lon1 - lon2) / 2)) ^ 2.
Proof.
  unfold radians.
  replace ((lat1 - lat2) * PI / 180 / 2) with (- ((lat2 - lat1) * PI / 180 / 2)) by field.
  replace ((lon1 - lon2) * PI / 180 / 2) with (- ((lon2 - lon1) * PI / 180 / 2)) by field.
  rewrite !sin_neg. ring.
Qed.

(** [haversine] is a distance on the sphere: never negative, at most half
    the circumference, the same in both directions, zero from a point to
    itself. *)
Theorem haversine_distance :
  forall lat1 lon1 lat2 lon2 : R,
    0 <= App.haversine lat1 lon1 lat2 lon2 <= 6371 * PI
    /\ App.haversine lat1 lon1 lat2 lon2 = App.haversine lat2 lon2 lat1 lon1
    /\ App.haversine lat1 lon1 lat1 lon1 = 0.
Proof.
  intros lat1 lon1 lat2 lon2. split; [| split].
  - unfold App.haversine.
    match goal with
    | |- _ <= _ * _ * atan2 (sqrt ?a) (sqrt ?b) <= _ =>
        pose proof (atan2_quadrant (sqrt a) (sqrt b) (sqrt_pos a) (sqrt_pos b)) as H
    end.
    lra.
  - unfold App.haversine. now rewrite haversine_a_sym.
  - apply haversine_self.
Qed.

Lemma calculate_distance_eq (lat1 lon1 lat2 lon2 : R) :
  Sim.calculate_distance lat1 lon1 lat2 lon2 = App.haversine lat1 lon1 lat2 lon2.
Proof.
  unfold Sim.calculate_distance, App.haversine, radians.
  replace ((lat2 * PI / 180 - lat1 * PI / 180) / 2)
    with ((lat2 - lat1) * PI / 180 / 2) by field.
  replace ((lon2 * PI / 180 - lon1 * PI / 180) / 2)
    with ((lon2 - lon1) * PI / 180 / 2) by field.
  ring.
Qed.

(** The distance function of the simulation and the one of the web
    application compute the same value, so a radius means the same in
    both. *)
Theorem calculate_distance_is_haversine :
  forall lat1 lon1 lat2 lon2 : R,
    Sim.calculate_distance lat1 lon1 lat2 lon2 = App.haversine lat1 lon1 lat2 lon2
    /\ (forall radius, Rleb (Sim.calculate_distance lat1 lon1 lat2 lon2) radius
                       = Rleb (App.haversine lat1 lon1 lat2 lon2) radius).
Proof.
  intros. split; [apply calculate_distance_eq |].
  intros radius. now rewrite calculate_distance_eq.
Qed.

Lemma atan2_sin_cos (d : R) :
  0 <= d <= PI / 2 -> atan2 (sin d) (cos d) = d.
Proof.
  intros [Hlo Hhi]. unfold atan2. pose proof PI_RGT_0 as Hpi.
  destruct (Rle_lt_or_eq_dec d (PI / 2) Hhi) as [Hlt | ->].
  - assert (Hc : 0 < cos d) by (apply cos_gt_0; lra).
    destruct (Rlt_dec 0 (cos d)); [| lra].
    fold (tan d). apply atan_tan. lra.
  - rewrite cos_PI2, sin_PI2.
    destruct (Rlt_dec 0 0); [lra |]. destruct (Rlt_dec 0 1); lra.
Qed.

(** Along a meridian the distance is the arc: the difference of the
    latitudes, in radians, times the radius of 6371 km. *)
Theorem haversine_meridian :
  forall lat1 lat2 lon : R,
    Rabs (lat2 - lat1) <= 180 ->
    App.haversine lat1 lon lat2 lon = 6371 * radians (Rabs (lat2 - lat1)).
Proof.
  intros lat1 lat2 lon Hd. pose proof PI_RGT_0 as Hpi.
  (* by symmetry the second latitude may be taken as the larger one *)
  assert (Hcase : forall la lb, 0 <= lb - la <= 180 ->
            App.haversine la lon lb lon = 6371 * radians (lb - la)).
  { intros la lb [H0 H180]. unfold App.haversine.
    set (d := radians (lb - la) / 2).
    assert (Hdr : 0 <= d <= PI / 2).
    { unfold d, radians. split.
      - apply Rmult_le_pos; [| lra]. apply Rmult_le_pos; [| lra].
        apply Rmult_le_pos; lra.
      - assert ((lb - la) * PI <= 180 * PI) by (apply Rmult_le_compat_r; lra). lra. }
    replace (radians (lon - lon) / 2) with 0 by (unfold radians; field).
    rewrite sin_0.
    replace (sin d ^ 2 + cos (radians la) * cos (radians lb) * 0 ^ 2)
      with (Rsqr (sin d)) by (unfold Rsqr; ring).
    rewrite sqrt_Rsqr by (apply sin_ge_0; lra).
    rewrite <- cos2, sqrt_Rsqr by (apply cos_ge_0; lra).
    rewrite atan2_sin_cos by exact Hdr. unfold d. field. }
  unfold Rabs. destruct (Rcase_abs (lat2 - lat1)) as [Hneg | Hpos].
  - assert (Hsym : App.haversine lat1 lon lat2 lon = App.haversine lat2 lon lat1 lon)
      by (unfold App.haversine; now rewrite haversine_a_sym).
    rewrite Hsym, Hcase.
    + f_equal. unfold radians. field.
    + unfold Rabs in Hd. destruct (Rcase_abs (lat2 - lat1)); lra.
  - apply Hcase. unfold Rabs in Hd. destruct (Rcase_abs (lat2 - lat1)); lra.
Qed.

(** One degree of latitude, from Chennai's 13 N to 14 N. *)
Lemma haversine_meridian_witness :
  App.haversine 13 (8027 / 100) 14 (8027 / 100) = 6371 * radians 1.
Proof.
  rewrite haversine_meridian.
  - replace (14 - 13) with 1 by ring. now rewrite Rabs_R1.
  - replace (14 - 13) with 1 by ring. rewrite Rabs_R1. lra.
Defined.

End DistanceProperties.

(* ================================================================== *)
(** ** Further properties: the route score *)

Section RouteScoreProperties.

Import RouteSpec.

Lemma round_half_even_mono (x y : R) :
  x <= y -> (round_half_even x <= round_half_even y)%Z.
Proof.
  intros Hxy.
  destruct (Z_le_gt_dec (round_half_even x) (round_half_even y)) as [H | H]; [exact H |].
  exfalso.
  pose proof (round_half_even_bound x) as [_ Bx].
  pose proof (round_half_even_bound y) as [By _].
  assert (H1 : (round_half_even y + 1 <= round_half_even x)%Z) by lia.
  apply IZR_le in H1. rewrite plus_IZR in H1.
  assert (Heq : x = y) by lra. subst y. lia.
Qed.

Lemma py_round_mono (x y : R) (n : nat) : x <= y -> py_round x n <= py_round y n.
Proof.
  intros H. unfold py_round. pose proof (pow10_pos n) as Hp.
  apply Rmult_le_compat_r; [left; now apply Rinv_0_lt_compat |].
  apply IZR_le, round_half_even_mono. apply Rmult_le_compat_r; lra.
Qed.

Lemma clamp_mono (x y lo hi : R) : x <= y -> clamp x lo hi <= clamp y lo hi.
Proof.
  intros H. unfold clamp. apply Rle_max_compat_l. now apply Rle_min_compat_l.
Qed.

Lemma clamp_range (x lo hi : R) : lo <= hi -> lo <= clamp x lo hi <= hi.
Proof.
  intros H. unfold clamp, Rmax, Rmin.
  destruct (Rle_dec hi x); destruct (Rle_dec lo _); lra.
Qed.

Lemma Rsum_le {A : Type} (f g : A -> R) (l : list A) :
  (forall a, In a l -> f a <= g a) -> Rsum (map f l) <= Rsum (map g l).
Proof.
  induction l as [| a l IH]; intros H; simpl; [lra |].
  pose proof (H a (or_introl eq_refl)).
  assert (Rsum (map f l) <= Rsum (map g l)) by (apply IH; intros; apply H; now right).
  lra.
Qed.

Lemma contribution_mono (tm1 tm2 : R) (c : App.crime) :
  tm1 <= tm2 -> contribution tm1 c <= contribution tm2 c.
Proof.
  intros H. unfold contribution.
  destruct (App.severity c <? 0)%Z eqn:E; [lra |].
  apply Z.ltb_ge, IZR_le in E. now apply Rmult_le_compat_l.
Qed.

(** A larger multiplier gives a larger accumulator. *)
Lemma accumulator_mono (g : list (R * R)) (df : App.DataFrame) (tm1 tm2 : R) :
  tm1 <= tm2 -> accumulator g df tm1 <= accumulator g df tm2.
Proof.
  intros H. unfold accumulator. apply Rsum_le. intros v _.
  apply Rsum_le. intros c _.
  destruct (near v c); [now apply contribution_mono | lra].
Qed.

Lemma score_antitone (g : list (R * R)) (df : App.DataFrame) (tm1 tm2 : R) :
  tm1 <= tm2 ->
  fst (App.calculate_safety g df tm2) <= fst (App.calculate_safety g df tm1).
Proof.
  intros H. rewrite !calculate_safety_spec. cbn [fst].
  apply py_round_mono, clamp_mono.
  pose proof (accumulator_mono g df tm1 tm2 H). lra.
Qed.

(** The safety score lies between 0 and 100, whatever the route, the table
    and the multiplier. *)
Theorem calculate_safety_range :
  forall (geometry : list (R * R)) (crime_df : App.DataFrame) (time_multiplier : R),
    0 <= fst (App.calculate_safety geometry crime_df time_multiplier) <= 100.
Proof.
  intros g df tm. rewrite calculate_safety_spec. cbn [fst].
  pose proof (clamp_range (100 - 2 * accumulator g df tm) 0 100 ltac:(lra)) as [Hlo Hhi].
  split.
  - apply Rle_trans with (IZR 0 / 10 ^ 2); [simpl; lra |].
    apply py_round_ge. simpl. lra.
  - apply Rle_trans with (IZR 10000 / 10 ^ 2); [| simpl; lra].
    apply py_round_le. simpl. lra.
Qed.

(** A larger time multiplier never raises the score of a route, and does
    not change the pins reported. *)
Theorem calculate_safety_antitone :
  forall (geometry : list (R * R)) (crime_df : App.DataFrame) (tm1 tm2 : R),
    tm1 <= tm2 ->
    fst (App.calculate_safety geometry crime_df tm2)
      <= fst (App.calculate_safety geometry crime_df tm1)
    /\ snd (App.calculate_safety geometry crime_df tm2)
       = snd (App.calculate_safety geometry crime_df tm1).
Proof.
  intros g df tm1 tm2 H. split; [now apply score_antitone |].
  now rewrite !calculate_safety_spec.
Qed.

Lemma calculate_safety_antitone_witness :
  let v := (8027 / 100, 1308 / 100) in
  let row := App.mk_crime (1308 / 100) (8027 / 100) "Robbery" "Bag snatching" 7 in
  fst (App.calculate_safety [v] [row] (18 / 10))
    <= fst (App.calculate_safety [v] [row] 1).
Proof.
  intros v row. apply (calculate_safety_antitone [v] [row] 1 (18 / 10)). lra.
Defined.

Lemma time_risk_multiplier_ge_1 (hour : Z) :
  1 <= fst (App.get_time_risk_multiplier hour).
Proof.
  unfold App.get_time_risk_multiplier.
  destruct ((22 <=? hour) || (hour <? 4))%Z; [simpl; lra |].
  destruct ((18 <=? hour) && (hour <? 22))%Z; [simpl; lra |].
  destruct ((4 <=? hour) && (hour <? 7))%Z; simpl; lra.
Qed.

(** Whatever the hour, a route scored with that hour's multiplier gets at
    most the score it gets in the daytime (hours 7 to 17), when the
    multiplier is 1. *)
Theorem daytime_score_is_highest :
  forall (geometry : list (R * R)) (crime_df : App.DataFrame) (hour day_hour : Z),
    (7 <= day_hour < 18)%Z ->
    fst (App.calculate_safety geometry crime_df
           (fst (App.get_time_risk_multiplier hour)))
    <= fst (App.calculate_safety geometry crime_df
              (fst (App.get_time_risk_multiplier day_hour))).
Proof.
  intros g df hour day_hour Hday.
  assert (Hd : App.get_time_risk_multiplier day_hour = (1, "Daytime Risk: NORMAL"%string)).
  { unfold App.get_time_risk_multiplier.
    destruct (22 <=? day_hour)%Z eqn:E1; [lia |].
    destruct (day_hour <? 4)%Z eqn:E2; [lia |].
    destruct (18 <=? day_hour)%Z eqn:E3; [lia |].
    destruct (4 <=? day_hour)%Z eqn:E4; [| lia].
    destruct (day_hour <? 7)%Z eqn:E5; [lia |].
    reflexivity. }
  rewrite Hd. cbn [fst]. apply score_antitone, time_risk_multiplier_ge_1.
Qed.

Lemma daytime_score_is_highest_witness :
  let v := (8027 / 100, 1308 / 100) in
  let row := App.mk_crime (1308 / 100) (8027 / 100) "Robbery" "Bag snatching" 7 in
  fst (App.calculate_safety [v] [row] (fst (App.get_time_risk_multiplier 23)))
  <= fst (App.calculate_safety [v] [row] (fst (App.get_time_risk_multiplier 12))).
Proof.
  intros v row. apply (daytime_score_is_highest [v] [row] 23 12). lia.
Defined.

End RouteScoreProperties.

(* ================================================================== *)
(** ** Further properties: classification and narrative *)

Section NarrativeProperties.

Import NarrativeSpec.

Lemma count_type_count_of (d : list (string * nat)) (t k : string) :
  count_of (App.count_type d t) k
  = if String.eqb k t then S (count_of d k) else count_of d k.
Proof.
  induction d as [| [k' v] d IH]; simpl.
  - destruct (String.eqb k t); reflexivity.
  - destruct (String.eqb t k') eqn:Etk; simpl.
    + apply String.eqb_eq in Etk. subst k'.
      destruct (String.eqb k t); reflexivity.
    + destruct (String.eqb k k') eqn:Ekk.
      * apply String.eqb_eq in Ekk. subst k'.
        rewrite String.eqb_sym, Etk. reflexivity.
      * exact IH.
Qed.

Lemma count_type_keys (d : list (string * nat)) (t : string) :
  NoDup (map fst d) ->
  NoDup (map fst (App.count_type d t))
  /\ (forall k, In k (map fst (App.count_type d t)) -> k = t \/ In k (map fst d)).
Proof.
  induction d as [| [k v] d IH]; simpl; intros Hnd.
  - split; [repeat constructor; auto | intros k [<- | []]; auto].
  - inversion Hnd as [| ? ? Hnotin Hnd']; subst.
    destruct (String.eqb t k) eqn:E; simpl.
    + split; [exact Hnd | intros k0 H; now right].
    + destruct (IH Hnd') as [IH1 IH2]. split.
      * constructor; [| exact IH1]. intros Hin.
        destruct (IH2 k Hin) as [-> | Hin']; [| contradiction].
        now rewrite String.eqb_refl in E.
      * intros k0 [<- | Hin]; [right; now left |].
        destruct (IH2 k0 Hin); auto.
Qed.

(** The dict built from the pins has one entry per category, holding the
    number of pins of that category. *)
Lemma crime_types_spec (types : list string) :
  forall d, NoDup (map fst d) ->
    let d' := fold_left App.count_type types d in
    NoDup (map fst d')
    /\ forall k, count_of d' k = (count_of d k + count_occ string_dec types k)%nat.
Proof.
  induction types as [| t types IH]; intros d Hnd; simpl.
  - split; [exact Hnd | intros; lia].
  - destruct (count_type_keys d t Hnd) as [Hnd' _].
    destruct (IH (App.count_type d t) Hnd') as [H1 H2].
    split; [exact H1 |]. intros k. rewrite H2, count_type_count_of.
    destruct (string_dec t k) as [-> | Hne].
    + rewrite String.eqb_refl. lia.
    + assert (String.eqb k t = false) by (apply String.eqb_neq; congruence).
      rewrite H. lia.
Qed.

Lemma count_of_In (d : list (string * nat)) (k : string) (v : nat) :
  NoDup (map fst d) -> In (k, v) d -> count_of d k = v.
Proof.
  induction d as [| [k' v'] d IH]; simpl; intros Hnd Hin; [contradiction |].
  inversion Hnd as [| ? ? Hnotin Hnd']; subst.
  destruct Hin as [Heq | Hin].
  - injection Heq as -> ->. now rewrite String.eqb_refl.
  - destruct (String.eqb k k') eqn:E.
    + apply String.eqb_eq in E. subst k'. exfalso. apply Hnotin.
      apply in_map_iff. now exists (k, v).
    + now apply IH.
Qed.

Lemma count_of_pos_In (d : list (string * nat)) (k : string) :
  (0 < count_of d k)%nat -> In (k, count_of d k) d.
Proof.
  induction d as [| [k' v'] d IH]; simpl; intros H; [lia |].
  destruct (String.eqb k k') eqn:E.
  - apply String.eqb_eq in E. subst k'. now left.
  - right. now apply IH.
Qed.

(** The running maximum is an entry of the dict and no entry beats it. *)
Lemma fold_max_spec (rest : list (string * nat)) :
  forall first,
    let best := fold_left (fun best kv => if (snd best <? snd kv)%nat then kv else best)
                          rest first in
    In best (first :: rest)
    /\ forall kv, In kv (first :: rest) -> (snd kv <= snd best)%nat.
Proof.
  induction rest as [| kv rest IH]; intros first; simpl.
  - split; [now left | intros kv [<- | []]; lia].
  - destruct (snd first <? snd kv)%nat eqn:E.
    + apply Nat.ltb_lt in E. destruct (IH kv) as [H1 H2]. split.
      * right. exact H1.
      * intros x [<- | Hx]; [| now apply H2].
        specialize (H2 kv (or_introl eq_refl)). lia.
    + apply Nat.ltb_ge in E. destruct (IH first) as [H1 H2]. split.
      * destruct H1 as [H1 | H1]; [now left | right; now right].
      * intros x [<- | [<- | Hx]].
        -- apply H2. now left.
        -- specialize (H2 first (or_introl eq_refl)). lia.
        -- apply H2. now right.
Qed.

(** The category named by [max_key] is one of the pins' categories and no
    category has more pins. *)
Lemma max_key_most_frequent (pins : list App.pin) :
  pins <> [] ->
  let top := App.max_key (fold_left App.count_type (map App.pin_type pins) []) in
  In top (map App.pin_type pins)
  /\ forall t, (pins_of_type pins t <= pins_of_type pins top)%nat.
Proof.
  intros Hne. unfold pins_of_type.
  set (types := map App.pin_type pins).
  destruct (crime_types_spec types [] (NoDup_nil _)) as [Hnd Hcount0].
  assert (Hcount : forall k, count_of (fold_left App.count_type types []) k
                             = count_occ string_dec types k)
    by (intros k; rewrite (Hcount0 k); reflexivity).
  clear Hcount0.
  set (d := fold_left App.count_type types []) in *.
  assert (Hd : exists t0, (0 < count_of d t0)%nat).
  { destruct pins as [| p ps]; [contradiction |]. exists (App.pin_type p).
    rewrite Hcount. unfold types. simpl. destruct (string_dec _ _); [lia | contradiction]. }
  destruct d as [| first rest] eqn:Ed.
  { destruct Hd as [t0 H0]. simpl in H0. lia. }
  unfold App.max_key.
  destruct (fold_max_spec rest first) as [Hin Hmax]. cbv zeta in Hin, Hmax.
  set (best := fold_left _ rest first) in *.
  assert (Hbest : count_of (first :: rest) (fst best) = snd best).
  { apply count_of_In; [exact Hnd |]. now destruct best. }
  assert (Hall : forall t, (count_occ string_dec types t <= snd best)%nat).
  { intros t. destruct (Nat.eq_dec (count_occ string_dec types t) 0) as [-> | Hpos]; [lia |].
    assert (Ht : (0 < count_of (first :: rest) t)%nat) by (rewrite Hcount; lia).
    apply count_of_pos_In in Ht. specialize (Hmax _ Ht). cbn [snd] in Hmax.
    rewrite Hcount in Hmax. exact Hmax. }
  rewrite Hcount in Hbest. split.
  - apply (count_occ_In string_dec). destruct Hd as [t0 H0].
    rewrite Hcount in H0. specialize (Hall t0). lia.
  - intros t. rewrite Hbest. apply Hall.
Qed.

(** The category [classify_route_safety] gives is never "risky", the
    word [generate_safety_narrative] tests for: no route gets the
    high-risk message, and a route classified "risk" that has pins is told
    it is generally safe. *)
Theorem risk_route_told_generally_safe :
  forall (score : R) (pins : list App.pin) (multiplier_label : string),
    let category := fst (fst (App.classify_route_safety score)) in
    let message := App.generate_safety_narrative score pins category multiplier_label in
    (forall n t l, message <> App.HighRisk n t l)
    /\ (pins <> [] -> score < 40 ->
        category = "risk"%string
        /\ exists t, message = App.GenerallySafe (List.length pins) t multiplier_label).
Proof.
  intros score pins label category message.
  assert (Hcat : category = "safe"%string \/ category = "moderate"%string
                 \/ category = "risk"%string).
  { unfold category, App.classify_route_safety.
    destruct (Rleb 70 score); [now left |].
    destruct (Rleb 40 score); [right; now left | right; now right]. }
  split.
  - intros n t l. unfold message, App.generate_safety_narrative.
    destruct pins as [| p ps]; [destruct (Rleb 85 score); discriminate |].
    destruct Hcat as [-> | [-> | ->]]; discriminate.
  - intros Hne Hlow.
    assert (Hrisk : category = "risk"%string).
    { unfold category, App.classify_route_safety.
      assert (H70 : Rleb 70 score = false) by (apply Rleb_false; lra).
      assert (H40 : Rleb 40 score = false) by (apply Rleb_false; lra).
      now rewrite H70, H40. }
    split; [exact Hrisk |].
    unfold message, App.generate_safety_narrative. rewrite Hrisk.
    destruct pins as [| p ps]; [contradiction |]. eexists. reflexivity.
Qed.

Lemma risk_route_told_generally_safe_witness :
  let pins := [App.mk_pin (1308 / 100) (8027 / 100) "Assault" "Violent brawl" 9] in
  exists t,
    App.generate_safety_narrative 12 pins
      (fst (fst (App.classify_route_safety 12))) "Night Travel Risk: HIGH"
    = App.GenerallySafe 1 t "Night Travel Risk: HIGH".
Proof.
  intros pins.
  destruct (risk_route_told_generally_safe 12 pins "Night Travel Risk: HIGH") as [_ H].
  destruct H as [_ H]; [discriminate | lra | exact H].
Defined.

(** With pins, the narrative names one of their categories, and no
    category has more pins than the one named. *)
Theorem narrative_names_most_frequent :
  forall (score : R) (pins : list App.pin) (category multiplier_label : string),
    pins <> [] ->
    exists top,
      In top (map App.pin_type pins)
      /\ (forall t, (pins_of_type pins t <= pins_of_type pins top)%nat)
      /\ (App.generate_safety_narrative score pins category multiplier_label
          = App.HighRisk (List.length pins) top multiplier_label
          \/ App.generate_safety_narrative score pins category multiplier_label
             = App.StayAlert (List.length pins) top multiplier_label
          \/ App.generate_safety_narrative score pins category multiplier_label
             = App.GenerallySafe (List.length pins) top multiplier_label).
Proof.
  intros score pins category label Hne.
  destruct (max_key_most_frequent pins Hne) as [Hin Hmax].
  eexists. split; [exact Hin |]. split; [exact Hmax |].
  unfold App.generate_safety_narrative.
  destruct pins as [| p ps]; [contradiction |].
  destruct (String.eqb category "risky"); [now left |].
  destruct (String.eqb category "moderate"); [right; now left | right; now right].
Qed.

Lemma narrative_names_most_frequent_witness :
  let a := App.mk_pin (1308 / 100) (8027 / 100) "Assault" "Violent brawl" 9 in
  let r := App.mk_pin (1309 / 100) (8027 / 100) "Robbery" "Bag snatching" 7 in
  exists top,
    In top ["Robbery"; "Assault"; "Robbery"]%string
    /\ App.generate_safety_narrative 55 [r; a; r] "moderate" "Daytime Risk: NORMAL"
       = App.StayAlert 3 top "Daytime Risk: NORMAL".
Proof.
  intros a r.
  destruct (narrative_names_most_frequent 55 [r; a; r] "moderate" "Daytime Risk: NORMAL"
              ltac:(discriminate)) as (top & Hin & _ & H).
  exists top. split; [exact Hin |].
  destruct H as [H | [H | H]]; [exfalso | exact H | exfalso]; cbn in H; discriminate.
Defined.

End NarrativeProperties.

(* ================================================================== *)
(** ** Further properties: sorting *)

Section SortingProperties.

Lemma insert_by_perm {A : Type} (key : A -> R) (x : A) (l : list A) :
  Permutation (insert_by key x l) (x :: l).
Proof.
  induction l as [| y t IH]; simpl; [reflexivity |].
  destruct (Rleb (key x) (key y)); [reflexivity |].
  rewrite IH. apply perm_swap.
Qed.

Lemma sort_by_perm {A : Type} (key : A -> R) (l : list A) :
  Permutation (sort_by key l) l.
Proof.
  induction l as [| x l IH]; simpl; [reflexivity |].
  rewrite insert_by_perm. now constructor.
Qed.

Lemma sort_by_strongly_sorted {A : Type} (key : A -> R) (l : list A) :
  StronglySorted (fun a b => key a <= key b) (sort_by key l).
Proof.
  apply Sorted_StronglySorted; [| apply sort_by_sorted].
  intros a b c Hab Hbc. lra.
Qed.

(** In a sorted list, what [firstn] keeps comes before what it drops. *)
Lemma firstn_skipn_sorted {A : Type} (le : A -> A -> Prop) (n : nat) (l : list A) :
  StronglySorted le l ->
  forall a b, In a (firstn n l) -> In b (skipn n l) -> le a b.
Proof.
  revert l. induction n as [| n IH]; intros l Hs a b Ha Hb; simpl in *; [contradiction |].
  destruct l as [| x l]; [contradiction |].
  inversion Hs as [| ? ? Hs' Hall]; subst. simpl in Ha, Hb.
  destruct Ha as [<- | Ha].
  - rewrite Forall_forall in Hall. apply Hall.
    rewrite <- (firstn_skipn n l). apply in_or_app. now right.
  - now apply (IH l).
Qed.

Lemma insert_lt_perm {A : Type} (lt : A -> A -> bool) (x : A) (l : list A) :
  Permutation (App.insert_lt lt x l) (x :: l).
Proof.
  induction l as [| y t IH]; simpl; [reflexivity |].
  destruct (lt y x); [| reflexivity].
  rewrite IH. apply perm_swap.
Qed.

Lemma sort_lt_perm {A : Type} (lt : A -> A -> bool) (l : list A) :
  Permutation (App.sort_lt lt l) l.
Proof.
  induction l as [| x l IH]; simpl; [reflexivity |].
  rewrite insert_lt_perm. now constructor.
Qed.

(** Sorting along an asymmetric order leaves no element strictly less
    than the one before it. *)
Lemma sort_lt_sorted {A : Type} (lt : A -> A -> bool) (l : list A) :
  (forall a b, lt a b = true -> lt b a = false) ->
  Sorted (fun a b => lt b a = false) (App.sort_lt lt l).
Proof.
  intros Hasym.
  assert (Hins : forall x l, Sorted (fun a b => lt b a = false) l ->
                             Sorted (fun a b => lt b a = false) (App.insert_lt lt x l)).
  { intros x l0. induction l0 as [| y t IH]; intros Hs; simpl.
    - repeat constructor.
    - destruct (lt y x) eqn:E.
      + inversion Hs as [| ? ? Ht Hhd]; subst.
        constructor; [now apply IH |].
        destruct t as [| z t]; simpl.
        * constructor. now apply Hasym.
        * destruct (lt z x); constructor; [now inversion Hhd | now apply Hasym].
      + constructor; [exact Hs | now constructor]. }
  induction l as [| x l IH]; simpl; [constructor | now apply Hins].
Qed.

End SortingProperties.

(* ================================================================== *)
(** ** Further properties: heat map, safe havens, statistics, cache *)

Section TableProperties.

(** Comparisons of integers, from their boolean tests. *)
Ltac zbool :=
  repeat match goal with
    | H : (_ <=? _)%Z = true |- _ => apply Z.leb_le in H
    | H : (_ <=? _)%Z = false |- _ => apply Z.leb_gt in H
    | H : (_ <? _)%Z = true |- _ => apply Z.ltb_lt in H
    | H : (_ <? _)%Z = false |- _ => apply Z.ltb_ge in H
    | H : (_ =? _)%Z = true |- _ => apply Z.eqb_eq in H
    | H : (_ =? _)%Z = false |- _ => apply Z.eqb_neq in H
    end.

(** The heat map has one point per row of positive severity, at the
    row's position, with an intensity above 0 and at most 1. *)
Theorem heatmap_intensity_range :
  forall crime_df : App.DataFrame,
    List.length (App.get_heatmap_data crime_df)
      = App.count_rows (fun c => (0 <? App.severity c)%Z) crime_df
    /\ forall p, In p (App.get_heatmap_data crime_df) ->
         0 < App.intensity p <= 1
         /\ exists c, In c crime_df /\ (0 < App.severity c)%Z
                      /\ App.heat_lat p = App.latitude c
                      /\ App.heat_lng p = App.longitude c
                      /\ (App.intensity p = 1 <-> (10 <= App.severity c)%Z).
Proof.
  intros df. split.
  - unfold App.get_heatmap_data, App.count_rows.
    induction df as [| c df IH]; simpl; [reflexivity |].
    destruct (0 <? App.severity c)%Z; simpl; now rewrite IH.
  - intros p Hp. unfold App.get_heatmap_data in Hp.
    apply in_flat_map in Hp as (c & Hc & Hin).
    destruct (0 <? App.severity c)%Z eqn:E; [| contradiction].
    destruct Hin as [<- | []]. apply Z.ltb_lt in E. cbn.
    assert (Hs : 0 < IZR (App.severity c)) by now apply IZR_lt.
    split.
    + unfold Rmin. destruct (Rle_dec (IZR (App.severity c) / 10) 1); lra.
    + exists c. repeat split; auto.
      * unfold Rmin. destruct (Rle_dec (IZR (App.severity c) / 10) 1) as [Hle | Hgt];
          intros H.
        -- apply le_IZR. lra.
        -- apply le_IZR. lra.
      * intros H. apply IZR_le in H. unfold Rmin.
        destruct (Rle_dec (IZR (App.severity c) / 10) 1); lra.
Qed.

(** The safe-haven lookup returns [limit] havens, or all of them when
    there are fewer, nearest first, each made from a row of negative
    severity; there is no radius: every haven left out is at least as
    far as every one returned. *)
Theorem nearest_safe_havens_spec :
  forall (lat lng : R) (crime_df : App.DataFrame) (limit : nat),
    let found := App.find_nearest_safe_havens lat lng crime_df limit in
    let assets := filter (fun c => (App.severity c <? 0)%Z) crime_df in
    List.length found = Nat.min limit (List.length assets)
    /\ Sorted (fun a b => App.haven_distance a <= App.haven_distance b) found
    /\ (forall h, In h found ->
          exists c, In c crime_df /\ (App.severity c < 0)%Z
                    /\ App.haven_lat h = App.latitude c
                    /\ App.haven_lng h = App.longitude c
                    /\ App.haven_distance h
                       = py_round (App.haversine lat lng (App.latitude c)
                                                 (App.longitude c)) 2)
    /\ exists left_out,
         Permutation (found ++ left_out)
           (map (fun c => App.mk_haven (App.type c) (App.latitude c) (App.longitude c)
                            (py_round (App.haversine lat lng (App.latitude c)
                                                     (App.longitude c)) 2)
                            (App.description c))
                assets)
         /\ forall h h', In h found -> In h' left_out ->
                         App.haven_distance h <= App.haven_distance h'.
Proof.
  intros lat lng df limit found assets. unfold found, App.find_nearest_safe_havens.
  fold assets.
  set (havens := map _ assets).
  set (sorted := sort_by App.haven_distance havens).
  assert (Hperm : Permutation sorted havens) by apply sort_by_perm.
  split; [| split; [| split]].
  - rewrite length_firstn. unfold sorted. rewrite length_sort_by.
    unfold havens. now rewrite length_map.
  - apply firstn_sorted, sort_by_sorted.
  - intros h Hh.
    assert (Hin : In h havens).
    { apply (Permutation_in _ Hperm).
      rewrite <- (firstn_skipn limit sorted). apply in_or_app. now left. }
    apply in_map_iff in Hin as (c & <- & Hc).
    apply filter_In in Hc as [Hc Hneg]. apply Z.ltb_lt in Hneg.
    exists c. cbn. auto.
  - exists (skipn limit sorted). split.
    + now rewrite firstn_skipn.
    + apply (firstn_skipn_sorted (fun a b => App.haven_distance a <= App.haven_distance b)).
      apply sort_by_strongly_sorted.
Qed.

(** The statistics count disjoint kinds of rows: danger rows, of which the
    high-severity rows are a part, and safety rows; together with the rows
    of severity 0 they make up the table. *)
Theorem stats_partition :
  forall (df : App.DataFrame) (hour : Z),
    let st := App.get_stats df hour in
    (App.high_severity st <= App.total_incidents st)%nat
    /\ (App.total_incidents st + App.safe_zones st
        + App.count_rows (fun c => (App.severity c =? 0)%Z) df
        = List.length df)%nat
    /\ App.time_context st = snd (App.get_time_risk_multiplier hour).
Proof.
  intros df hour.
  assert (H1 : (App.count_rows (fun c => (7 <=? App.severity c)%Z) df
                <= App.count_rows (fun c => (0 <? App.severity c)%Z) df)%nat).
  { unfold App.count_rows. induction df as [| c df IH]; cbn [filter]; [lia |].
    destruct (7 <=? App.severity c)%Z eqn:E7; destruct (0 <? App.severity c)%Z eqn:E0;
      cbn [List.length]; zbool; lia. }
  assert (H2 : (App.count_rows (fun c => (0 <? App.severity c)%Z) df
                + App.count_rows (fun c => (App.severity c <? 0)%Z) df
                + App.count_rows (fun c => (App.severity c =? 0)%Z) df
                = List.length df)%nat).
  { clear H1. unfold App.count_rows.
    induction df as [| c df IH]; cbn [filter]; [reflexivity |].
    destruct (0 <? App.severity c)%Z eqn:E0; destruct (App.severity c <? 0)%Z eqn:E1;
      destruct (App.severity c =? 0)%Z eqn:E2; cbn [List.length]; zbool; lia. }
  intros st. unfold st, App.get_stats. cbn [App.high_severity App.total_incidents App.safe_zones
                                 App.time_context].
  auto.
Qed.

(** The table is read once: whatever the first read gave, readable or
    not, every later call returns that table and never reads again. *)
Theorem crime_df_read_once :
  forall first_read later_read : option App.DataFrame,
    let (df, cache) := App.get_crime_df None first_read in
    cache = Some df
    /\ App.get_crime_df cache later_read = (df, cache)
    /\ (forall t, first_read = Some t -> df = t)
    /\ (first_read = None -> df = []).
Proof.
  intros [t |] later; cbn; repeat split; auto; try discriminate.
  intros t0 H. now injection H.
Qed.

End TableProperties.

(* ================================================================== *)
(** ** Further properties: point scans and ranked routes *)

Section ScanProperties.

Import RadarSpec.

Lemma haversine_nonneg (lat1 lon1 lat2 lon2 : R) :
  0 <= App.haversine lat1 lon1 lat2 lon2.
Proof.
  unfold App.haversine.
  match goal with
  | |- _ <= _ * _ * atan2 (sqrt ?a) (sqrt ?b) =>
      pose proof (atan2_quadrant (sqrt a) (sqrt b) (sqrt_pos a) (sqrt_pos b)) as H
  end.
  lra.
Qed.

(** A distance below [km] kilometres is reported as at most [1000 * km]
    metres, and never as a negative number. *)
Lemma reported_metres (d : R) (km : Z) :
  0 <= d < IZR km -> 0 <= py_round (d * 1000) 0 <= IZR (1000 * km).
Proof.
  intros [H0 H1]. split.
  - apply Rle_trans with (IZR 0 / 10 ^ 0); [simpl; lra |].
    apply py_round_ge. simpl. lra.
  - apply Rle_trans with (IZR (1000 * km) / 10 ^ 0); [| simpl; lra].
    apply py_round_le. rewrite mult_IZR. simpl. lra.
Qed.

Lemma Sorted_weaken {A : Type} (P Q : A -> A -> Prop) (l : list A) :
  (forall a b, P a b -> Q a b) -> Sorted P l -> Sorted Q l.
Proof.
  intros H. induction 1 as [| a l Hs IH Hhd]; constructor; auto.
  destruct Hhd; constructor; auto.
Qed.

Lemma sos_key_lt_asym (a b : App.danger) :
  App.sos_key_lt a b = true -> App.sos_key_lt b a = false.
Proof.
  unfold App.sos_key_lt. intros H.
  apply orb_true_iff in H as [H | H].
  - apply Z.ltb_lt in H. apply orb_false_iff. split.
    + apply Z.ltb_ge. lia.
    + apply andb_false_iff. left. apply Z.eqb_neq. lia.
  - apply andb_true_iff in H as [He Hd]. apply Z.eqb_eq in He. apply Rltb_true in Hd.
    apply orb_false_iff. split.
    + apply Z.ltb_ge. lia.
    + apply andb_false_iff. right. apply Rltb_false. lra.
Qed.

(** The alert context lists at most five incidents, each of severity 7
    or more and reported within 500 metres, the most severe first and the
    nearer first among equals, with at most two safe havens, found without
    any radius. *)
Theorem sos_context_spec :
  forall (lat lng : R) (crime_df : App.DataFrame) (clock_reading : datetime),
    let ctx := App.get_sos_context lat lng crime_df clock_reading in
    (List.length (App.nearby_dangers ctx) <= 5)%nat
    /\ (forall d, In d (App.nearby_dangers ctx) ->
          (7 <= App.danger_severity d)%Z /\ 0 <= App.danger_distance d <= 500)
    /\ Sorted (fun a b =>
                 (App.danger_severity b <= App.danger_severity a)%Z
                 /\ (App.danger_severity a = App.danger_severity b ->
                     App.danger_distance a <= App.danger_distance b))
              (App.nearby_dangers ctx)
    /\ (List.length (App.sos_safe_havens ctx) <= 2)%nat
    /\ App.sos_safe_havens ctx = App.find_nearest_safe_havens lat lng crime_df 2
    /\ App.user_location ctx = (lat, lng)
    /\ App.sos_timestamp ctx = clock_reading.
Proof.
  intros lat lng df t ctx. unfold ctx, App.get_sos_context.
  cbn [App.nearby_dangers App.sos_safe_havens App.user_location App.sos_timestamp].
  set (nearby := flat_map _ _).
  repeat split.
  - rewrite length_firstn. lia.
  - assert (Hin : In d nearby).
    { apply (Permutation_in _ (sort_lt_perm App.sos_key_lt nearby)).
      rewrite <- (firstn_skipn 5 (App.sort_lt App.sos_key_lt nearby)).
      apply in_or_app. now left. }
    apply in_flat_map in Hin as (c & Hc & Hd).
    apply filter_In in Hc as [_ Hsev].
    destruct (Rltb _ (5 / 10)); [| contradiction].
    destruct Hd as [<- | []]. cbn. now apply Z.leb_le.
  - assert (Hin : In d nearby).
    { apply (Permutation_in _ (sort_lt_perm App.sos_key_lt nearby)).
      rewrite <- (firstn_skipn 5 (App.sort_lt App.sos_key_lt nearby)).
      apply in_or_app. now left. }
    apply in_flat_map in Hin as (c & Hc & Hd).
    destruct (Rltb _ (5 / 10)) eqn:E; [| contradiction].
    destruct Hd as [<- | []]. cbn. apply Rltb_true in E.
    pose proof (haversine_nonneg lat lng (App.latitude c) (App.longitude c)).
    apply Rle_trans with (IZR 0 / 10 ^ 0); [simpl; lra |].
    apply py_round_ge. simpl. lra.
  - assert (Hin : In d nearby).
    { apply (Permutation_in _ (sort_lt_perm App.sos_key_lt nearby)).
      rewrite <- (firstn_skipn 5 (App.sort_lt App.sos_key_lt nearby)).
      apply in_or_app. now left. }
    apply in_flat_map in Hin as (c & Hc & Hd).
    destruct (Rltb _ (5 / 10)) eqn:E; [| contradiction].
    destruct Hd as [<- | []]. cbn. apply Rltb_true in E.
    apply Rle_trans with (IZR 500 / 10 ^ 0); [| simpl; lra].
    apply py_round_le. simpl. lra.
  - apply firstn_sorted.
    apply (Sorted_weaken (fun a b => App.sos_key_lt b a = false)).
    + intros a b H. unfold App.sos_key_lt in H.
      apply orb_false_iff in H as [H1 H2]. apply Z.ltb_ge in H1.
      split; [lia |]. intros Heq.
      apply andb_false_iff in H2 as [H2 | H2].
      * apply Z.eqb_neq in H2. lia.
      * now apply Rltb_false in H2.
    + apply sort_lt_sorted. exact sos_key_lt_asym.
  - unfold App.find_nearest_safe_havens. rewrite length_firstn. lia.
Qed.

Lemma radar_accumulator_nonneg (lat lng : R) (df : App.DataFrame) :
  (0 <= accumulator lat lng df)%Z.
Proof.
  unfold accumulator. induction df as [| c df IH]; cbn [filter]; [simpl; lia |].
  destruct (qualifies lat lng c) eqn:E; [| exact IH].
  unfold qualifies in E. apply andb_true_iff in E as [_ E]. apply Z.ltb_lt in E.
  cbn [map fold_right]. lia.
Qed.

(** The radar scan scores [clamp(100 - 1.5 * accumulator, 0, 100)] over
    the positive severities within 1 km, so a safety asset nearby never
    raises it; the incidents it lists are at most five, of positive
    severity, reported within 1000 metres, nearest first, and the count
    returned is the length of that list. *)
Theorem radar_scan_spec :
  forall (lat lng : R) (df : App.DataFrame),
    let r := App.radar_scan lat lng df in
    App.safety_score r = clamp (100 - 15 / 10 * IZR (accumulator lat lng df)) 0 100
    /\ (0 <= accumulator lat lng df)%Z
    /\ 0 <= App.safety_score r <= 100
    /\ App.nearby_crimes r = List.length (App.recent_incidents r)
    /\ App.nearby_crimes r = Nat.min 5 (List.length (filter (qualifies lat lng) df))
    /\ Sorted (fun a b => App.rc_distance a <= App.rc_distance b) (App.recent_incidents r)
    /\ (forall c, In c (App.recent_incidents r) ->
          (0 < App.rc_severity c)%Z /\ 0 <= App.rc_distance c <= 1000)
    /\ App.safe_havens r = App.find_nearest_safe_havens lat lng df 2.
Proof.
  intros lat lng df r.
  assert (Hscore := radar_score lat lng df). fold r in Hscore.
  assert (Hacc := radar_accumulator_nonneg lat lng df).
  split; [exact Hscore |]. split; [exact Hacc |].
  split; [rewrite Hscore; apply clamp_range; lra |].
  split.
  { unfold r, App.radar_scan. destruct (App.radar_loop lat lng df). reflexivity. }
  split; [apply radar_count_capped |].
  split; [apply radar_incidents_sorted |].
  split.
  - intros c Hc. unfold r, App.radar_scan, App.radar_loop in Hc.
    rewrite radar_loop_fold in Hc. cbn [App.recent_incidents app] in Hc.
    match type of Hc with
    | In c (firstn 5 (sort_by _ ?l)) =>
        assert (Hin : In c l)
          by (apply (Permutation_in _ (sort_by_perm App.rc_distance l));
              rewrite <- (firstn_skipn 5 (sort_by App.rc_distance l));
              apply in_or_app; now left)
    end.
    apply in_map_iff in Hin as (row & <- & Hrow).
    apply filter_In in Hrow as [_ Hq]. unfold qualifies in Hq.
    apply andb_true_iff in Hq as [Hd Hs]. apply Z.ltb_lt in Hs. apply Rltb_true in Hd.
    cbn. split; [exact Hs |].
    pose proof (haversine_nonneg lat lng (App.latitude row) (App.longitude row)) as H0.
    apply (reported_metres _ 1). lra.
  - unfold r, App.radar_scan. destruct (App.radar_loop lat lng df). reflexivity.
Qed.

(** The three point endpoints take a coordinate that is missing or equal
    to 0 as absent: a point on the equator or on the prime meridian is
    refused, every other point is served. *)
Theorem zero_coordinate_refused :
  forall (lat lng : option R) (df : App.DataFrame) (clock_reading : datetime),
    let refused := lat = None \/ lng = None \/ lat = Some 0 \/ lng = Some 0 in
    (App.get_radar_scan lat lng df = inr "Coordinates required"%string <-> refused)
    /\ (App.find_safe_havens lat lng df = inr "Coordinates required"%string <-> refused)
    /\ (App.send_sos lat lng df clock_reading = inr "Location required"%string <-> refused)
    /\ (forall la ln, lat = Some la -> lng = Some ln -> la <> 0 -> ln <> 0 ->
          App.get_radar_scan lat lng df = inl (App.radar_scan la ln df)
          /\ App.find_safe_havens lat lng df
             = inl (App.find_nearest_safe_havens la ln df 5)
          /\ App.send_sos lat lng df clock_reading
             = inl (App.get_sos_context la ln df clock_reading)).
Proof.
  intros lat lng df t refused.
  assert (Hserved : forall la ln, lat = Some la -> lng = Some ln -> la <> 0 -> ln <> 0 ->
            App.get_radar_scan lat lng df = inl (App.radar_scan la ln df)
            /\ App.find_safe_havens lat lng df
               = inl (App.find_nearest_safe_havens la ln df 5)
            /\ App.send_sos lat lng df t = inl (App.get_sos_context la ln df t)).
  { intros la ln -> -> Hla Hln.
    unfold App.get_radar_scan, App.find_safe_havens, App.send_sos, App.falsy.
    destruct (Req_dec_T la 0); [contradiction |].
    destruct (Req_dec_T ln 0); [contradiction |]. auto. }
  assert (Hrefused : refused ->
            App.get_radar_scan lat lng df = inr "Coordinates required"%string
            /\ App.find_safe_havens lat lng df = inr "Coordinates required"%string
            /\ App.send_sos lat lng df t = inr "Location required"%string).
  { unfold App.get_radar_scan, App.find_safe_havens, App.send_sos, App.falsy.
    intros [-> | [-> | [-> | ->]]].
    - auto.
    - destruct lat; auto.
    - destruct lng; [| auto]. destruct (Req_dec_T 0 0); [auto | contradiction].
    - destruct lat as [la |]; [| auto].
      destruct (Req_dec_T la 0); [auto |].
      destruct (Req_dec_T 0 0); [auto | contradiction]. }
  assert (Hdec : refused \/ exists la ln, lat = Some la /\ lng = Some ln
                                          /\ la <> 0 /\ ln <> 0).
  { unfold refused. destruct lat as [la |]; [| left; auto].
    destruct lng as [ln |]; [| left; auto].
    destruct (Req_dec_T la 0) as [-> | Hla]; [left; auto |].
    destruct (Req_dec_T ln 0) as [-> | Hln]; [left; auto 6 |].
    right. exists la, ln. auto. }
  split; [| split; [| split]].
  - split; [| intros H; apply Hrefused, H].
    intros H. destruct Hdec as [Hr | (la & ln & H1 & H2 & H3 & H4)]; [exact Hr |].
    destruct (Hserved la ln H1 H2 H3 H4) as (E & _ & _). rewrite E in H. discriminate.
  - split; [| intros H; apply Hrefused, H].
    intros H. destruct Hdec as [Hr | (la & ln & H1 & H2 & H3 & H4)]; [exact Hr |].
    destruct (Hserved la ln H1 H2 H3 H4) as (_ & E & _). rewrite E in H. discriminate.
  - split; [| intros H; apply Hrefused, H].
    intros H. destruct Hdec as [Hr | (la & ln & H1 & H2 & H3 & H4)]; [exact Hr |].
    destruct (Hserved la ln H1 H2 H3 H4) as (_ & _ & E). rewrite E in H. discriminate.
  - exact Hserved.
Qed.

Lemma zero_coordinate_refused_witness :
  App.get_radar_scan (Some (1308 / 100)) (Some (8027 / 100)) []
  = inl (App.radar_scan (1308 / 100) (8027 / 100) []).
Proof.
  destruct (zero_coordinate_refused (Some (1308 / 100)) (Some (8027 / 100)) [] 0%Z)
    as (_ & _ & _ & H).
  apply (H (1308 / 100) (8027 / 100)); try reflexivity; lra.
Defined.

(** The routes come back with the highest safety score first: the list
    returned holds the scored routes, each once, in descending order of
    score, so no route scores above the first. *)
Theorem score_routes_ranked :
  forall (routes : list App.route) (df : App.DataFrame) (hour : Z),
    let ranked := App.score_routes routes df hour in
    let multiplier := fst (App.get_time_risk_multiplier hour) in
    let label := snd (App.get_time_risk_multiplier hour) in
    Permutation ranked (map (App.score_route df multiplier label) routes)
    /\ List.length ranked = List.length routes
    /\ Sorted (fun a b => App.sr_safety_score b <= App.sr_safety_score a) ranked
    /\ (forall first rest r, ranked = first :: rest -> In r ranked ->
          App.sr_safety_score r <= App.sr_safety_score first).
Proof.
  intros routes df hour ranked multiplier label.
  unfold ranked, multiplier, label, App.score_routes.
  destruct (App.get_time_risk_multiplier hour) as [m l]. cbn [fst snd].
  set (scored := map (App.score_route df m l) routes).
  pose proof (sort_by_strongly_sorted (fun sr => - App.sr_safety_score sr) scored) as Hss.
  split; [apply sort_by_perm |].
  split; [rewrite length_sort_by; unfold scored; apply length_map |].
  split.
  - apply (Sorted_weaken (fun a b => - App.sr_safety_score a <= - App.sr_safety_score b)).
    + intros a b H. lra.
    + apply sort_by_sorted.
  - intros first rest r Heq Hin. rewrite Heq in Hss, Hin.
    inversion Hss as [| ? ? _ Hall]; subst.
    destruct Hin as [<- | Hin]; [lra |].
    rewrite Forall_forall in Hall. specialize (Hall r Hin). cbn in Hall. lra.
Qed.

Lemma score_routes_ranked_witness :
  let v := (8027 / 100, 1308 / 100) in
  let row := App.mk_crime (1308 / 100) (8027 / 100) "Robbery" "Bag snatching" 7 in
  let routes := [App.mk_route [v] 1200 900; App.mk_route [] 1500 1100] in
  exists first rest,
    App.score_routes routes [row] 12 = first :: rest
    /\ forall r, In r (App.score_routes routes [row] 12) ->
                 App.sr_safety_score r <= App.sr_safety_score first.
Proof.
  intros v row routes.
  destruct (score_routes_ranked routes [row] 12) as (_ & Hlen & _ & Hmax).
  destruct (App.score_routes routes [row] 12) as [| first rest] eqn:E;
    [discriminate Hlen |].
  exists first, rest. split; [reflexivity |].
  intros r Hr. exact (Hmax first rest r eq_refl Hr).
Defined.

End ScanProperties.

(* ================================================================== *)
(** ** Further properties: density, influence and the recompute *)

Section InteractionProperties.

Import RiskSpec.

Lemma calculate_distance_nonneg (lat1 lon1 lat2 lon2 : R) :
  0 <= Sim.calculate_distance lat1 lon1 lat2 lon2.
Proof. rewrite calculate_distance_eq. apply haversine_nonneg. Qed.

(** The loop of the density counts at most the other danger incidents. *)
Lemma hotspot_fold_count (target : Sim.incident) (all : list Sim.incident) :
  forall (n : nat) (clk : Sim.clock),
    let others :=
      filter (fun inc => negb (String.eqb (Sim.id inc) (Sim.id target))
                         && (0 <? Sim.base_severity inc)%Z) all in
    (n <= fst (fold_left (Sim.hotspot_step target) all (n, clk))
       <= n + List.length others)%nat.
Proof.
  induction all as [| inc all IH]; intros n clk; cbn [fold_left filter].
  - simpl. lia.
  - unfold Sim.hotspot_step at 2 4.
    destruct (negb (String.eqb (Sim.id inc) (Sim.id target))
              && (0 <? Sim.base_severity inc)%Z).
    + cbn [List.length]. destruct (Rleb _ (5 / 10)).
      * destruct (Sim.now clk) as [t clk1]. destruct (Rltb _ 24).
        -- specialize (IH (S n) clk1). cbv zeta in IH. lia.
        -- specialize (IH n clk1). cbv zeta in IH. lia.
      * specialize (IH n clk). cbv zeta in IH. lia.
    + apply IH.
Qed.

Lemma hotspot_density_range (target : Sim.incident) (all : list Sim.incident)
    (clk : Sim.clock) :
  1 <= fst (Sim.calculate_hotspot_density target all clk) <= 2.
Proof.
  unfold Sim.calculate_hotspot_density.
  destruct (Sim.base_severity target <? 0)%Z; [simpl; lra |].
  destruct (fold_left (Sim.hotspot_step target) all (O, clk)) as [k clk1]. cbn [fst].
  pose proof (pos_INR k). unfold Rmin.
  destruct (Rle_dec (1 + INR k * (15 / 100)) 2); lra.
Qed.

(** The hotspot density lies between 1 and 2; it is 1 plus 0.15 per
    incident counted, capped at 2, and only other danger incidents are
    counted: an incident with the target's id or without a positive base
    severity never is. *)
Theorem hotspot_density_spec :
  forall (target : Sim.incident) (all : list Sim.incident) (clk : Sim.clock),
    let density := fst (Sim.calculate_hotspot_density target all clk) in
    let others :=
      filter (fun inc => negb (String.eqb (Sim.id inc) (Sim.id target))
                         && (0 <? Sim.base_severity inc)%Z) all in
    1 <= density <= 2
    /\ density <= 1 + 15 / 100 * INR (List.length others)
    /\ (others = [] -> density = 1)
    /\ ((0 <= Sim.base_severity target)%Z ->
        exists k, (k <= List.length others)%nat
                  /\ density = Rmin (1 + INR k * (15 / 100)) 2).
Proof.
  intros target all clk density others.
  pose proof (hotspot_density_range target all clk) as Hr. fold density in Hr.
  pose proof (hotspot_fold_count target all O clk) as Hc. cbv zeta in Hc.
  fold others in Hc.
  assert (Hk : exists k, (k <= List.length others)%nat
                         /\ density <= 1 + INR k * (15 / 100)
                         /\ ((0 <= Sim.base_severity target)%Z ->
                             density = Rmin (1 + INR k * (15 / 100)) 2)).
  { unfold density, Sim.calculate_hotspot_density.
    destruct (Sim.base_severity target <? 0)%Z eqn:E.
    - exists O. split; [lia |]. split; [simpl; lra |].
      intros H. apply Z.ltb_lt in E. lia.
    - destruct (fold_left (Sim.hotspot_step target) all (O, clk)) as [k clk1].
      cbn [fst] in *. exists k. split; [lia |]. split; [apply Rmin_l | reflexivity]. }
  destruct Hk as (k & Hle & Hd & Heq).
  assert (Hlen : INR k <= INR (List.length others)) by now apply le_INR.
  repeat split; try lra.
  - intros He. rewrite He in Hle. simpl in Hle.
    assert (k = O) by lia. subst k. simpl in Hd. lra.
  - intros Hb. exists k. auto.
Qed.

Lemma influence_fold_range (target : Sim.incident) (all : list Sim.incident) :
  forall r : R,
    r <= fold_left (Sim.influence_step target) all r
      <= r + Rsum (map (fun inc => IZR (Z.abs (Sim.base_severity inc)))
                       (filter (fun inc => (Sim.base_severity inc <? 0)%Z) all)).
Proof.
  induction all as [| inc all IH]; intros r; cbn [fold_left filter].
  - simpl. lra.
  - unfold Sim.influence_step at 2 4.
    destruct (Sim.base_severity inc <? 0)%Z.
    + cbn [map Rsum fold_right].
      fold (Rsum (map (fun inc => IZR (Z.abs (Sim.base_severity inc)))
                      (filter (fun inc => (Sim.base_severity inc <? 0)%Z) all))).
      assert (Habs : 0 <= IZR (Z.abs (Sim.base_severity inc)))
        by (apply IZR_le, Z.abs_nonneg).
      destruct (Rleb _ 1) eqn:E.
      * apply Rleb_true in E.
        pose proof (calculate_distance_nonneg (Sim.latitude target) (Sim.longitude target)
                      (Sim.latitude inc) (Sim.longitude inc)) as H0.
        match goal with
        | |- _ <= fold_left _ _ (r + ?a * ?b) <= _ =>
            assert (Hterm : 0 <= a * b <= a) by nra;
            specialize (IH (r + a * b))
        end.
        lra.
      * specialize (IH r). lra.
    + apply IH.
Qed.

(** The safety influence is never negative and never more than the sum
    of the magnitudes of the safety assets in the list; without a safety
    asset it is 0. *)
Theorem safety_influence_range :
  forall (target : Sim.incident) (all : list Sim.incident),
    let assets := filter (fun inc => (Sim.base_severity inc <? 0)%Z) all in
    0 <= Sim.calculate_safety_influence target all
      <= Rsum (map (fun inc => IZR (Z.abs (Sim.base_severity inc))) assets)
    /\ (assets = [] -> Sim.calculate_safety_influence target all = 0).
Proof.
  intros target all assets.
  assert (Hsum : 0 <= Rsum (map (fun inc => IZR (Z.abs (Sim.base_severity inc))) assets)).
  { induction assets as [| a l IH]; simpl; [lra |].
    pose proof (IZR_le _ _ (Z.abs_nonneg (Sim.base_severity a))). lra. }
  assert (Hr : 0 <= Sim.calculate_safety_influence target all
               <= Rsum (map (fun inc => IZR (Z.abs (Sim.base_severity inc))) assets)).
  { unfold Sim.calculate_safety_influence.
    destruct (Sim.base_severity target <? 0)%Z; [lra |].
    pose proof (influence_fold_range target all 0) as H. fold assets in H. lra. }
  split; [exact Hr |].
  intros He. rewrite He in Hr. simpl in Hr. lra.
Qed.

Lemma dynamic_risk_range (inc : Sim.incident) (now : datetime) :
  0 <= dynamic_risk inc now <= 10.
Proof.
  unfold dynamic_risk.
  match goal with
  | |- _ <= py_round (clamp ?x 0 10) 2 <= _ =>
      pose proof (clamp_range x 0 10 ltac:(lra)) as [Hlo Hhi]
  end.
  split.
  - apply Rle_trans with (IZR 0 / 10 ^ 2); [simpl; lra |].
    apply py_round_ge. simpl. lra.
  - apply Rle_trans with (IZR 1000 / 10 ^ 2); [| simpl; lra].
    apply py_round_le. simpl. lra.
Qed.

(** After a recompute every incident carries the recompute time, and every
    danger incident has a score between 0 and 10, a density between 1 and
    2 and an influence that is not negative. *)
Theorem recompute_bounds :
  forall (incidents : list Sim.incident) (now : datetime) (clk : Sim.clock)
         (inc' : Sim.incident),
    In inc' (fst (Sim.update_dynamic_scores incidents now clk)) ->
    Sim.last_updated inc' = now
    /\ ((0 <= Sim.base_severity inc')%Z ->
        0 <= Sim.dynamic_risk_score inc' <= 10
        /\ 1 <= Sim.hotspot_density inc' <= 2
        /\ 0 <= Sim.safety_influence inc').
Proof.
  intros incidents now clk inc' Hin.
  apply update_dynamic_scores_In in Hin as (inc & _ & Hrec).
  pose proof (recomputed_base _ _ _ _ Hrec) as Hb.
  destruct Hrec as (_ & Hupd & _ & Hdanger).
  split; [exact Hupd |]. intros Hpos. rewrite Hb in Hpos.
  destruct (Hdanger Hpos) as ([clk' Hhd] & Hsi & Hscore).
  rewrite Hscore, Hhd, Hsi.
  split; [apply dynamic_risk_range |].
  split; [apply hotspot_density_range |].
  unfold Sim.calculate_safety_influence.
  destruct (Sim.base_severity inc <? 0)%Z; [lra |].
  pose proof (influence_fold_range inc incidents 0). lra.
Qed.

Lemma recompute_bounds_witness :
  let now := 1704110400000000%Z in
  let inc := Sim.mk_incident "1" "Assault" (1308 / 100) (8027 / 100) 8 8
               1704074400000000%Z 1704074400000000%Z (1 / 10) 1 0
               "Historical incident" in
  let clk : Sim.clock := fun _ => now in
  exists inc',
    In inc' (fst (Sim.update_dynamic_scores [inc] now clk))
    /\ 0 <= Sim.dynamic_risk_score inc' <= 10.
Proof.
  intros now inc clk.
  destruct (update_singleton_danger inc now clk ltac:(simpl; lia))
    as (x & Hx & Hb & _).
  assert (Hin : In x (fst (Sim.update_dynamic_scores [inc] now clk)))
    by (rewrite Hx; now left).
  exists x. split; [exact Hin |].
  apply (recompute_bounds [inc] now clk x Hin). rewrite Hb. simpl. lia.
Defined.

(** A recompute keeps the list in length and order and leaves alone, in
    every incident, the id, the category, the position, the base severity,
    the timestamp and the decay rate. *)
Theorem recompute_keeps_inputs :
  forall (incidents : list Sim.incident) (now : datetime) (clk : Sim.clock),
    let updated := fst (Sim.update_dynamic_scores incidents now clk) in
    List.length updated = List.length incidents
    /\ Forall2 same_inputs incidents updated
    /\ Forall2 (fun inc inc' => Sim.description inc' = Sim.description inc)
               incidents updated.
Proof.
  intros incidents now clk updated.
  destruct (update_prefix now incidents clk (List.length incidents) (le_n _))
    as (Hlen & Hsame & _ & _).
  split; [exact Hlen |]. split; [exact Hsame |].
  unfold updated, Sim.update_dynamic_scores.
  assert (Hstep : forall k st,
            Forall2 (fun inc inc' => Sim.description inc' = Sim.description inc)
                    incidents (fst st) ->
            Forall2 (fun inc inc' => Sim.description inc' = Sim.description inc)
                    incidents (fst (Sim.update_step now st k))).
  { intros k [store c] H. cbn [fst] in H. unfold Sim.update_step.
    destruct (nth_error store k) as [x |] eqn:E; [| exact H].
    assert (Hx : exists inc, nth_error incidents k = Some inc
                             /\ Sim.description x = Sim.description inc).
    { clear - H E. revert k E. induction H as [| a b l l' Hab Hl IH]; intros [| k] E;
        simpl in *; try discriminate.
      - injection E as ->. eauto.
      - eauto. }
    destruct Hx as (inc & Hinc & Hd).
    destruct (Sim.base_severity x <? 0)%Z.
    - cbn [fst]. eapply Forall2_list_set; eauto.
    - destruct (Sim.calculate_hotspot_density x store c). cbn [fst].
      rewrite !list_set_twice. eapply Forall2_list_set; eauto. }
  generalize (seq 0 (List.length incidents)) as idxs.
  assert (H0 : Forall2 (fun inc inc' => Sim.description inc' = Sim.description inc)
                       incidents (fst (incidents, clk))).
  { cbn [fst]. clear. induction incidents; constructor; auto. }
  revert H0. generalize (incidents, clk) as st.
  intros st H0 idxs. revert st H0.
  induction idxs as [| k idxs IH]; intros st H0; cbn [fold_left]; auto.
Qed.

End InteractionProperties.

(* ================================================================== *)
(** ** Further properties: loading and generating incidents *)

Section LifecycleProperties.

Import RiskSpec.

(** Loading gives one incident per row, in the order of the rows, at the
    row's position, with the score set to the base severity, density 1 and
    influence 0; the severity and the timestamp of the row are taken when
    present; a category outside the table gets the decay rate 0.1 and,
    without a severity in the row, the base severity 5.  A missing file
    gives the empty list. *)
Theorem load_base_data_spec :
  forall (file : option (list (Sim.csv_row * Sim.load_draws))) (clk : Sim.clock),
    let loaded := fst (Sim.load_base_data file clk) in
    (file = None -> loaded = [])
    /\ forall rows, file = Some rows ->
         Forall2 (fun (rd : Sim.csv_row * Sim.load_draws) inc =>
                    let row := fst rd in
                    Sim.latitude inc = Sim.row_latitude row
                    /\ Sim.longitude inc = Sim.row_longitude row
                    /\ Sim.type inc = Sim.option_default (Sim.row_type row) "Unknown"%string
                    /\ Sim.dynamic_risk_score inc = IZR (Sim.base_severity inc)
                    /\ Sim.hotspot_density inc = 1
                    /\ Sim.safety_influence inc = 0
                    /\ (forall s, Sim.row_severity row = Some s -> Sim.base_severity inc = s)
                    /\ (forall t, Sim.row_timestamp row = Some t -> Sim.timestamp inc = t)
                    /\ (Sim.dict_get Sim.CRIME_TYPES (Sim.type inc) = None ->
                        Sim.time_decay_factor inc = 1 / 10
                        /\ (Sim.row_severity row = None -> Sim.base_severity inc = 5%Z)))
                 rows loaded.
Proof.
  intros file clk loaded. unfold loaded. clear loaded. split.
  - intros ->. reflexivity.
  - intros rows ->. cbn [Sim.load_base_data]. revert clk.
    induction rows as [| [row dr] rows IH]; intros clk; cbn [Sim.load_rows].
    + constructor.
    + destruct (Sim.load_row row dr clk) as [inc clk1] eqn:E.
      specialize (IH clk1). destruct (Sim.load_rows rows clk1) as [incs clk2].
      cbn [fst] in *. constructor; [| exact IH].
      unfold Sim.load_row in E.
      destruct (Sim.row_timestamp row) as [t |] eqn:Et;
        [| destruct (Sim.now clk) as [n c]];
        destruct (Sim.now _) as [u c2]; injection E as <- _;
        cbn [fst Sim.latitude Sim.longitude Sim.type Sim.dynamic_risk_score
             Sim.hotspot_density Sim.safety_influence Sim.base_severity
             Sim.timestamp Sim.time_decay_factor];
        repeat split; auto.
      all: try (intros s Hs; rewrite Hs; reflexivity).
      all: try (intros; congruence).
      all: try (intros Hnone; rewrite Hnone; reflexivity).
      all: cbn in *; try (rewrite H; reflexivity).
      all: intros Hs; rewrite Hs, H; reflexivity.
Qed.

Lemma load_base_data_spec_witness :
  let row := Sim.mk_row (Some "9"%string) (Some "Vehicle Theft"%string)
               (13069400 / 1000000) (80194800 / 1000000) None
               (Some 1704074400000000%Z) None in
  let clk : Sim.clock := fun _ => 1704110400000000%Z in
  exists inc,
    fst (Sim.load_base_data (Some [(row, Sim.mk_load_draws 3 4242)]) clk) = [inc]
    /\ Sim.base_severity inc = 5%Z /\ Sim.time_decay_factor inc = 1 / 10.
Proof.
  intros row clk.
  destruct (load_base_data_spec (Some [(row, Sim.mk_load_draws 3 4242)]) clk) as [_ H].
  specialize (H _ eq_refl).
  destruct (fst (Sim.load_base_data (Some [(row, Sim.mk_load_draws 3 4242)]) clk))
    as [| inc l]; [inversion H |].
  apply Forall2_cons_iff in H as [Hrd Hrest]. inversion Hrest; subst.
  exists inc. split; [reflexivity |].
  destruct Hrd as (_ & _ & Hty & _ & _ & _ & _ & _ & Hnone).
  cbn in Hty. rewrite Hty in Hnone.
  destruct (Hnone eq_refl) as [Hd Hs]. split; [apply Hs; reflexivity | exact Hd].
Defined.

(** A row whose timestamp is missing or unreadable is dated a whole number
    of days, from 1 to 30, before the clock reading taken for it, and is
    marked as updated at the next reading; a row with a timestamp takes one
    reading only. *)
Theorem load_row_fallback_timestamp :
  forall (row : Sim.csv_row) (dr : Sim.load_draws) (clk : Sim.clock),
    let inc := fst (Sim.load_row row dr clk) in
    let day := 86400000000%Z in
    (Sim.row_timestamp row = None -> (1 <= Sim.days_back dr <= 30)%Z ->
       Sim.timestamp inc = (clk O - Sim.days_back dr * day)%Z
       /\ (clk O - 30 * day <= Sim.timestamp inc <= clk O - day)%Z
       /\ Sim.last_updated inc = clk 1%nat
       /\ forall n, snd (Sim.load_row row dr clk) n = clk (S (S n)))
    /\ (forall t, Sim.row_timestamp row = Some t ->
          Sim.timestamp inc = t
          /\ Sim.last_updated inc = clk O
          /\ forall n, snd (Sim.load_row row dr clk) n = clk (S n)).
Proof.
  intros row dr clk inc day. unfold inc, Sim.load_row, Sim.now, Sim.days, day.
  split.
  - intros -> Hd. cbn. repeat split; lia.
  - intros t ->. cbn. repeat split.
Qed.

Lemma load_row_fallback_timestamp_witness :
  let row := Sim.mk_row (Some "9"%string) (Some "Robbery"%string)
               (13069400 / 1000000) (80194800 / 1000000) (Some 7%Z) None None in
  let clk : Sim.clock := fun n => (1704110400000000 + Z.of_nat n)%Z in
  Sim.timestamp (fst (Sim.load_row row (Sim.mk_load_draws 3 4242) clk))
  = (1704110400000000 - 3 * 86400000000)%Z.
Proof.
  intros row clk.
  destruct (load_row_fallback_timestamp row (Sim.mk_load_draws 3 4242) clk) as [H _].
  destruct (H eq_refl ltac:(cbn; lia)) as [Ht _]. exact Ht.
Defined.

Lemma danger_types_eq :
  Sim.danger_types
  = ["Assault"; "Robbery"; "Harassment"; "Poor Lighting"; "Isolated Area";
     "Drug Activity"]%string.
Proof. reflexivity. Qed.

Lemma generate_new_incident_fields :
  forall (existing : list Sim.incident) (dr : Sim.gen_draws) (clk : Sim.clock),
    let new := fst (Sim.generate_new_incident existing dr clk) in
    In (Sim.type new) Sim.danger_types
    /\ Sim.dict_get Sim.CRIME_TYPES (Sim.type new)
       = Some (Sim.mk_config (Sim.base_severity new) (Sim.time_decay_factor new))
    /\ (4 <= Sim.base_severity new <= 8)%Z
    /\ Sim.dynamic_risk_score new = IZR (Sim.base_severity new)
    /\ Sim.hotspot_density new = 1
    /\ Sim.safety_influence new = 0
    /\ Sim.timestamp new = clk O
    /\ Sim.last_updated new = clk O
    /\ forall n, snd (Sim.generate_new_incident existing dr clk) n = clk (S n).
Proof.
  intros existing dr clk new. unfold new, Sim.generate_new_incident, Sim.now.
  destruct (snd (Sim.new_position existing dr)) as [la lo]. cbn [fst snd].
  cbn [Sim.type Sim.base_severity Sim.time_decay_factor Sim.dynamic_risk_score
       Sim.hotspot_density Sim.safety_influence Sim.timestamp Sim.last_updated].
  assert (Hin : In (Sim.choice Sim.danger_types (Sim.ctype_index dr) "Assault"%string)
                   Sim.danger_types)
    by (apply choice_In; discriminate).
  split; [exact Hin |].
  rewrite danger_types_eq in Hin at 2.
  set (ctype := Sim.choice Sim.danger_types (Sim.ctype_index dr) "Assault"%string) in *.
  clearbody ctype.
  repeat destruct Hin as [<- | Hin]; try contradiction;
    cbn; repeat split; try lia; try reflexivity.
Qed.

(** A generated incident is always a danger incident: its category is
    one of the six danger categories, its base severity and decay rate are
    the ones the table gives that category, its score starts at the base
    severity with density 1 and influence 0, and it is dated and marked as
    updated at the one clock reading the call takes. *)
Theorem generate_new_incident_spec :
  forall (existing : list Sim.incident) (dr : Sim.gen_draws) (clk : Sim.clock),
    let new := fst (Sim.generate_new_incident existing dr clk) in
    In (Sim.type new) Sim.danger_types
    /\ Sim.dict_get Sim.CRIME_TYPES (Sim.type new)
       = Some (Sim.mk_config (Sim.base_severity new) (Sim.time_decay_factor new))
    /\ (4 <= Sim.base_severity new <= 8)%Z
    /\ Sim.dynamic_risk_score new = IZR (Sim.base_severity new)
    /\ Sim.hotspot_density new = 1
    /\ Sim.safety_influence new = 0
    /\ Sim.timestamp new = clk O
    /\ Sim.last_updated new = clk O
    /\ forall n, snd (Sim.generate_new_incident existing dr clk) n = clk (S n).
Proof. exact generate_new_incident_fields. Qed.

(** Outside the near-repeat branch, that is when the coin shows 0.7 or
    more or the list holds no danger incident, the new incident lies in the
    box from 12.8 to 13.2 degrees of latitude and from 80.1 to 80.3 degrees
    of longitude, the uniform draws being taken from it. *)
Theorem generate_in_bounding_box :
  forall (existing : list Sim.incident) (dr : Sim.gen_draws) (clk : Sim.clock),
    7 / 10 <= Sim.coin dr
    \/ filter (fun i => (0 <? Sim.base_severity i)%Z) existing = [] ->
    128 / 10 <= Sim.lat_uniform dr <= 132 / 10 ->
    801 / 10 <= Sim.lon_uniform dr <= 803 / 10 ->
    let new := fst (Sim.generate_new_incident existing dr clk) in
    fst (Sim.new_position existing dr) = None
    /\ 128 / 10 <= Sim.latitude new <= 132 / 10
    /\ 801 / 10 <= Sim.longitude new <= 803 / 10.
Proof.
  intros existing dr clk Hbranch Hlat Hlon new.
  assert (Hpos : Sim.new_position existing dr
                 = (None, (Sim.lat_uniform dr, Sim.lon_uniform dr))).
  { unfold Sim.new_position. destruct Hbranch as [Hc | Hf].
    - apply Rltb_false in Hc. now rewrite Hc.
    - rewrite Hf. now destruct (_ && _). }
  destruct (generate_new_incident_position existing dr clk) as [Hla Hlo].
  fold new in Hla, Hlo. rewrite Hpos in Hla, Hlo. cbn [fst snd] in Hla, Hlo.
  split; [now rewrite Hpos |].
  rewrite Hla, Hlo. repeat split.
  - apply Rle_trans with (IZR 128000 / 10 ^ 4); [simpl; lra |].
    apply py_round_ge. simpl. lra.
  - apply Rle_trans with (IZR 132000 / 10 ^ 4); [| simpl; lra].
    apply py_round_le. simpl. lra.
  - apply Rle_trans with (IZR 801000 / 10 ^ 4); [simpl; lra |].
    apply py_round_ge. simpl. lra.
  - apply Rle_trans with (IZR 803000 / 10 ^ 4); [| simpl; lra].
    apply py_round_le. simpl. lra.
Qed.

Lemma generate_in_bounding_box_witness :
  let dr := Sim.mk_gen_draws 2 (9 / 10) 0 0 0 (13 / 1) (802 / 10) 42 1704110400 in
  let clk : Sim.clock := fun _ => 1704110400000000%Z in
  128 / 10 <= Sim.latitude (fst (Sim.generate_new_incident [] dr clk)) <= 132 / 10.
Proof.
  intros dr clk.
  apply (generate_in_bounding_box [] dr clk); cbv [dr Sim.coin Sim.lat_uniform Sim.lon_uniform];
    [left |..]; lra.
Defined.

End LifecycleProperties.

(* ================================================================== *)
(** ** Further properties: the simulation cycle *)

Section CycleProperties.

Import RiskSpec.

(** The injection loop appends one generated incident per draw and takes
    one clock reading for each. *)
Lemma inject_appends (new : list Sim.gen_draws) :
  forall (incidents : list Sim.incident) (clk : Sim.clock),
  exists added,
    fst (Sim.inject incidents new clk) = (incidents ++ added)%list
    /\ List.length added = List.length new
    /\ Forall (fun inc => (0 < Sim.base_severity inc)%Z
                          /\ 0 <= Sim.time_decay_factor inc
                          /\ Sim.hotspot_density inc = 1
                          /\ Sim.safety_influence inc = 0
                          /\ exists k, (k < List.length new)%nat
                                       /\ Sim.timestamp inc = clk k) added
    /\ forall n, snd (Sim.inject incidents new clk) n = clk (List.length new + n)%nat.
Proof.
  induction new as [| dr new IH]; intros incidents clk; cbn [Sim.inject].
  - exists []. rewrite app_nil_r. repeat split; auto.
  - pose proof (generate_new_incident_fields incidents dr clk) as Hg. cbv zeta in Hg.
    destruct (Sim.generate_new_incident incidents dr clk) as [inc clk1].
    cbn [fst snd] in Hg.
    destruct Hg as (_ & Hcfg & Hb & _ & Hhd & Hsi & Hts & _ & Hclk).
    destruct (IH (incidents ++ [inc])%list clk1) as (added & Heq & Hlen & Hall & Hc).
    exists (inc :: added). split; [| split; [| split]].
    + rewrite Heq, <- app_assoc. reflexivity.
    + simpl. now rewrite Hlen.
    + constructor.
      * split; [lia |]. split.
        -- assert (Hd : Sim.time_decay_factor inc = 1 / 10
                        \/ Sim.time_decay_factor inc = 15 / 100
                        \/ Sim.time_decay_factor inc = 2 / 10
                        \/ Sim.time_decay_factor inc = 5 / 100).
           { unfold Sim.CRIME_TYPES in Hcfg. cbn [Sim.dict_get] in Hcfg.
             repeat match type of Hcfg with
                    | (if ?b then _ else _) = _ =>
                        destruct b;
                        [inversion Hcfg as [[Hbase Hdecay]];
                         solve [auto 6 | exfalso; lia] |]
                    end.
             discriminate. }
           destruct Hd as [-> | [-> | [-> | ->]]]; lra.
        -- split; [exact Hhd |]. split; [exact Hsi |].
           exists O. split; [simpl; lia | exact Hts].
      * eapply Forall_impl; [| exact Hall].
        intros x (H1 & H2 & H3 & H4 & k & Hk & Hx).
        repeat split; auto. exists (S k). split; [simpl; lia |].
        rewrite Hx. apply Hclk.
    + intros n. rewrite Hc, Hclk. reflexivity.
Qed.





Lemma Forall2_same_inputs_filter (l l' : list Sim.incident) :
  Forall2 same_inputs l l' ->
  Forall2 same_inputs
    (filter (fun inc => (Sim.base_severity inc <? 0)%Z) l)
    (filter (fun inc => (Sim.base_severity inc <? 0)%Z) l').
Proof.
  induction 1 as [| a b l l' Hab Hl IH]; cbn [filter]; [constructor |].
  assert (Hb : Sim.base_severity a = Sim.base_severity b) by apply Hab.
  rewrite Hb. destruct (Sim.base_severity b <? 0)%Z; [now constructor | exact IH].
Qed.

Lemma prune_keeps_assets (incidents : list Sim.incident) (now : datetime) :
  filter (fun inc => (Sim.base_severity inc <? 0)%Z) (Sim.prune incidents now)
  = filter (fun inc => (Sim.base_severity inc <? 0)%Z) incidents.
Proof.
  unfold Sim.prune. induction incidents as [| a l IH]; cbn [filter]; [reflexivity |].
  destruct (Sim.base_severity a <? 0)%Z eqn:E.
  - rewrite orb_true_r. cbn [orb filter]. rewrite E. now rewrite IH.
  - destruct (_ || _ || _); cbn [filter]; [rewrite E |]; exact IH.
Qed.

(** A cycle neither loses nor gains a safety asset: the safety assets come
    out of it the same, in the same order, with their inputs untouched and
    their score equal to their base severity. *)
Theorem simulation_cycle_keeps_assets :
  forall (incidents : list Sim.incident) (new : list Sim.gen_draws) (clk : Sim.clock),
    let asset := fun inc => (Sim.base_severity inc <? 0)%Z in
    let after := fst (Sim.simulation_cycle incidents new clk) in
    Forall2 same_inputs (filter asset incidents) (filter asset after)
    /\ Forall (fun inc => Sim.dynamic_risk_score inc = IZR (Sim.base_severity inc))
              (filter asset after).
Proof.
  intros incidents new clk asset after.
  assert (Hin : exists injected,
            after = fst (Sim.update_dynamic_scores injected (clk O)
                           (snd (if (List.length (Sim.prune incidents (clk O))
                                     <? Sim.MAX_ACTIVE_INCIDENTS)%nat
                                 then Sim.inject (Sim.prune incidents (clk O)) new
                                        (fun n => clk (S n))
                                 else (Sim.prune incidents (clk O), fun n => clk (S n)))))
            /\ filter asset injected = filter asset incidents).
  { unfold after, Sim.simulation_cycle, Sim.now.
    destruct (List.length (Sim.prune incidents (clk O)) <? Sim.MAX_ACTIVE_INCIDENTS)%nat.
    - destruct (inject_appends new (Sim.prune incidents (clk O)) (fun n => clk (S n)))
        as (added & Heq & _ & Hall & _).
      destruct (Sim.inject _ new _) as [l clk1]. cbn [fst snd] in *. subst l.
      eexists. split; [reflexivity |].
      rewrite filter_app, prune_keeps_assets.
      assert (Hnone : filter asset added = []).
      { clear - Hall. induction Hall as [| x l Hx _ IH]; cbn [filter]; [reflexivity |].
        destruct Hx as [Hx _]. unfold asset at 1.
        assert (E : (Sim.base_severity x <? 0)%Z = false) by (apply Z.ltb_ge; lia).
        now rewrite E. }
      rewrite Hnone. apply app_nil_r.
    - eexists. split; [reflexivity |]. apply prune_keeps_assets. }
  destruct Hin as (injected & Hafter & Hassets).
  set (clk1 := snd _) in Hafter.
  destruct (update_prefix (clk O) injected clk1 (List.length injected) (le_n _))
    as (_ & Hsame & _ & _).
  fold (Sim.update_dynamic_scores injected (clk O) clk1) in Hsame.
  rewrite <- Hafter in Hsame.
  split.
  - rewrite <- Hassets. now apply Forall2_same_inputs_filter.
  - apply Forall_forall. intros x Hx. apply filter_In in Hx as [Hx Hneg].
    rewrite Hafter in Hx.
    apply update_dynamic_scores_In in Hx as (inc & _ & Hrec).
    pose proof (recomputed_base _ _ _ _ Hrec) as Hb.
    destruct Hrec as (_ & _ & Hsafe & _).
    unfold asset in Hneg. apply Z.ltb_lt in Hneg. rewrite Hb in Hneg.
    destruct (Hsafe Hneg) as (Hs & _). now rewrite Hb.
Qed.

(** The recency factor is positive, is 1 for a decay rate of 0, and with a
    decay rate that is not negative it does not grow as the recompute time
    moves on. *)
Theorem recency_factor_decays :
  forall (inc : Sim.incident) (now later : datetime),
    0 < Sim.recency_factor inc now
    /\ (Sim.time_decay_factor inc = 0 -> Sim.recency_factor inc now = 1)
    /\ (0 <= Sim.time_decay_factor inc -> (now <= later)%Z ->
        Sim.recency_factor inc later <= Sim.recency_factor inc now).
Proof.
  intros inc now later. unfold Sim.recency_factor. split; [apply exp_pos |]. split.
  - intros ->. replace (- 0 * Sim.hours_elapsed inc now) with 0 by ring. apply exp_0.
  - intros Hd Hle.
    assert (Hh : Sim.hours_elapsed inc now <= Sim.hours_elapsed inc later).
    { unfold Sim.hours_elapsed, total_seconds.
      assert (IZR (now - Sim.timestamp inc) <= IZR (later - Sim.timestamp inc))
        by (apply IZR_le; lia).
      lra. }
    set (a := - Sim.time_decay_factor inc * Sim.hours_elapsed inc later).
    set (b := - Sim.time_decay_factor inc * Sim.hours_elapsed inc now).
    assert (Hab : a <= b) by (unfold a, b; nra).
    destruct (Req_dec a b) as [-> | Hne]; [lra |].
    left. apply exp_increasing. lra.
Qed.

Lemma recency_factor_decays_witness :
  let inc := Sim.mk_incident "1" "Assault" (1308 / 100) (8027 / 100) 8 8
               1704074400000000%Z 1704074400000000%Z (1 / 10) 1 0
               "Historical incident" in
  Sim.recency_factor inc 1704114000000000 <= Sim.recency_factor inc 1704110400000000.
Proof.
  intros inc.
  apply (recency_factor_decays inc 1704110400000000 1704114000000000).
  - cbv [inc Sim.time_decay_factor]. lra.
  - lia.
Defined.

(** The time weight is 1, 1.1 or 1.3, so never lowers a score; only the
    four night categories can get 1.3 and only harassment 1.1, every other
    category, the safety categories among them, always gets 1. *)
Theorem get_time_weight_values :
  forall (incident_type : string) (current_time : datetime),
    let w := Sim.get_time_weight incident_type current_time in
    (w = 1 \/ w = 11 / 10 \/ w = 13 / 10)
    /\ (w = 13 / 10 ->
        Sim.in_list incident_type
          ["Assault"; "Robbery"; "Poor Lighting"; "Isolated Area"]%string = true)
    /\ (w = 11 / 10 -> incident_type = "Harassment"%string)
    /\ (Sim.in_list incident_type
          ["Assault"; "Robbery"; "Poor Lighting"; "Isolated Area"; "Harassment"]%string
        = false -> w = 1).
Proof.
  intros ty t w. unfold w, Sim.get_time_weight.
  rewrite in_list_harassment.
  assert (Hfive : Sim.in_list ty
            ["Assault"; "Robbery"; "Poor Lighting"; "Isolated Area"; "Harassment"]%string
          = Sim.in_list ty ["Assault"; "Robbery"; "Poor Lighting"; "Isolated Area"]%string
            || String.eqb ty "Harassment").
  { unfold Sim.in_list. cbn [existsb]. rewrite !orb_false_r, !orb_assoc. reflexivity. }
  rewrite Hfive.
  assert (Hnh := night_not_harassment ty).
  destruct ((20 <=? hour_of t) || (hour_of t <=? 4))%Z;
    [| destruct ((10 <=? hour_of t) && (hour_of t <=? 18))%Z];
    destruct (Sim.in_list ty ["Assault"; "Robbery"; "Poor Lighting"; "Isolated Area"]%string)
      eqn:En;
    destruct (String.eqb ty "Harassment") eqn:Eh;
    try (specialize (Hnh eq_refl); discriminate);
    try apply String.eqb_eq in Eh;
    cbn [orb]; repeat split; intros; auto;
    try (exfalso; lra); try discriminate.
Qed.

Lemma clock_monotone (clk : Sim.clock) :
  (forall n, (clk n <= clk (S n))%Z) -> forall k, (clk O <= clk k)%Z.
Proof.
  intros H k. induction k as [| k IH]; [lia |]. specialize (H k). lia.
Qed.

Lemma Forall2_In_r {A B : Type} (P : A -> B -> Prop) (l : list A) (l' : list B) (y : B) :
  Forall2 P l l' -> In y l' -> exists x, In x l /\ P x y.
Proof.
  induction 1 as [| a b l l' Hab Hl IH]; intros Hin; [contradiction |].
  destruct Hin as [<- | Hin].
  - exists a. split; [now left | exact Hab].
  - destruct (IH Hin) as (x & Hx & Hp). exists x. split; [now right | exact Hp].
Qed.

(** With a clock that never runs backwards, the incidents a cycle injects
    are dated at or after the time the cycle recomputes with: in that
    recompute their hours elapsed are not positive and their recency
    factor is at least 1, so they are not decayed. *)
Theorem injected_incidents_not_decayed :
  forall (incidents : list Sim.incident) (new : list Sim.gen_draws) (clk : Sim.clock),
    (forall n, (clk n <= clk (S n))%Z) ->
    let current_time := clk O in
    let pruned := Sim.prune incidents current_time in
    let after := fst (Sim.simulation_cycle incidents new clk) in
    (List.length pruned < 100)%nat ->
    List.length (skipn (List.length pruned) after) = List.length new
    /\ forall inc', In inc' (skipn (List.length pruned) after) ->
         (current_time <= Sim.timestamp inc')%Z
         /\ Sim.hours_elapsed inc' current_time <= 0
         /\ 1 <= Sim.recency_factor inc' current_time.
Proof.
  intros incidents new clk Hmono current_time pruned after Hcap.
  assert (Hafter : exists added clk1,
            after = fst (Sim.update_dynamic_scores (pruned ++ added) current_time clk1)
            /\ List.length added = List.length new
            /\ Forall (fun inc => 0 <= Sim.time_decay_factor inc
                                  /\ (current_time <= Sim.timestamp inc)%Z) added).
  { unfold after, Sim.simulation_cycle, Sim.now. fold current_time pruned.
    apply Nat.ltb_lt in Hcap. unfold Sim.MAX_ACTIVE_INCIDENTS. rewrite Hcap.
    destruct (inject_appends new pruned (fun n => clk (S n)))
      as (added & Heq & Hl & Hall & _).
    destruct (Sim.inject pruned new (fun n => clk (S n))) as [l clk1].
    cbn [fst] in Heq. subst l. exists added, clk1.
    split; [reflexivity |]. split; [exact Hl |].
    eapply Forall_impl; [| exact Hall].
    intros x (_ & Hd & _ & _ & k & _ & Hx). split; [exact Hd |].
    rewrite Hx. apply (clock_monotone clk Hmono). }
  destruct Hafter as (added & clk1 & Heq & Hlen & Hall).
  destruct (update_prefix current_time (pruned ++ added) clk1
              (List.length (pruned ++ added)) (le_n _)) as (_ & Hsame & _ & _).
  fold (Sim.update_dynamic_scores (pruned ++ added) current_time clk1) in Hsame.
  rewrite <- Heq in Hsame.
  apply Forall2_app_inv_l in Hsame as (l1 & l2 & H1 & H2 & Hsplit).
  assert (Hskip : skipn (List.length pruned) after = l2).
  { rewrite Hsplit, (Forall2_length H1), skipn_app, skipn_all, Nat.sub_diag. reflexivity. }
  rewrite Hskip. split.
  - rewrite <- (Forall2_length H2). exact Hlen.
  - intros inc' Hin.
    destruct (Forall2_In_r _ _ _ _ H2 Hin) as (inc & Hinc & Hs).
    rewrite Forall_forall in Hall. destruct (Hall inc Hinc) as [Hd Hts].
    destruct Hs as (_ & _ & _ & _ & _ & Hts' & Hd').
    rewrite Hts' in Hts. rewrite Hd' in Hd.
    assert (Hh : Sim.hours_elapsed inc' current_time <= 0).
    { unfold Sim.hours_elapsed, total_seconds.
      assert (IZR (current_time - Sim.timestamp inc') <= 0) by (apply IZR_le; lia).
      lra. }
    split; [exact Hts |]. split; [exact Hh |].
    unfold Sim.recency_factor. rewrite <- exp_0.
    set (a := - Sim.time_decay_factor inc' * Sim.hours_elapsed inc' current_time).
    assert (Ha : 0 <= a) by (unfold a; nra).
    destruct (Req_dec 0 a) as [<- | Hne]; [lra |].
    left. apply exp_increasing. lra.
Qed.

Lemma injected_incidents_not_decayed_witness :
  let clk : Sim.clock := fun n => (1704110400000000 + Z.of_nat n)%Z in
  let new := [Sim.mk_gen_draws 2 (9 / 10) 0 0 0 13 (802 / 10) 42 1704110400] in
  exists inc',
    In inc' (fst (Sim.simulation_cycle [] new clk))
    /\ 1 <= Sim.recency_factor inc' (clk O).
Proof.
  intros clk new.
  assert (Hmono : forall n, (clk n <= clk (S n))%Z) by (intros n; unfold clk; lia).
  destruct (injected_incidents_not_decayed [] new clk Hmono ltac:(simpl; lia))
    as [Hlen Hall].
  cbn [Sim.prune filter List.length skipn] in Hlen, Hall.
  destruct (fst (Sim.simulation_cycle [] new clk)) as [| x l]; [discriminate Hlen |].
  exists x. split; [now left |]. apply Hall. now left.
Defined.

End CycleProperties.
